(** * P2P escrow bot: a shallow embedding of [newbot.py] and [newuserbot.py]

    The Interactive Agent ([newbot.py]) keeps its per-room state in
    module-level dictionaries and sets and talks to the chat platform
    through a bot object; the Provisioning Agent ([newuserbot.py]) shares
    a JSON queue file with it.  The embedding keeps that shape: the
    module-level variables are the fields of one record, every handler is
    a computation in a state-and-exception monad over that record, every
    call on the bot is recorded in a trace together with its outcome, and
    the outcomes of the external calls (chat platform, ledger explorer)
    are inputs of the model.

    Text is modelled as strings of 8-bit characters with the ASCII case
    mapping; characters above 127 are left alone by [lower] and [upper]. *)

From stdpp Require Import gmap strings list.
From Stdlib Require Import Ascii String ZArith QArith Lia.

Open Scope Z_scope.
Open Scope string_scope.

(** ** Python strings *)

(** A string is a string of ASCII characters.  On such strings the
    functions of this module are those of Python.  On text with other
    characters Python's [str.upper], [str.lower], [str.strip] and [int]
    do more (they know the letters, spaces and digits of Unicode), which
    is not modelled: what is proved of a text that these functions read
    is proved of ASCII text. *)

Module PyStr.

(** [str.isspace] on the ASCII range, as used by [str.strip]. *)
Definition is_space (c : ascii) : bool :=
  let n := nat_of_ascii c in
  ((9 <=? n) && (n <=? 13) || (28 <=? n) && (n <=? 32))%nat.

(** [Py_ISSPACE], the whitespace [int(s, base)] skips in an ASCII string. *)
Definition is_c_space (c : ascii) : bool :=
  let n := nat_of_ascii c in
  ((9 <=? n) && (n <=? 13) || (n =? 32))%nat.

Definition lower_char (c : ascii) : ascii :=
  let n := nat_of_ascii c in
  if ((65 <=? n) && (n <=? 90))%nat then ascii_of_nat (n + 32) else c.

Definition upper_char (c : ascii) : ascii :=
  let n := nat_of_ascii c in
  if ((97 <=? n) && (n <=? 122))%nat then ascii_of_nat (n - 32) else c.

Fixpoint map_chars (f : ascii -> ascii) (s : string) : string :=
  match s with
  | EmptyString => EmptyString
  | String c r => String (f c) (map_chars f r)
  end.

(** [s.lower()] and [s.upper()] of an ASCII string. *)
Definition lower : string -> string := map_chars lower_char.
Definition upper : string -> string := map_chars upper_char.

Fixpoint lstrip_with (sp : ascii -> bool) (s : string) : string :=
  match s with
  | EmptyString => EmptyString
  | String c r => if sp c then lstrip_with sp r else s
  end.

Fixpoint rstrip_with (sp : ascii -> bool) (s : string) : string :=
  match s with
  | EmptyString => EmptyString
  | String c r =>
      match rstrip_with sp r with
      | EmptyString => if sp c then EmptyString else String c EmptyString
      | r' => String c r'
      end
  end.

Definition strip_with (sp : ascii -> bool) (s : string) : string :=
  rstrip_with sp (lstrip_with sp s).

(** [s.strip()] of an ASCII string. *)
Definition strip : string -> string := strip_with is_space.

(** [s.startswith(p)] *)
Definition startswith (p s : string) : bool := String.prefix p s.

(** [s[n:]] *)
Fixpoint drop (n : nat) (s : string) : string :=
  match n, s with
  | O, _ => s
  | S _, EmptyString => EmptyString
  | S n', String _ r => drop n' r
  end.

(** [s[a:b]] for [a <= b] *)
Definition slice (a b : nat) (s : string) : string := substring a (b - a) s.

(** [p in s] *)
Fixpoint contains (p s : string) : bool :=
  String.prefix p s ||
  match s with
  | EmptyString => false
  | String _ r => contains p r
  end.

(** [s.replace('0x', '')]: every occurrence, scanning from the left. *)
Fixpoint remove_0x (s : string) : string :=
  match s with
  | String "0" (String "x" r) => remove_0x r
  | String c r => String c (remove_0x r)
  | EmptyString => EmptyString
  end.

(** [s.split('tx/')[-1]]: what follows the last occurrence of ['tx/'],
    the whole string when there is none. *)
Fixpoint after_last_tx (s : string) : option string :=
  match s with
  | EmptyString => None
  | String _ r =>
      match after_last_tx r with
      | Some t => Some t
      | None => if String.prefix "tx/" s then Some (drop 3 s) else None
      end
  end.

Definition split_tx_last (s : string) : string :=
  match after_last_tx s with Some t => t | None => s end.

(** [s.split('?')[0]] *)
Fixpoint before_question (s : string) : string :=
  match s with
  | EmptyString => EmptyString
  | String c r => if Ascii.eqb c "?" then EmptyString else String c (before_question r)
  end.

(** ['c' * n] *)
Fixpoint repeat_char (c : ascii) (n : nat) : string :=
  match n with
  | O => EmptyString
  | S n' => String c (repeat_char c n')
  end.

Definition hex_value (c : ascii) : option Z :=
  let n := nat_of_ascii c in
  if ((48 <=? n) && (n <=? 57))%nat then Some (Z.of_nat (n - 48))
  else if ((97 <=? n) && (n <=? 102))%nat then Some (Z.of_nat (n - 87))
  else if ((65 <=? n) && (n <=? 70))%nat then Some (Z.of_nat (n - 55))
  else None.

Definition is_hex (c : ascii) : bool :=
  match hex_value c with Some _ => true | None => false end.

(** The digit loop of [int(s, 16)]: hexadecimal digits with single
    underscores between them; [prev_us] tells whether the previous
    character was an underscore, [seen] whether a digit was read. *)
Fixpoint hex_digits (acc : Z) (prev_us seen : bool) (s : string) : option Z :=
  match s with
  | EmptyString => if prev_us then None else if seen then Some acc else None
  | String c r =>
      if Ascii.eqb c "_" then
        if prev_us then None else hex_digits acc true seen r
      else
        match hex_value c with
        | Some d => hex_digits (16 * acc + d) false true r
        | None => None
        end
  end.

(** [int(s, 16)] on an ASCII string; [None] is [ValueError].  Leading and
    trailing whitespace, a sign, a [0x]/[0X] prefix (with one underscore
    after it) and single underscores between digits are accepted. *)
Definition int16 (s : string) : option Z :=
  let s1 := strip_with is_c_space s in
  let '(neg, s2) :=
    match s1 with
    | String "+" r => (false, r)
    | String "-" r => (true, r)
    | _ => (false, s1)
    end in
  let s3 :=
    match s2 with
    | String "0" (String "x" r) | String "0" (String "X" r) =>
        match r with String "_" r' => r' | _ => r end
    | _ => s2
    end in
  match s3 with
  | String "_" _ => None
  | _ =>
      match hex_digits 0 false false s3 with
      | Some v => Some (if neg then - v else v)
      | None => None
      end
  end.

Fixpoint all_chars (p : ascii -> bool) (s : string) : bool :=
  match s with
  | EmptyString => true
  | String c r => p c && all_chars p r
  end.

End PyStr.

(** ** JSON values, as [json.load] and [response.json()] return them *)

#[local] Set Warnings "-register-all".

Inductive json :=
| JNull
| JBool (b : bool)
| JNum (n : Z)
| JStr (s : string)
| JArr (items : list json)
| JObj (fields : list (string * json)).

Module Json.

(** Python truthiness of a decoded value. *)
Definition truthy (j : json) : bool :=
  match j with
  | JNull => false
  | JBool b => b
  | JNum n => negb (Z.eqb n 0)
  | JStr s => negb (String.eqb s "")
  | JArr l => match l with [] => false | _ => true end
  | JObj l => match l with [] => false | _ => true end
  end.

(** [d.get(k)] on a decoded object, whose keys are distinct. *)
Fixpoint get (k : string) (fields : list (string * json)) : option json :=
  match fields with
  | [] => None
  | (k', v) :: r => if String.eqb k k' then Some v else get k r
  end.

End Json.

(** ** The transaction verifier ([verify_transaction_bscscan]) *)

Module Verifier.
Import PyStr.

(** What [requests.get] and [response.json()] give for one lookup. *)
Inductive http_reply :=
| RequestRaised
| Response (text : string) (decoded : option json).

(** The [error] strings of the result dictionary. *)
Inductive reason :=
| BadLength        (* Invalid transaction hash format (must be at least 32 characters) *)
| NotHex           (* Transaction hash must contain only hexadecimal characters *)
| NoApiKey         (* API key not configured *)
| EmptyResponse    (* BSCscan API returned empty response *)
| BadJson          (* Invalid API response format *)
| NotToEscrow      (* Transaction not sent to escrow address *)
| Raised.          (* Error verifying transaction: <exception> *)

(** The result dictionary.  [amount_wei] is the integer the source divides
    by [1e6] and prints with two decimals; [block_number] is the value the
    source applies [str] to. *)
Record verdict := {
  valid : bool;
  amount_wei : option Z;
  from_address : option string;
  to_address : option string;
  block_number : option json;
  error : option reason
}.

Definition invalid (r : reason) : verdict :=
  {| valid := false; amount_wei := None; from_address := None;
     to_address := None; block_number := None; error := Some r |}.

(** [tx_hash.strip()] with the [0x] prefix added when missing. *)
Definition normalize (tx_hash : string) : string :=
  let h := strip tx_hash in
  if startswith "0x" h then h else "0x" ++ h.

(** The two checks made before the explorer is called. *)
Definition well_formed (tx_hash : string) : bool :=
  let h := normalize tx_hash in
  negb (String.length h <? 32)%nat &&
  match int16 (remove_0x h) with Some _ => true | None => false end.

(** [data.get('result') and isinstance(data.get('result'), dict)] *)
Definition found_tx (fields : list (string * json)) : option (list (string * json)) :=
  match Json.get "result" fields with
  | Some (JObj tx) => if Json.truthy (JObj tx) then Some tx else None
  | _ => None
  end.

(** [(tx_data.get(k) or '').lower()]; [None] when [.lower] raises. *)
Definition lower_or_empty (o : option json) : option string :=
  match o with
  | None => Some ""
  | Some j =>
      if Json.truthy j then
        match j with JStr s => Some (lower s) | _ => None end
      else Some ""
  end.

(** [int(tx_data.get('value', '0x0'), 16)], [0] when the conversion raises. *)
Definition value_wei (o : option json) : Z :=
  match o with
  | None => 0
  | Some (JStr s) => match int16 s with Some v => v | None => 0 end
  | Some _ => 0
  end.

Definition check_recipient (escrow from to : string) (wei : Z) (block : json) : verdict :=
  if negb (String.eqb to escrow) then invalid NotToEscrow
  else {| valid := true; amount_wei := Some wei; from_address := Some from;
          to_address := Some to; block_number := Some block; error := None |}.

Definition verify_transaction_bscscan
    (api_key : string) (ledger : string -> http_reply)
    (tx_hash escrow_address : string) : verdict :=
  let escrow := lower escrow_address in
  let h := normalize tx_hash in
  if (String.length h <? 32)%nat then invalid BadLength
  else match int16 (remove_0x h) with
  | None => invalid NotHex
  | Some _ =>
    if String.eqb api_key "" then invalid NoApiKey
    else match ledger h with
    | RequestRaised => invalid Raised
    | Response text decoded =>
      if String.eqb text "" then invalid EmptyResponse
      else match decoded with
      | None => invalid BadJson
      | Some (JObj fields) =>
          match found_tx fields with
          | Some tx =>
              match lower_or_empty (Json.get "from" tx),
                    lower_or_empty (Json.get "to" tx) with
              | Some from, Some to =>
                  check_recipient escrow from to
                    (value_wei (Json.get "value" tx))
                    (default (JStr "N/A") (Json.get "blockNumber" tx))
              | _, _ => invalid Raised
              end
          | None =>
              (* API didn't find the transaction - use test defaults *)
              let from :=
                if (42 <? String.length h)%nat then "0x" ++ slice 2 42 h
                else "0x" ++ repeat_char "1" 40 in
              check_recipient escrow from escrow 100000000 (JStr "0")
          end
      | Some _ => invalid Raised
      end
    end
  end.

(** The replies for which the verifier answers [valid = False]: the
    request raised, the body is empty or is not JSON, the decoded body is
    not an object, or it carries a transaction whose recipient is not a
    string equal, once lowered, to the lowered escrow address. *)
Definition rejected_reply (escrow : string) (r : http_reply) : Prop :=
  match r with
  | RequestRaised => True
  | Response text decoded =>
      text = "" \/
      match decoded with
      | None => True
      | Some (JObj fields) =>
          match found_tx fields with
          | Some tx =>
              lower_or_empty (Json.get "from" tx) = None \/
              lower_or_empty (Json.get "to" tx) <> Some (lower escrow)
          | None => False
          end
      | Some _ => True
      end
  end.

(** A reply that parses as an object holding no transaction object. *)
Definition no_transaction (r : http_reply) : Prop :=
  match r with
  | Response text (Some (JObj fields)) => text <> "" /\ found_tx fields = None
  | _ => False
  end.

(** The claim in the spec's words: the lookup did not return the
    transaction, the response cannot be parsed, or the returned recipient
    is not the expected escrow address. *)
Definition spec_failed_lookup (escrow : string) (r : http_reply) : Prop :=
  match r with
  | RequestRaised => True
  | Response _ None => True
  | Response _ (Some (JObj fields)) =>
      match found_tx fields with
      | None => True
      | Some tx => lower_or_empty (Json.get "to" tx) <> Some (lower escrow)
      end
  | Response _ (Some _) => True
  end.

End Verifier.

(** ** Python floats and dictionaries *)

(** A binary64 value: not-a-number, an infinity, or a finite value, which
    is a rational.  Comparisons with the integer constants of the source
    are exact on this representation. *)
Inductive pyfloat :=
| FNaN
| FInf (negative : bool)
| FFin (q : Q).

Module PyFloat.

(** [x < n] for an integer constant [n]; false on NaN. *)
Definition lt_int (x : pyfloat) (n : Z) : bool :=
  match x with
  | FNaN => false
  | FInf negative => negative
  | FFin q => negb (Qle_bool (inject_Z n) q)
  end.

(** Truthiness: only zero is false. *)
Definition truthy (x : pyfloat) : bool :=
  match x with
  | FFin q => negb (Qeq_bool q 0)
  | _ => true
  end.

(** A reader for a part of what Python's [float] reads: an optional
    sign, then [nan], [inf], [infinity], or decimal digits with an
    optional point.  Where it reads a value that is a binary64 number,
    such as for ["1000"], ["0"], ["80"] and ["89.5"], [float] reads the
    same value.  It stands in for [float] in the examples; the handlers
    take the reader as a parameter, so what is proved of them holds for
    [float] itself. *)
Definition digit_value (c : ascii) : option Z :=
  let n := nat_of_ascii c in
  if ((48 <=? n) && (n <=? 57))%nat then Some (Z.of_nat (n - 48)) else None.

Fixpoint read_fraction (num den : Z) (s : string) : option Q :=
  match s with
  | EmptyString => Some (Qmake num (Z.to_pos den))
  | String c r =>
      match digit_value c with
      | Some d => read_fraction (10 * num + d) (10 * den) r
      | None => None
      end
  end.

Fixpoint read_digits (acc : Z) (seen : bool) (s : string) : option Q :=
  match s with
  | EmptyString => if seen then Some (inject_Z acc) else None
  | String c r =>
      if Ascii.eqb c "." then
        if seen then read_fraction acc 1 r
        else match r with EmptyString => None | _ => read_fraction 0 1 r end
      else
        match digit_value c with
        | Some d => read_digits (10 * acc + d) true r
        | None => None
        end
  end.

Definition literal (s : string) : option pyfloat :=
  let t := PyStr.lower (PyStr.strip s) in
  let '(negative, body) :=
    match t with
    | String "+" r => (false, r)
    | String "-" r => (true, r)
    | _ => (false, t)
    end in
  if String.eqb body "nan" then Some FNaN
  else if String.eqb body "inf" || String.eqb body "infinity" then Some (FInf negative)
  else match read_digits 0 false body with
       | Some q => Some (FFin (if negative then Qopp q else q))
       | None => None
       end.

End PyFloat.

(** A [dict] whose iteration order matters: the items in insertion
    order. *)
Definition pydict (K V : Type) := list (K * V).

Module PyDict.
Section Ops.
Context {K V : Type} `{EqDecision K}.

(** [d.get(k)] *)
Fixpoint get (k : K) (d : pydict K V) : option V :=
  match d with
  | [] => None
  | (k', v) :: r => if decide (k = k') then Some v else get k r
  end.

(** [d[k] = v]: an existing key keeps its place, a new one goes last. *)
Fixpoint set (k : K) (v : V) (d : pydict K V) : pydict K V :=
  match d with
  | [] => [(k, v)]
  | (k', v') :: r =>
      if decide (k = k') then (k, v) :: r else (k', v') :: set k v r
  end.

(** [del d[k]] for a key that may be absent. *)
Fixpoint remove (k : K) (d : pydict K V) : pydict K V :=
  match d with
  | [] => []
  | (k', v') :: r =>
      if decide (k = k') then r else (k', v') :: remove k r
  end.

(** [list(d.keys())] *)
Definition keys (d : pydict K V) : list K := map fst d.

(** The value the loop [for k, v in d.items(): x = v; break] leaves
    in [x]. *)
Definition first_value (d : pydict K V) : option V :=
  match d with
  | [] => None
  | (_, v) :: _ => Some v
  end.
End Ops.
End PyDict.

(** ** The data of a room *)

(** The values of [room_transaction_state]. *)
Inductive step :=
| step1                 (* waiting for the amount *)
| step2                 (* waiting for the rate *)
| step3                 (* waiting for the payment method *)
| step4                 (* waiting for the blockchain button *)
| step5                 (* waiting for the coin button *)
| step6_buyer_address
| step7_seller_address
| deal_summary
| awaiting_hash.

Inductive role := BUYER | SELLER.
Inductive status := waiting | approved | rejected.
Inductive chain := BSC.
Inductive coin := USDT | USDC.

#[global] Instance step_eq_dec : EqDecision step.
Proof. solve_decision. Defined.
#[global] Instance role_eq_dec : EqDecision role.
Proof. solve_decision. Defined.
#[global] Instance status_eq_dec : EqDecision status.
Proof. solve_decision. Defined.
#[global] Instance chain_eq_dec : EqDecision chain.
Proof. solve_decision. Defined.
#[global] Instance coin_eq_dec : EqDecision coin.
Proof. solve_decision. Defined.

(** [room_initiators[chat_id]]: the usernames under ['buyer'] and
  ['seller'], [None] for Python's [None]. *)
Record parties := { buyer : option string; seller : option string }.

(** [role_messages[chat_id]] *)
Record role_message := {
role_msg_id : Z;
role_send_chat_id : Z;
role_initiator : string;
role_counterparty : string
}.

(** [room_messages[str(chat_id)]]; the stored caption and image path are
  left out. *)
Record room_message_info := {
initiator_msg_id : option Z;
counterparty_msg_id : option Z;
deal_created_msg_id : option Z;
deal_created_chat_id : option Z
}.

(** The [result] of a completed request, written by the Provisioning
  Agent. *)
Record deal_result := {
result_chat_id : option Z;
result_room_name : option string;
result_invite_link : option string;
result_bot_invite_link : option string
}.

(** An entry of [deal_requests.json]. *)
Record deal_request := {
initiator_id : Z;
initiator_username : string;
initiator_chat_id : Z;
counterparty_username : string;
request_status : string;
result : option deal_result;
sent : bool
}.

(** An entry of [deal_rooms.json]. *)
Record room_info := {
room_name : option string;
room_initiator_username : option string;
room_counterparty_username : option string
}.

(** [valid_payment_methods] *)
Definition valid_payment_methods : list string :=
["UPI"; "CDM"; "CCW"; "CASH"; "ATM"; "CARDLESS"; "IMPS"; "RTGS"; "NEFT"].

Definition master_hash : string :=
"0x6f83337833118197454614dGe9168365dd3c85232dadb6bbd97f4e240eb5c7dd9".

Definition deposit_addresses_map (key : option chain * option coin) : option string :=
match key with
| (Some BSC, Some USDT) => Some "0xDA4c2a5B876b0c7521e1c752690D8705080000fE"
| (Some BSC, Some USDC) => Some "0xDA4c2a5B876b0c7521e1c752690D8705080000fE"
| _ => None
end.

Definition USDT_BSC_ADDRESSES : list string :=
["0xDA4c2a5B876b0c7521e1c752690D8705080000fE";
 "0xf282e789e835ed379aea84ece204d2d643e6774f"].

Definition USDC_BSC_ADDRESSES : list string :=
["0xAe6313dE2fDD754734074D8a6F4835c10827115b";
 "0xC941064db91dB2B54e3Acd909a7020583f05bD14"].

(** ** The module-level variables of [newbot.py] and the two JSON files *)

Record state := {
room_transaction_state : gmap Z step;  (* {chat_id: step} *)
room_awaiting_hash : gset Z;  (* rooms awaiting a transaction hash *)
user_amounts : pydict Z pyfloat;  (* {user_id: amount} *)
user_rates : pydict Z pyfloat;  (* {user_id: rate} *)
user_payment_methods : pydict Z string;  (* {user_id: method} *)
user_blockchain : gmap Z chain;  (* {chat_id: blockchain} *)
user_coins : gmap Z coin;  (* {chat_id: coin} *)
buyer_addresses : gmap Z string;  (* {chat_id: address} *)
seller_addresses : gmap Z string;  (* {chat_id: address} *)
room_initiators : gmap Z parties;  (* {chat_id: {'buyer': username, 'seller': username}} *)
approvals : gmap Z (bool * bool);  (* {chat_id: {'buyer': bool, 'seller': bool}} *)
release_approvals : gmap Z (status * status);  (* {chat_id: {'buyer': status, 'seller': status}} *)
release_messages : gmap Z Z;  (* {chat_id: message_id} *)
user_roles : gmap Z (pydict string role);  (* {chat_id: {username.lower(): role}} *)
role_messages : gmap Z role_message;  (* {chat_id: (message_id, send_chat_id, initiator, counterparty)} *)
step1_messages_sent : gset Z;  (* rooms that were sent step 1 *)
room_confirmed_deposits : gmap Z pyfloat;  (* {chat_id: amount} *)
deposit_address_messages : gmap Z Z;  (* {chat_id: message_id} *)
deal_summary_messages : gmap Z Z;  (* {chat_id: message_id} *)
seller_wallet_messages : gmap Z Z;  (* {chat_id: message_id} *)
step4_messages : gmap Z Z;  (* {chat_id: message_id} *)
usdt_bsc_address_index : nat;  (* next USDT BSC address *)
usdc_bsc_address_index : nat;  (* next USDC BSC address *)
disclaimer_sent : gset Z;  (* rooms that were sent the disclaimer *)
role_selection_sent : gset Z;  (* rooms that were sent the role selection *)
processed_rooms : gset Z;  (* rooms that were sent the waiting messages *)
rooms_waiting_for_requests : gset Z;  (* rooms waiting for join requests *)
room_messages : gmap Z room_message_info;  (* {str(chat_id): message ids} *)
room_joined_users : gmap Z (list string);  (* {chat_id: set of usernames} *)
deal_queue_file : option (list deal_request);  (* deal_requests.json, None when absent *)
deal_rooms_file : option (pydict Z room_info)  (* deal_rooms.json, None when absent *)
}.

(** One update function per variable. *)
Definition set_room_transaction_state (v : gmap Z step) (s : state) : state :=
Build_state v (s.(room_awaiting_hash)) (s.(user_amounts)) (s.(user_rates))
  (s.(user_payment_methods)) (s.(user_blockchain)) (s.(user_coins)) (s.(buyer_addresses))
  (s.(seller_addresses)) (s.(room_initiators)) (s.(approvals)) (s.(release_approvals))
  (s.(release_messages)) (s.(user_roles)) (s.(role_messages)) (s.(step1_messages_sent))
  (s.(room_confirmed_deposits)) (s.(deposit_address_messages)) (s.(deal_summary_messages))
  (s.(seller_wallet_messages)) (s.(step4_messages)) (s.(usdt_bsc_address_index))
  (s.(usdc_bsc_address_index)) (s.(disclaimer_sent)) (s.(role_selection_sent))
  (s.(processed_rooms)) (s.(rooms_waiting_for_requests)) (s.(room_messages))
  (s.(room_joined_users)) (s.(deal_queue_file)) (s.(deal_rooms_file)).
Definition set_room_awaiting_hash (v : gset Z) (s : state) : state :=
Build_state (s.(room_transaction_state)) v (s.(user_amounts)) (s.(user_rates))
  (s.(user_payment_methods)) (s.(user_blockchain)) (s.(user_coins)) (s.(buyer_addresses))
  (s.(seller_addresses)) (s.(room_initiators)) (s.(approvals)) (s.(release_approvals))
  (s.(release_messages)) (s.(user_roles)) (s.(role_messages)) (s.(step1_messages_sent))
  (s.(room_confirmed_deposits)) (s.(deposit_address_messages)) (s.(deal_summary_messages))
  (s.(seller_wallet_messages)) (s.(step4_messages)) (s.(usdt_bsc_address_index))
  (s.(usdc_bsc_address_index)) (s.(disclaimer_sent)) (s.(role_selection_sent))
  (s.(processed_rooms)) (s.(rooms_waiting_for_requests)) (s.(room_messages))
  (s.(room_joined_users)) (s.(deal_queue_file)) (s.(deal_rooms_file)).
Definition set_user_amounts (v : pydict Z pyfloat) (s : state) : state :=
Build_state (s.(room_transaction_state)) (s.(room_awaiting_hash)) v (s.(user_rates))
  (s.(user_payment_methods)) (s.(user_blockchain)) (s.(user_coins)) (s.(buyer_addresses))
  (s.(seller_addresses)) (s.(room_initiators)) (s.(approvals)) (s.(release_approvals))
  (s.(release_messages)) (s.(user_roles)) (s.(role_messages)) (s.(step1_messages_sent))
  (s.(room_confirmed_deposits)) (s.(deposit_address_messages)) (s.(deal_summary_messages))
  (s.(seller_wallet_messages)) (s.(step4_messages)) (s.(usdt_bsc_address_index))
  (s.(usdc_bsc_address_index)) (s.(disclaimer_sent)) (s.(role_selection_sent))
  (s.(processed_rooms)) (s.(rooms_waiting_for_requests)) (s.(room_messages))
  (s.(room_joined_users)) (s.(deal_queue_file)) (s.(deal_rooms_file)).
Definition set_user_rates (v : pydict Z pyfloat) (s : state) : state :=
Build_state (s.(room_transaction_state)) (s.(room_awaiting_hash)) (s.(user_amounts)) v
  (s.(user_payment_methods)) (s.(user_blockchain)) (s.(user_coins)) (s.(buyer_addresses))
  (s.(seller_addresses)) (s.(room_initiators)) (s.(approvals)) (s.(release_approvals))
  (s.(release_messages)) (s.(user_roles)) (s.(role_messages)) (s.(step1_messages_sent))
  (s.(room_confirmed_deposits)) (s.(deposit_address_messages)) (s.(deal_summary_messages))
  (s.(seller_wallet_messages)) (s.(step4_messages)) (s.(usdt_bsc_address_index))
  (s.(usdc_bsc_address_index)) (s.(disclaimer_sent)) (s.(role_selection_sent))
  (s.(processed_rooms)) (s.(rooms_waiting_for_requests)) (s.(room_messages))
  (s.(room_joined_users)) (s.(deal_queue_file)) (s.(deal_rooms_file)).
Definition set_user_payment_methods (v : pydict Z string) (s : state) : state :=
Build_state (s.(room_transaction_state)) (s.(room_awaiting_hash)) (s.(user_amounts))
  (s.(user_rates)) v (s.(user_blockchain)) (s.(user_coins)) (s.(buyer_addresses))
  (s.(seller_addresses)) (s.(room_initiators)) (s.(approvals)) (s.(release_approvals))
  (s.(release_messages)) (s.(user_roles)) (s.(role_messages)) (s.(step1_messages_sent))
  (s.(room_confirmed_deposits)) (s.(deposit_address_messages)) (s.(deal_summary_messages))
  (s.(seller_wallet_messages)) (s.(step4_messages)) (s.(usdt_bsc_address_index))
  (s.(usdc_bsc_address_index)) (s.(disclaimer_sent)) (s.(role_selection_sent))
  (s.(processed_rooms)) (s.(rooms_waiting_for_requests)) (s.(room_messages))
  (s.(room_joined_users)) (s.(deal_queue_file)) (s.(deal_rooms_file)).
Definition set_user_blockchain (v : gmap Z chain) (s : state) : state :=
Build_state (s.(room_transaction_state)) (s.(room_awaiting_hash)) (s.(user_amounts))
  (s.(user_rates)) (s.(user_payment_methods)) v (s.(user_coins)) (s.(buyer_addresses))
  (s.(seller_addresses)) (s.(room_initiators)) (s.(approvals)) (s.(release_approvals))
  (s.(release_messages)) (s.(user_roles)) (s.(role_messages)) (s.(step1_messages_sent))
  (s.(room_confirmed_deposits)) (s.(deposit_address_messages)) (s.(deal_summary_messages))
  (s.(seller_wallet_messages)) (s.(step4_messages)) (s.(usdt_bsc_address_index))
  (s.(usdc_bsc_address_index)) (s.(disclaimer_sent)) (s.(role_selection_sent))
  (s.(processed_rooms)) (s.(rooms_waiting_for_requests)) (s.(room_messages))
  (s.(room_joined_users)) (s.(deal_queue_file)) (s.(deal_rooms_file)).
Definition set_user_coins (v : gmap Z coin) (s : state) : state :=
Build_state (s.(room_transaction_state)) (s.(room_awaiting_hash)) (s.(user_amounts))
  (s.(user_rates)) (s.(user_payment_methods)) (s.(user_blockchain)) v (s.(buyer_addresses))
  (s.(seller_addresses)) (s.(room_initiators)) (s.(approvals)) (s.(release_approvals))
  (s.(release_messages)) (s.(user_roles)) (s.(role_messages)) (s.(step1_messages_sent))
  (s.(room_confirmed_deposits)) (s.(deposit_address_messages)) (s.(deal_summary_messages))
  (s.(seller_wallet_messages)) (s.(step4_messages)) (s.(usdt_bsc_address_index))
  (s.(usdc_bsc_address_index)) (s.(disclaimer_sent)) (s.(role_selection_sent))
  (s.(processed_rooms)) (s.(rooms_waiting_for_requests)) (s.(room_messages))
  (s.(room_joined_users)) (s.(deal_queue_file)) (s.(deal_rooms_file)).
Definition set_buyer_addresses (v : gmap Z string) (s : state) : state :=
Build_state (s.(room_transaction_state)) (s.(room_awaiting_hash)) (s.(user_amounts))
  (s.(user_rates)) (s.(user_payment_methods)) (s.(user_blockchain)) (s.(user_coins)) v
  (s.(seller_addresses)) (s.(room_initiators)) (s.(approvals)) (s.(release_approvals))
  (s.(release_messages)) (s.(user_roles)) (s.(role_messages)) (s.(step1_messages_sent))
  (s.(room_confirmed_deposits)) (s.(deposit_address_messages)) (s.(deal_summary_messages))
  (s.(seller_wallet_messages)) (s.(step4_messages)) (s.(usdt_bsc_address_index))
  (s.(usdc_bsc_address_index)) (s.(disclaimer_sent)) (s.(role_selection_sent))
  (s.(processed_rooms)) (s.(rooms_waiting_for_requests)) (s.(room_messages))
  (s.(room_joined_users)) (s.(deal_queue_file)) (s.(deal_rooms_file)).
Definition set_seller_addresses (v : gmap Z string) (s : state) : state :=
Build_state (s.(room_transaction_state)) (s.(room_awaiting_hash)) (s.(user_amounts))
  (s.(user_rates)) (s.(user_payment_methods)) (s.(user_blockchain)) (s.(user_coins))
  (s.(buyer_addresses)) v (s.(room_initiators)) (s.(approvals)) (s.(release_approvals))
  (s.(release_messages)) (s.(user_roles)) (s.(role_messages)) (s.(step1_messages_sent))
  (s.(room_confirmed_deposits)) (s.(deposit_address_messages)) (s.(deal_summary_messages))
  (s.(seller_wallet_messages)) (s.(step4_messages)) (s.(usdt_bsc_address_index))
  (s.(usdc_bsc_address_index)) (s.(disclaimer_sent)) (s.(role_selection_sent))
  (s.(processed_rooms)) (s.(rooms_waiting_for_requests)) (s.(room_messages))
  (s.(room_joined_users)) (s.(deal_queue_file)) (s.(deal_rooms_file)).
Definition set_room_initiators (v : gmap Z parties) (s : state) : state :=
Build_state (s.(room_transaction_state)) (s.(room_awaiting_hash)) (s.(user_amounts))
  (s.(user_rates)) (s.(user_payment_methods)) (s.(user_blockchain)) (s.(user_coins))
  (s.(buyer_addresses)) (s.(seller_addresses)) v (s.(approvals)) (s.(release_approvals))
  (s.(release_messages)) (s.(user_roles)) (s.(role_messages)) (s.(step1_messages_sent))
  (s.(room_confirmed_deposits)) (s.(deposit_address_messages)) (s.(deal_summary_messages))
  (s.(seller_wallet_messages)) (s.(step4_messages)) (s.(usdt_bsc_address_index))
  (s.(usdc_bsc_address_index)) (s.(disclaimer_sent)) (s.(role_selection_sent))
  (s.(processed_rooms)) (s.(rooms_waiting_for_requests)) (s.(room_messages))
  (s.(room_joined_users)) (s.(deal_queue_file)) (s.(deal_rooms_file)).
Definition set_approvals (v : gmap Z (bool * bool)) (s : state) : state :=
Build_state (s.(room_transaction_state)) (s.(room_awaiting_hash)) (s.(user_amounts))
  (s.(user_rates)) (s.(user_payment_methods)) (s.(user_blockchain)) (s.(user_coins))
  (s.(buyer_addresses)) (s.(seller_addresses)) (s.(room_initiators)) v
  (s.(release_approvals)) (s.(release_messages)) (s.(user_roles)) (s.(role_messages))
  (s.(step1_messages_sent)) (s.(room_confirmed_deposits)) (s.(deposit_address_messages))
  (s.(deal_summary_messages)) (s.(seller_wallet_messages)) (s.(step4_messages))
  (s.(usdt_bsc_address_index)) (s.(usdc_bsc_address_index)) (s.(disclaimer_sent))
  (s.(role_selection_sent)) (s.(processed_rooms)) (s.(rooms_waiting_for_requests))
  (s.(room_messages)) (s.(room_joined_users)) (s.(deal_queue_file)) (s.(deal_rooms_file)).
Definition set_release_approvals (v : gmap Z (status * status)) (s : state) : state :=
Build_state (s.(room_transaction_state)) (s.(room_awaiting_hash)) (s.(user_amounts))
  (s.(user_rates)) (s.(user_payment_methods)) (s.(user_blockchain)) (s.(user_coins))
  (s.(buyer_addresses)) (s.(seller_addresses)) (s.(room_initiators)) (s.(approvals)) v
  (s.(release_messages)) (s.(user_roles)) (s.(role_messages)) (s.(step1_messages_sent))
  (s.(room_confirmed_deposits)) (s.(deposit_address_messages)) (s.(deal_summary_messages))
  (s.(seller_wallet_messages)) (s.(step4_messages)) (s.(usdt_bsc_address_index))
  (s.(usdc_bsc_address_index)) (s.(disclaimer_sent)) (s.(role_selection_sent))
  (s.(processed_rooms)) (s.(rooms_waiting_for_requests)) (s.(room_messages))
  (s.(room_joined_users)) (s.(deal_queue_file)) (s.(deal_rooms_file)).
Definition set_release_messages (v : gmap Z Z) (s : state) : state :=
Build_state (s.(room_transaction_state)) (s.(room_awaiting_hash)) (s.(user_amounts))
  (s.(user_rates)) (s.(user_payment_methods)) (s.(user_blockchain)) (s.(user_coins))
  (s.(buyer_addresses)) (s.(seller_addresses)) (s.(room_initiators)) (s.(approvals))
  (s.(release_approvals)) v (s.(user_roles)) (s.(role_messages)) (s.(step1_messages_sent))
  (s.(room_confirmed_deposits)) (s.(deposit_address_messages)) (s.(deal_summary_messages))
  (s.(seller_wallet_messages)) (s.(step4_messages)) (s.(usdt_bsc_address_index))
  (s.(usdc_bsc_address_index)) (s.(disclaimer_sent)) (s.(role_selection_sent))
  (s.(processed_rooms)) (s.(rooms_waiting_for_requests)) (s.(room_messages))
  (s.(room_joined_users)) (s.(deal_queue_file)) (s.(deal_rooms_file)).
Definition set_user_roles (v : gmap Z (pydict string role)) (s : state) : state :=
Build_state (s.(room_transaction_state)) (s.(room_awaiting_hash)) (s.(user_amounts))
  (s.(user_rates)) (s.(user_payment_methods)) (s.(user_blockchain)) (s.(user_coins))
  (s.(buyer_addresses)) (s.(seller_addresses)) (s.(room_initiators)) (s.(approvals))
  (s.(release_approvals)) (s.(release_messages)) v (s.(role_messages))
  (s.(step1_messages_sent)) (s.(room_confirmed_deposits)) (s.(deposit_address_messages))
  (s.(deal_summary_messages)) (s.(seller_wallet_messages)) (s.(step4_messages))
  (s.(usdt_bsc_address_index)) (s.(usdc_bsc_address_index)) (s.(disclaimer_sent))
  (s.(role_selection_sent)) (s.(processed_rooms)) (s.(rooms_waiting_for_requests))
  (s.(room_messages)) (s.(room_joined_users)) (s.(deal_queue_file)) (s.(deal_rooms_file)).
Definition set_role_messages (v : gmap Z role_message) (s : state) : state :=
Build_state (s.(room_transaction_state)) (s.(room_awaiting_hash)) (s.(user_amounts))
  (s.(user_rates)) (s.(user_payment_methods)) (s.(user_blockchain)) (s.(user_coins))
  (s.(buyer_addresses)) (s.(seller_addresses)) (s.(room_initiators)) (s.(approvals))
  (s.(release_approvals)) (s.(release_messages)) (s.(user_roles)) v (s.(step1_messages_sent))
  (s.(room_confirmed_deposits)) (s.(deposit_address_messages)) (s.(deal_summary_messages))
  (s.(seller_wallet_messages)) (s.(step4_messages)) (s.(usdt_bsc_address_index))
  (s.(usdc_bsc_address_index)) (s.(disclaimer_sent)) (s.(role_selection_sent))
  (s.(processed_rooms)) (s.(rooms_waiting_for_requests)) (s.(room_messages))
  (s.(room_joined_users)) (s.(deal_queue_file)) (s.(deal_rooms_file)).
Definition set_step1_messages_sent (v : gset Z) (s : state) : state :=
Build_state (s.(room_transaction_state)) (s.(room_awaiting_hash)) (s.(user_amounts))
  (s.(user_rates)) (s.(user_payment_methods)) (s.(user_blockchain)) (s.(user_coins))
  (s.(buyer_addresses)) (s.(seller_addresses)) (s.(room_initiators)) (s.(approvals))
  (s.(release_approvals)) (s.(release_messages)) (s.(user_roles)) (s.(role_messages)) v
  (s.(room_confirmed_deposits)) (s.(deposit_address_messages)) (s.(deal_summary_messages))
  (s.(seller_wallet_messages)) (s.(step4_messages)) (s.(usdt_bsc_address_index))
  (s.(usdc_bsc_address_index)) (s.(disclaimer_sent)) (s.(role_selection_sent))
  (s.(processed_rooms)) (s.(rooms_waiting_for_requests)) (s.(room_messages))
  (s.(room_joined_users)) (s.(deal_queue_file)) (s.(deal_rooms_file)).
Definition set_room_confirmed_deposits (v : gmap Z pyfloat) (s : state) : state :=
Build_state (s.(room_transaction_state)) (s.(room_awaiting_hash)) (s.(user_amounts))
  (s.(user_rates)) (s.(user_payment_methods)) (s.(user_blockchain)) (s.(user_coins))
  (s.(buyer_addresses)) (s.(seller_addresses)) (s.(room_initiators)) (s.(approvals))
  (s.(release_approvals)) (s.(release_messages)) (s.(user_roles)) (s.(role_messages))
  (s.(step1_messages_sent)) v (s.(deposit_address_messages)) (s.(deal_summary_messages))
  (s.(seller_wallet_messages)) (s.(step4_messages)) (s.(usdt_bsc_address_index))
  (s.(usdc_bsc_address_index)) (s.(disclaimer_sent)) (s.(role_selection_sent))
  (s.(processed_rooms)) (s.(rooms_waiting_for_requests)) (s.(room_messages))
  (s.(room_joined_users)) (s.(deal_queue_file)) (s.(deal_rooms_file)).
Definition set_deposit_address_messages (v : gmap Z Z) (s : state) : state :=
Build_state (s.(room_transaction_state)) (s.(room_awaiting_hash)) (s.(user_amounts))
  (s.(user_rates)) (s.(user_payment_methods)) (s.(user_blockchain)) (s.(user_coins))
  (s.(buyer_addresses)) (s.(seller_addresses)) (s.(room_initiators)) (s.(approvals))
  (s.(release_approvals)) (s.(release_messages)) (s.(user_roles)) (s.(role_messages))
  (s.(step1_messages_sent)) (s.(room_confirmed_deposits)) v (s.(deal_summary_messages))
  (s.(seller_wallet_messages)) (s.(step4_messages)) (s.(usdt_bsc_address_index))
  (s.(usdc_bsc_address_index)) (s.(disclaimer_sent)) (s.(role_selection_sent))
  (s.(processed_rooms)) (s.(rooms_waiting_for_requests)) (s.(room_messages))
  (s.(room_joined_users)) (s.(deal_queue_file)) (s.(deal_rooms_file)).
Definition set_deal_summary_messages (v : gmap Z Z) (s : state) : state :=
Build_state (s.(room_transaction_state)) (s.(room_awaiting_hash)) (s.(user_amounts))
  (s.(user_rates)) (s.(user_payment_methods)) (s.(user_blockchain)) (s.(user_coins))
  (s.(buyer_addresses)) (s.(seller_addresses)) (s.(room_initiators)) (s.(approvals))
  (s.(release_approvals)) (s.(release_messages)) (s.(user_roles)) (s.(role_messages))
  (s.(step1_messages_sent)) (s.(room_confirmed_deposits)) (s.(deposit_address_messages)) v
  (s.(seller_wallet_messages)) (s.(step4_messages)) (s.(usdt_bsc_address_index))
  (s.(usdc_bsc_address_index)) (s.(disclaimer_sent)) (s.(role_selection_sent))
  (s.(processed_rooms)) (s.(rooms_waiting_for_requests)) (s.(room_messages))
  (s.(room_joined_users)) (s.(deal_queue_file)) (s.(deal_rooms_file)).
Definition set_seller_wallet_messages (v : gmap Z Z) (s : state) : state :=
Build_state (s.(room_transaction_state)) (s.(room_awaiting_hash)) (s.(user_amounts))
  (s.(user_rates)) (s.(user_payment_methods)) (s.(user_blockchain)) (s.(user_coins))
  (s.(buyer_addresses)) (s.(seller_addresses)) (s.(room_initiators)) (s.(approvals))
  (s.(release_approvals)) (s.(release_messages)) (s.(user_roles)) (s.(role_messages))
  (s.(step1_messages_sent)) (s.(room_confirmed_deposits)) (s.(deposit_address_messages))
  (s.(deal_summary_messages)) v (s.(step4_messages)) (s.(usdt_bsc_address_index))
  (s.(usdc_bsc_address_index)) (s.(disclaimer_sent)) (s.(role_selection_sent))
  (s.(processed_rooms)) (s.(rooms_waiting_for_requests)) (s.(room_messages))
  (s.(room_joined_users)) (s.(deal_queue_file)) (s.(deal_rooms_file)).
Definition set_step4_messages (v : gmap Z Z) (s : state) : state :=
Build_state (s.(room_transaction_state)) (s.(room_awaiting_hash)) (s.(user_amounts))
  (s.(user_rates)) (s.(user_payment_methods)) (s.(user_blockchain)) (s.(user_coins))
  (s.(buyer_addresses)) (s.(seller_addresses)) (s.(room_initiators)) (s.(approvals))
  (s.(release_approvals)) (s.(release_messages)) (s.(user_roles)) (s.(role_messages))
  (s.(step1_messages_sent)) (s.(room_confirmed_deposits)) (s.(deposit_address_messages))
  (s.(deal_summary_messages)) (s.(seller_wallet_messages)) v (s.(usdt_bsc_address_index))
  (s.(usdc_bsc_address_index)) (s.(disclaimer_sent)) (s.(role_selection_sent))
  (s.(processed_rooms)) (s.(rooms_waiting_for_requests)) (s.(room_messages))
  (s.(room_joined_users)) (s.(deal_queue_file)) (s.(deal_rooms_file)).
Definition set_usdt_bsc_address_index (v : nat) (s : state) : state :=
Build_state (s.(room_transaction_state)) (s.(room_awaiting_hash)) (s.(user_amounts))
  (s.(user_rates)) (s.(user_payment_methods)) (s.(user_blockchain)) (s.(user_coins))
  (s.(buyer_addresses)) (s.(seller_addresses)) (s.(room_initiators)) (s.(approvals))
  (s.(release_approvals)) (s.(release_messages)) (s.(user_roles)) (s.(role_messages))
  (s.(step1_messages_sent)) (s.(room_confirmed_deposits)) (s.(deposit_address_messages))
  (s.(deal_summary_messages)) (s.(seller_wallet_messages)) (s.(step4_messages)) v
  (s.(usdc_bsc_address_index)) (s.(disclaimer_sent)) (s.(role_selection_sent))
  (s.(processed_rooms)) (s.(rooms_waiting_for_requests)) (s.(room_messages))
  (s.(room_joined_users)) (s.(deal_queue_file)) (s.(deal_rooms_file)).
Definition set_usdc_bsc_address_index (v : nat) (s : state) : state :=
Build_state (s.(room_transaction_state)) (s.(room_awaiting_hash)) (s.(user_amounts))
  (s.(user_rates)) (s.(user_payment_methods)) (s.(user_blockchain)) (s.(user_coins))
  (s.(buyer_addresses)) (s.(seller_addresses)) (s.(room_initiators)) (s.(approvals))
  (s.(release_approvals)) (s.(release_messages)) (s.(user_roles)) (s.(role_messages))
  (s.(step1_messages_sent)) (s.(room_confirmed_deposits)) (s.(deposit_address_messages))
  (s.(deal_summary_messages)) (s.(seller_wallet_messages)) (s.(step4_messages))
  (s.(usdt_bsc_address_index)) v (s.(disclaimer_sent)) (s.(role_selection_sent))
  (s.(processed_rooms)) (s.(rooms_waiting_for_requests)) (s.(room_messages))
  (s.(room_joined_users)) (s.(deal_queue_file)) (s.(deal_rooms_file)).
Definition set_disclaimer_sent (v : gset Z) (s : state) : state :=
Build_state (s.(room_transaction_state)) (s.(room_awaiting_hash)) (s.(user_amounts))
  (s.(user_rates)) (s.(user_payment_methods)) (s.(user_blockchain)) (s.(user_coins))
  (s.(buyer_addresses)) (s.(seller_addresses)) (s.(room_initiators)) (s.(approvals))
  (s.(release_approvals)) (s.(release_messages)) (s.(user_roles)) (s.(role_messages))
  (s.(step1_messages_sent)) (s.(room_confirmed_deposits)) (s.(deposit_address_messages))
  (s.(deal_summary_messages)) (s.(seller_wallet_messages)) (s.(step4_messages))
  (s.(usdt_bsc_address_index)) (s.(usdc_bsc_address_index)) v (s.(role_selection_sent))
  (s.(processed_rooms)) (s.(rooms_waiting_for_requests)) (s.(room_messages))
  (s.(room_joined_users)) (s.(deal_queue_file)) (s.(deal_rooms_file)).
Definition set_role_selection_sent (v : gset Z) (s : state) : state :=
Build_state (s.(room_transaction_state)) (s.(room_awaiting_hash)) (s.(user_amounts))
  (s.(user_rates)) (s.(user_payment_methods)) (s.(user_blockchain)) (s.(user_coins))
  (s.(buyer_addresses)) (s.(seller_addresses)) (s.(room_initiators)) (s.(approvals))
  (s.(release_approvals)) (s.(release_messages)) (s.(user_roles)) (s.(role_messages))
  (s.(step1_messages_sent)) (s.(room_confirmed_deposits)) (s.(deposit_address_messages))
  (s.(deal_summary_messages)) (s.(seller_wallet_messages)) (s.(step4_messages))
  (s.(usdt_bsc_address_index)) (s.(usdc_bsc_address_index)) (s.(disclaimer_sent)) v
  (s.(processed_rooms)) (s.(rooms_waiting_for_requests)) (s.(room_messages))
  (s.(room_joined_users)) (s.(deal_queue_file)) (s.(deal_rooms_file)).
Definition set_processed_rooms (v : gset Z) (s : state) : state :=
Build_state (s.(room_transaction_state)) (s.(room_awaiting_hash)) (s.(user_amounts))
  (s.(user_rates)) (s.(user_payment_methods)) (s.(user_blockchain)) (s.(user_coins))
  (s.(buyer_addresses)) (s.(seller_addresses)) (s.(room_initiators)) (s.(approvals))
  (s.(release_approvals)) (s.(release_messages)) (s.(user_roles)) (s.(role_messages))
  (s.(step1_messages_sent)) (s.(room_confirmed_deposits)) (s.(deposit_address_messages))
  (s.(deal_summary_messages)) (s.(seller_wallet_messages)) (s.(step4_messages))
  (s.(usdt_bsc_address_index)) (s.(usdc_bsc_address_index)) (s.(disclaimer_sent))
  (s.(role_selection_sent)) v (s.(rooms_waiting_for_requests)) (s.(room_messages))
  (s.(room_joined_users)) (s.(deal_queue_file)) (s.(deal_rooms_file)).
Definition set_rooms_waiting_for_requests (v : gset Z) (s : state) : state :=
Build_state (s.(room_transaction_state)) (s.(room_awaiting_hash)) (s.(user_amounts))
  (s.(user_rates)) (s.(user_payment_methods)) (s.(user_blockchain)) (s.(user_coins))
  (s.(buyer_addresses)) (s.(seller_addresses)) (s.(room_initiators)) (s.(approvals))
  (s.(release_approvals)) (s.(release_messages)) (s.(user_roles)) (s.(role_messages))
  (s.(step1_messages_sent)) (s.(room_confirmed_deposits)) (s.(deposit_address_messages))
  (s.(deal_summary_messages)) (s.(seller_wallet_messages)) (s.(step4_messages))
  (s.(usdt_bsc_address_index)) (s.(usdc_bsc_address_index)) (s.(disclaimer_sent))
  (s.(role_selection_sent)) (s.(processed_rooms)) v (s.(room_messages))
  (s.(room_joined_users)) (s.(deal_queue_file)) (s.(deal_rooms_file)).
Definition set_room_messages (v : gmap Z room_message_info) (s : state) : state :=
Build_state (s.(room_transaction_state)) (s.(room_awaiting_hash)) (s.(user_amounts))
  (s.(user_rates)) (s.(user_payment_methods)) (s.(user_blockchain)) (s.(user_coins))
  (s.(buyer_addresses)) (s.(seller_addresses)) (s.(room_initiators)) (s.(approvals))
  (s.(release_approvals)) (s.(release_messages)) (s.(user_roles)) (s.(role_messages))
  (s.(step1_messages_sent)) (s.(room_confirmed_deposits)) (s.(deposit_address_messages))
  (s.(deal_summary_messages)) (s.(seller_wallet_messages)) (s.(step4_messages))
  (s.(usdt_bsc_address_index)) (s.(usdc_bsc_address_index)) (s.(disclaimer_sent))
  (s.(role_selection_sent)) (s.(processed_rooms)) (s.(rooms_waiting_for_requests)) v
  (s.(room_joined_users)) (s.(deal_queue_file)) (s.(deal_rooms_file)).
Definition set_room_joined_users (v : gmap Z (list string)) (s : state) : state :=
Build_state (s.(room_transaction_state)) (s.(room_awaiting_hash)) (s.(user_amounts))
  (s.(user_rates)) (s.(user_payment_methods)) (s.(user_blockchain)) (s.(user_coins))
  (s.(buyer_addresses)) (s.(seller_addresses)) (s.(room_initiators)) (s.(approvals))
  (s.(release_approvals)) (s.(release_messages)) (s.(user_roles)) (s.(role_messages))
  (s.(step1_messages_sent)) (s.(room_confirmed_deposits)) (s.(deposit_address_messages))
  (s.(deal_summary_messages)) (s.(seller_wallet_messages)) (s.(step4_messages))
  (s.(usdt_bsc_address_index)) (s.(usdc_bsc_address_index)) (s.(disclaimer_sent))
  (s.(role_selection_sent)) (s.(processed_rooms)) (s.(rooms_waiting_for_requests))
  (s.(room_messages)) v (s.(deal_queue_file)) (s.(deal_rooms_file)).
Definition set_deal_queue_file (v : option (list deal_request)) (s : state) : state :=
Build_state (s.(room_transaction_state)) (s.(room_awaiting_hash)) (s.(user_amounts))
  (s.(user_rates)) (s.(user_payment_methods)) (s.(user_blockchain)) (s.(user_coins))
  (s.(buyer_addresses)) (s.(seller_addresses)) (s.(room_initiators)) (s.(approvals))
  (s.(release_approvals)) (s.(release_messages)) (s.(user_roles)) (s.(role_messages))
  (s.(step1_messages_sent)) (s.(room_confirmed_deposits)) (s.(deposit_address_messages))
  (s.(deal_summary_messages)) (s.(seller_wallet_messages)) (s.(step4_messages))
  (s.(usdt_bsc_address_index)) (s.(usdc_bsc_address_index)) (s.(disclaimer_sent))
  (s.(role_selection_sent)) (s.(processed_rooms)) (s.(rooms_waiting_for_requests))
  (s.(room_messages)) (s.(room_joined_users)) v (s.(deal_rooms_file)).
Definition set_deal_rooms_file (v : option (pydict Z room_info)) (s : state) : state :=
Build_state (s.(room_transaction_state)) (s.(room_awaiting_hash)) (s.(user_amounts))
  (s.(user_rates)) (s.(user_payment_methods)) (s.(user_blockchain)) (s.(user_coins))
  (s.(buyer_addresses)) (s.(seller_addresses)) (s.(room_initiators)) (s.(approvals))
  (s.(release_approvals)) (s.(release_messages)) (s.(user_roles)) (s.(role_messages))
  (s.(step1_messages_sent)) (s.(room_confirmed_deposits)) (s.(deposit_address_messages))
  (s.(deal_summary_messages)) (s.(seller_wallet_messages)) (s.(step4_messages))
  (s.(usdt_bsc_address_index)) (s.(usdc_bsc_address_index)) (s.(disclaimer_sent))
  (s.(role_selection_sent)) (s.(processed_rooms)) (s.(rooms_waiting_for_requests))
  (s.(room_messages)) (s.(room_joined_users)) (s.(deal_queue_file)) v.

(** ** The chat platform *)

(** The texts the bot sends, with the values they print. *)
Inductive message :=
| AmountTooLow                (* Amount must be at least 1 *)
| NotANumber                  (* Please enter a valid number *)
| RateTooLow                  (* Rate must be at least 85 *)
| InvalidPaymentMethod
| OnlyBuyerAddress            (* Only the buyer can provide their wallet address *)
| OnlySellerAddress
| InvalidAddressFormat
| Step1Prompt
| Step2Prompt
| Step3Prompt
| Step4Prompt
| SellerWalletPrompt (seller_username : string)
| DealSummaryText (amount : option pyfloat) (c : option coin) (rate : option pyfloat)
  (payment : option string) (buyer_address seller_address : string)
  (buyer_approved seller_approved : bool)
| DealConfirmed (amount : option pyfloat) (c : option coin) (rate : option pyfloat)
  (payment : option string) (buyer_address seller_address : string)
| DepositPrompt (c : coin) (b : chain) (deposit_address : string)
| DepositTextClean (c : coin) (b : chain) (escrow_address : string)
| HashRequest (seller_username : string)
| EscrowNotFound
| AmountNotFound
| DepositFound (amount : pyfloat) (seller_addr to_addr tx_hash : string)
| PaymentReceived
| VerificationFailed (why : Verifier.reason)
| ErrorText                   (* Error: <exception> *)
| ReleaseStatus (buyer_status seller_status : status)
| ReleaseFinal                (* the release prompt once both approved *)
| DealComplete (buyer_addr : string)
| NoActiveDeal
| GroupOnly
| DealRoomsOnly
| Disclaimer
| RoleSelection (initiator_role counterparty_role : option role)
| RoomRestarted
| RestartError
| DealRoomCreated (link initiator counterparty : string).

(** The texts of [query.answer]. *)
Inductive notice :=
| NotAuthorized
| ReleaseApproved
| ReleaseDeclined
| ErrorNotice
| NotAuthorizedDeal
| AlreadyApproved
| DealApproved (r : role)
| RoleExpired
| RoleTaken (r : role)
| RoleSelected (r : role)
| RoleError
| OnlySellerConfirms
| PaymentMarked.

(** The calls on the bot, the update and the callback query.  [send]
  stands for [send_photo] and for [send_message], which the source
  picks by the presence of an image file; [buttons] tells whether a
  keyboard is attached. *)
Inductive action :=
| reply_text (m : message)
| send (chat_id : Z) (m : message) (buttons : bool)
| edit_message_caption (chat_id message_id : Z) (m : message) (buttons : bool)
| query_edit_message_caption (m : message) (buttons : bool)
| answer (n : notice) (show_alert : bool)
| message_delete
| pin_chat_message (chat_id message_id : Z).

(** How a call ends. *)
Inductive outcome := Delivered (message_id : Z) | TimedOut | Failed.

Inductive event :=
| Bot (a : action) (o : outcome)
| Verify (tx_hash escrow_address : string).

Inductive exn := AttributeError | IndexError | TelegramError (timed_out : bool).

Inductive res (A : Type) := Done (a : A) | Raised (e : exn).
Arguments Done {A} a.
Arguments Raised {A} e.

(** The variables, the calls made so far (oldest first) and the outcomes
  of the calls to come; calls beyond the list are delivered. *)
Record world := { globals : state; trace : list event; net : list outcome }.

Definition M (A : Type) : Type := world -> res A * world.

#[global] Instance M_ret : MRet M := fun A a w => (Done a, w).
#[global] Instance M_bind : MBind M := fun A B f m w =>
match m w with
| (Done a, w') => f a w'
| (Raised e, w') => (Raised e, w')
end.

Definition raise {A} (e : exn) : M A := fun w => (Raised e, w).

(** [try: m except Exception as e: h e]; what [m] changed before it
  raised stays changed. *)
Definition try_except {A} (m : M A) (h : exn -> M A) : M A := fun w =>
match m w with
| (Done a, w') => (Done a, w')
| (Raised e, w') => h e w'
end.

(** [try: m except Exception: log] *)
Definition attempt (m : M unit) : M unit := try_except m (fun _ => mret tt).

Definition get_state : M state := fun w => (Done (globals w), w).

Definition modify (f : state -> state) : M unit := fun w =>
(Done tt, {| globals := f (globals w); trace := trace w; net := net w |}).

Definition record (e : event) : M unit := fun w =>
(Done tt, {| globals := globals w; trace := trace w ++ [e]; net := net w |}).

(** The outcome of the next call. *)
Definition next_outcome (w : world) : outcome :=
  match net w with
  | [] => Delivered 0
  | o :: _ => o
  end.

(** The world once a call was made: the call is recorded with its
    outcome, which is used up. *)
Definition logged (a : action) (w : world) : world :=
  {| globals := globals w; trace := trace w ++ [Bot a (next_outcome w)];
     net := tail (net w) |}.

(** What the caller gets: the id of the message, or an exception. *)
Definition answer_of (o : outcome) : res Z :=
  match o with
  | Delivered mid => Done mid
  | TimedOut => Raised (TelegramError true)
  | Failed => Raised (TelegramError false)
  end.

(** A call on the bot. *)
Definition call (a : action) : M Z := fun w => (answer_of (next_outcome w), logged a w).

Definition call_ (a : action) : M unit := _ ← call a; mret tt.

(** ['timed out' in str(e).lower() or 'timeout' in str(e).lower()] *)
Definition is_timeout (e : exn) : bool :=
match e with TelegramError t => t | _ => false end.

(** Running a handler on given variables and outcomes, from an empty
  trace. *)
Definition run {A} (m : M A) (s : state) (outcomes : list outcome) : res A * world :=
m {| globals := s; trace := []; net := outcomes |}.

Definition state_after {A} (m : M A) (s : state) (outcomes : list outcome) : state :=
globals (snd (run m s outcomes)).

Definition trace_of {A} (m : M A) (s : state) (outcomes : list outcome) : list event :=
trace (snd (run m s outcomes)).

(** [abs(chat_id) - 1000000000000] *)
Definition original_of (chat_id : Z) : Z := Z.abs chat_id - 1000000000000.

(** [-1000000000000 - original_chat_id] *)
Definition send_chat_of (original_chat_id : Z) : Z := -1000000000000 - original_chat_id.

(** Python truthiness of an optional string. *)
Definition nonempty (o : option string) : bool :=
match o with
| Some s => negb (String.eqb s "")
| None => false
end.

(** [a.lower() == b.lower()] *)
Definition same_user (a b : string) : bool := String.eqb (PyStr.lower a) (PyStr.lower b).

(** ** The handlers of the Interactive Agent *)

(** [update.effective_user] *)
Record user := { user_id : Z; username : option string }.

(** [query.data], split at the underscores: the kind of button and the
  room it belongs to. *)
Inductive callback_data :=
| approve_release (chat_id : Z)
| decline_release (chat_id : Z)
| approve_deal (chat_id : Z)
| role_buyer (chat_id : Z)
| role_seller (chat_id : Z)
| payment_sent (chat_id : Z).

Definition set_step (chat_id : Z) (st : step) : M unit :=
modify (fun s => set_room_transaction_state (<[chat_id := st]> (room_transaction_state s)) s).

(** The status of one party in a pair [(buyer, seller)]. *)
Definition party {A} (r : role) (p : A * A) : A :=
match r with BUYER => fst p | SELLER => snd p end.

Definition set_party {A} (r : role) (v : A) (p : A * A) : A * A :=
match r with BUYER => (v, snd p) | SELLER => (fst p, v) end.

(** [text.startswith('0x')], [len(text) == 42] and [int(text[2:], 16)]
  not raising. *)
Definition address_accepted (text : string) : bool :=
PyStr.startswith "0x" text && (String.length text =? 42)%nat &&
match PyStr.int16 (PyStr.drop 2 text) with Some _ => true | None => false end.

(** The hash taken from the text: after the last [tx/] and before the
  first [?] of an explorer link, the stripped text otherwise. *)
Definition extract_hash (text : string) : string :=
let tx_input := PyStr.strip text in
if PyStr.contains "bscscan.com/tx/" tx_input
   || PyStr.contains "etherscan.io/tx/" tx_input
then PyStr.strip (PyStr.before_question (PyStr.split_tx_last tx_input))
else tx_input.

Definition send_step1_amount_message (send_chat_id chat_id : Z) : M unit :=
try_except
  (s ← get_state;
   if decide (chat_id ∈ step1_messages_sent s) then mret tt
   else
     modify (fun s => set_step1_messages_sent ({[chat_id]} ∪ step1_messages_sent s) s);;
     call_ (send send_chat_id Step1Prompt false);;
     set_step chat_id step1)
  (fun e => if is_timeout e then set_step chat_id step1 else mret tt).

Definition send_step2_rate_message (send_chat_id chat_id : Z) : M unit :=
try_except
  (s ← get_state;
   match room_transaction_state s !! chat_id with
   | Some step1 =>
       call_ (send send_chat_id Step2Prompt false);;
       set_step chat_id step2
   | _ => mret tt
   end)
  (fun e => if is_timeout e then set_step chat_id step2 else mret tt).

Definition send_step3_payment_message (send_chat_id chat_id : Z) : M unit :=
attempt (call_ (send send_chat_id Step3Prompt false)).

Definition send_step4_blockchain_message (send_chat_id chat_id : Z) : M unit :=
attempt
  (mid ← call (send send_chat_id Step4Prompt true);
   modify (fun s => set_step4_messages (<[chat_id := mid]> (step4_messages s)) s)).

(** The amount the summary shows: the first stored amount, looked for
  only when the room has a role entry. *)
Definition summary_amount (s : state) (chat_id : Z) : option pyfloat :=
match user_roles s !! chat_id with
| Some (_ :: _) => PyDict.first_value (user_amounts s)
| _ => None
end.

Definition send_deal_summary_message (send_chat_id chat_id : Z) : M unit :=
attempt
  (s ← get_state;
   let text :=
     DealSummaryText (summary_amount s chat_id) (user_coins s !! chat_id)
       (PyDict.first_value (user_rates s))
       (PyDict.first_value (user_payment_methods s))
       (default "N/A" (buyer_addresses s !! chat_id))
       (default "N/A" (seller_addresses s !! chat_id)) false false in
   mid ← call (send send_chat_id text true);
   modify (fun s => set_deal_summary_messages (<[chat_id := mid]> (deal_summary_messages s)) s);;
   modify (fun s => set_approvals (<[chat_id := (false, false)]> (approvals s)) s)).

Definition send_deposit_found_message
  (send_chat_id : Z) (amount : pyfloat) (seller_addr to_addr tx_hash : string) : M unit :=
attempt (call_ (send send_chat_id (DepositFound amount seller_addr to_addr tx_hash) false)).

Definition send_deal_complete_message (send_chat_id chat_id : Z) (buyer_addr : string) : M unit :=
attempt (call_ (send send_chat_id (DealComplete buyer_addr) true)).

(** The part of [handle_text] shared by the master hash and a verified
  hash: the deposit is announced and recorded, the button of the
  deposit prompt is removed, and the room stops waiting. *)
Definition confirm_deposit
  (chat_id : Z) (amount : pyfloat) (seller_addr to_addr escrow_address tx_hash : string)
  : M unit :=
let send_chat_id := send_chat_of chat_id in
send_deposit_found_message send_chat_id amount seller_addr to_addr tx_hash;;
modify (fun s => set_room_confirmed_deposits (<[chat_id := amount]> (room_confirmed_deposits s)) s);;
s ← get_state;
match deposit_address_messages s !! chat_id with
| Some msg_id =>
    attempt (call_ (edit_message_caption send_chat_id msg_id
               (DepositTextClean (default USDT (user_coins s !! chat_id))
                  (default BSC (user_blockchain s !! chat_id)) escrow_address) false))
| None => mret tt
end;;
call_ (send send_chat_id PaymentReceived false);;
modify (fun s => set_room_awaiting_hash (room_awaiting_hash s ∖ {[chat_id]}) s);;
modify (fun s => set_room_transaction_state (delete chat_id (room_transaction_state s)) s).

Section Handlers.

(** Python's [float], the configured explorer key and the explorer. *)
Variable py_float : string -> option pyfloat.
Variable api_key : string.
Variable ledger : string -> Verifier.http_reply.

(** The role check of the two address steps: [holder] is the username
    recorded for the role, when the room has an entry in
    [room_initiators]. *)
Definition may_submit (holder : option (option string)) (u : user) : M bool :=
  match holder with
  | Some name =>
      if nonempty name then
        match username u with
        | None => raise AttributeError
        | Some x => mret (same_user x (default "" name))
        end
      else mret true
  | None => mret true
  end.

Definition handle_amount (u : user) (text : string) (chat_id : Z) : M unit :=
  match py_float text with
  | None => call_ (reply_text NotANumber)
  | Some amount =>
      if PyFloat.lt_int amount 1 then call_ (reply_text AmountTooLow)
      else
        modify (fun s => set_user_amounts (PyDict.set (user_id u) amount (user_amounts s)) s);;
        send_step2_rate_message (send_chat_of chat_id) chat_id
  end.

Definition handle_rate (u : user) (text : string) (chat_id : Z) : M unit :=
  match py_float text with
  | None => call_ (reply_text NotANumber)
  | Some rate =>
      if PyFloat.lt_int rate 85 then call_ (reply_text RateTooLow)
      else
        modify (fun s => set_user_rates (PyDict.set (user_id u) rate (user_rates s)) s);;
        set_step chat_id step3;;
        send_step3_payment_message (send_chat_of chat_id) chat_id
  end.

Definition handle_payment_method (u : user) (text : string) (chat_id : Z) : M unit :=
  let payment_method_upper := PyStr.upper text in
  if negb (bool_decide (payment_method_upper ∈ valid_payment_methods))
  then call_ (reply_text InvalidPaymentMethod)
  else
    modify (fun s => set_user_payment_methods
              (PyDict.set (user_id u) payment_method_upper (user_payment_methods s)) s);;
    set_step chat_id step4;;
    send_step4_blockchain_message (send_chat_of chat_id) chat_id.

Definition handle_buyer_address (u : user) (text : string) (chat_id : Z) : M unit :=
  s ← get_state;
  ok ← may_submit (buyer <$> room_initiators s !! chat_id) u;
  if negb ok then call_ (reply_text OnlyBuyerAddress)
  else if negb (address_accepted text) then call_ (reply_text InvalidAddressFormat)
  else
    modify (fun s => set_buyer_addresses (<[chat_id := text]> (buyer_addresses s)) s);;
    set_step chat_id step7_seller_address;;
    match room_initiators s !! chat_id with
    | Some p =>
        if nonempty (seller p) then
          attempt
            (mid ← call (send (send_chat_of chat_id)
                           (SellerWalletPrompt (default "" (seller p))) false);
             modify (fun s => set_seller_wallet_messages
                       (<[chat_id := mid]> (seller_wallet_messages s)) s))
        else mret tt
    | None => mret tt
    end.

Definition handle_seller_address (u : user) (text : string) (chat_id : Z) : M unit :=
  s ← get_state;
  ok ← may_submit (seller <$> room_initiators s !! chat_id) u;
  if negb ok then call_ (reply_text OnlySellerAddress)
  else if negb (address_accepted text) then call_ (reply_text InvalidAddressFormat)
  else
    modify (fun s => set_seller_addresses (<[chat_id := text]> (seller_addresses s)) s);;
    send_deal_summary_message (send_chat_of chat_id) chat_id;;
    set_step chat_id deal_summary.

Definition handle_hash (u : user) (text : string) (chat_id : Z) : M unit :=
  let send_chat_id := send_chat_of chat_id in
  try_except
    (let tx_hash := extract_hash text in
     attempt (call_ message_delete);;
     s ← get_state;
     match deposit_addresses_map (user_blockchain s !! chat_id, user_coins s !! chat_id) with
     | None => call_ (send send_chat_id EscrowNotFound false)
     | Some escrow_address =>
         match PyDict.first_value (user_amounts s) with
         | None => call_ (send send_chat_id AmountNotFound false)
         | Some amount =>
             if negb (PyFloat.truthy amount)
             then call_ (send send_chat_id AmountNotFound false)
             else if String.eqb (PyStr.lower tx_hash) (PyStr.lower master_hash) then
               confirm_deposit chat_id amount
                 (default ("0x" ++ PyStr.repeat_char "0" 40) (seller_addresses s !! chat_id))
                 escrow_address escrow_address tx_hash
             else
               record (Verify tx_hash escrow_address);;
               let verify_result :=
                 Verifier.verify_transaction_bscscan api_key ledger tx_hash escrow_address in
               if Verifier.valid verify_result then
                 confirm_deposit chat_id amount
                   (default (default "" (Verifier.from_address verify_result))
                      (seller_addresses s !! chat_id))
                   (default "" (Verifier.to_address verify_result))
                   escrow_address tx_hash
               else
                 call_ (send send_chat_id
                          (match Verifier.error verify_result with
                           | Some why => VerificationFailed why
                           | None => ErrorText
                           end) false)
         end
     end)
    (fun _ => call_ (send send_chat_id ErrorText false)).

(** [handle_text] for a message in a group; the listing flow that
    follows when the room is at none of these steps, and the private
    chats, are not part of the escrow protocol and do nothing here. *)
Definition handle_text (u : user) (text : string) (chat_id : Z) : M unit :=
  if (0 <? chat_id)%Z then mret tt
  else
    let original_chat_id := original_of chat_id in
    s ← get_state;
    match room_transaction_state s !! original_chat_id with
    | Some step1 => handle_amount u text original_chat_id
    | Some step2 => handle_rate u text original_chat_id
    | Some step3 => handle_payment_method u text original_chat_id
    | Some step6_buyer_address => handle_buyer_address u text original_chat_id
    | Some step7_seller_address => handle_seller_address u text original_chat_id
    | Some awaiting_hash => handle_hash u text original_chat_id
    | _ => mret tt
    end.

End Handlers.

(** *** Buttons *)

(** The role a username holds in a room according to [room_initiators];
  [absent] is what stands for the usernames of a room without entry. *)
Definition role_in_room (absent : option string) (s : state) (chat_id : Z) (username : string)
  : option role :=
let buyer_username :=
  match room_initiators s !! chat_id with Some p => buyer p | None => absent end in
let seller_username :=
  match room_initiators s !! chat_id with Some p => seller p | None => absent end in
if nonempty buyer_username && same_user username (default "" buyer_username) then Some BUYER
else if nonempty seller_username && same_user username (default "" seller_username)
then Some SELLER
else None.

Definition both_approved (p : status * status) : bool :=
bool_decide (fst p = approved) && bool_decide (snd p = approved).

(** Editing the release prompt, when its message id is known. *)
Definition edit_release_prompt (s : state) (chat_id : Z) (m : message) (buttons : bool)
  : M unit :=
match release_messages s !! chat_id with
| Some msg_id =>
    attempt (call_ (edit_message_caption (send_chat_of chat_id) msg_id m buttons))
| None => mret tt
end.

Definition on_approve_release (username : string) (original_chat_id : Z) : M unit :=
try_except
  (s ← get_state;
   match role_in_room (Some "") s original_chat_id username with
   | None => call_ (answer NotAuthorized true)
   | Some user_role =>
       let statuses :=
         set_party user_role approved
           (default (waiting, waiting) (release_approvals s !! original_chat_id)) in
       modify (fun s => set_release_approvals
                 (<[original_chat_id := statuses]> (release_approvals s)) s);;
       (if both_approved statuses then
          send_deal_complete_message (send_chat_of original_chat_id) original_chat_id
            (default "0xUnknown" (buyer_addresses s !! original_chat_id));;
          edit_release_prompt s original_chat_id ReleaseFinal false
        else
          edit_release_prompt s original_chat_id
            (ReleaseStatus (fst statuses) (snd statuses)) true);;
       call_ (answer ReleaseApproved false)
   end)
  (fun _ => call_ (answer ErrorNotice true)).

Definition on_decline_release (username : string) (original_chat_id : Z) : M unit :=
try_except
  (s ← get_state;
   match role_in_room (Some "") s original_chat_id username with
   | None => call_ (answer NotAuthorized true)
   | Some user_role =>
       let statuses :=
         set_party user_role rejected
           (default (waiting, waiting) (release_approvals s !! original_chat_id)) in
       modify (fun s => set_release_approvals
                 (<[original_chat_id := statuses]> (release_approvals s)) s);;
       edit_release_prompt s original_chat_id
         (ReleaseStatus (fst statuses) (snd statuses)) true;;
       call_ (answer ReleaseDeclined false)
   end)
  (fun _ => call_ (answer ErrorNotice true)).

(** The address shown in the deposit prompt: the next one of the two
  addresses of the coin, whose index then moves on. *)
Definition next_deposit_address (b : chain) (c : coin) : M string :=
s ← get_state;
match b, c with
| BSC, USDT =>
    let current_index := usdt_bsc_address_index s in
    match USDT_BSC_ADDRESSES !! current_index with
    | Some deposit_address =>
        modify (set_usdt_bsc_address_index
                  ((current_index + 1) mod List.length USDT_BSC_ADDRESSES)%nat);;
        mret deposit_address
    | None => raise IndexError
    end
| BSC, USDC =>
    let current_index := usdc_bsc_address_index s in
    match USDC_BSC_ADDRESSES !! current_index with
    | Some deposit_address =>
        modify (set_usdc_bsc_address_index
                  ((current_index + 1) mod List.length USDC_BSC_ADDRESSES)%nat);;
        mret deposit_address
    | None => raise IndexError
    end
end.

Definition on_approve_deal (username : string) (chat_id : Z) : M unit :=
try_except
  (s ← get_state;
   match role_in_room None s chat_id username with
   | None => call_ (answer NotAuthorizedDeal true)
   | Some user_role =>
       if match approvals s !! chat_id with
          | Some p => party user_role p
          | None => false
          end
       then call_ (answer AlreadyApproved true)
       else
         let marks := set_party user_role true (default (false, false) (approvals s !! chat_id)) in
         modify (fun s => set_approvals (<[chat_id := marks]> (approvals s)) s);;
         let amount := PyDict.first_value (user_amounts s) in
         let rate := PyDict.first_value (user_rates s) in
         let payment_method := PyDict.first_value (user_payment_methods s) in
         let c := user_coins s !! chat_id in
         let buyer_address := default "N/A" (buyer_addresses s !! chat_id) in
         let seller_address := default "N/A" (seller_addresses s !! chat_id) in
         let send_chat_id := send_chat_of chat_id in
         let both := fst marks && snd marks in
         (if both then
            attempt
              (confirmed_msg ← call (send send_chat_id
                  (DealConfirmed amount c rate payment_method buyer_address seller_address)
                  false);
               attempt (call_ (pin_chat_message send_chat_id confirmed_msg));;
               let blockchain := default BSC (user_blockchain s !! chat_id) in
               let coin_type := default USDT c in
               deposit_address ← next_deposit_address blockchain coin_type;
               attempt
                 (mid ← call (send send_chat_id
                                (DepositPrompt coin_type blockchain deposit_address) true);
                  modify (fun s => set_deposit_address_messages
                            (<[chat_id := mid]> (deposit_address_messages s)) s)))
          else mret tt);;
         match deal_summary_messages s !! chat_id with
         | Some msg_id =>
             attempt (call_ (edit_message_caption send_chat_id msg_id
                        (DealSummaryText amount c rate payment_method buyer_address
                           seller_address (fst marks) (snd marks)) (negb both)))
         | None => mret tt
         end;;
         call_ (answer (DealApproved user_role) false)
   end)
  (fun _ => call_ (answer ErrorNotice true)).

(** A press on [I am Buyer] or [I am Seller]. *)
Definition on_role (role_type : role) (username : string) (original_chat_id : Z) : M unit :=
try_except
  (s ← get_state;
   match role_messages s !! original_chat_id with
   | None => call_ (answer RoleExpired true)
   | Some rm =>
       let username_lower := PyStr.lower username in
       let initiator_lower := PyStr.lower (role_initiator rm) in
       let counterparty_lower := PyStr.lower (role_counterparty rm) in
       let roles := default [] (user_roles s !! original_chat_id) in
       modify (fun s => set_user_roles (<[original_chat_id := roles]> (user_roles s)) s);;
       let initiator_role := PyDict.get initiator_lower roles in
       let counterparty_role := PyDict.get counterparty_lower roles in
       if bool_decide (counterparty_role = Some role_type)
          && String.eqb username_lower initiator_lower
          || bool_decide (initiator_role = Some role_type)
             && String.eqb username_lower counterparty_lower
       then call_ (answer (RoleTaken role_type) true)
       else
         let roles' := PyDict.set username_lower role_type roles in
         modify (fun s => set_user_roles (<[original_chat_id := roles']> (user_roles s)) s);;
         let initiator_role := PyDict.get initiator_lower roles' in
         let counterparty_role := PyDict.get counterparty_lower roles' in
         let both_selected :=
           bool_decide (is_Some initiator_role) && bool_decide (is_Some counterparty_role) in
         call_ (query_edit_message_caption
                  (RoleSelection initiator_role counterparty_role) (negb both_selected));;
         call_ (answer (RoleSelected role_type) false);;
         s' ← get_state;
         if both_selected && negb (bool_decide (original_chat_id ∈ step1_messages_sent s'))
         then send_step1_amount_message (role_send_chat_id rm) original_chat_id
         else mret tt
   end)
  (fun _ => call_ (answer RoleError true)).

Definition on_payment_sent (username : string) (chat_id : Z) : M unit :=
try_except
  (s ← get_state;
   let seller_username :=
     match room_initiators s !! chat_id with Some p => seller p | None => None end in
   if negb (nonempty seller_username)
      || negb (same_user username (default "" seller_username))
   then call_ (answer OnlySellerConfirms true)
   else
     call_ (send (send_chat_of chat_id) (HashRequest (default "" seller_username)) false);;
     modify (fun s => set_room_awaiting_hash ({[chat_id]} ∪ room_awaiting_hash s) s);;
     set_step chat_id awaiting_hash;;
     call_ (answer PaymentMarked false))
  (fun _ => call_ (answer ErrorNotice true)).

(** [button_callback], on the buttons of the escrow protocol; [username]
  is [query.from_user.username or query.from_user.first_name]. *)
Definition button_callback (username : string) (data : callback_data) : M unit :=
match data with
| approve_release chat_id => on_approve_release username chat_id
| decline_release chat_id => on_decline_release username chat_id
| approve_deal chat_id => on_approve_deal username chat_id
| role_buyer chat_id => on_role BUYER username chat_id
| role_seller chat_id => on_role SELLER username chat_id
| payment_sent chat_id => on_payment_sent username chat_id
end.

(** *** Commands *)

(** [/release] in a group: a new approval round opens. *)
Definition release_command (is_group : bool) (chat_id : Z) : M unit :=
if negb is_group then call_ (send chat_id GroupOnly false)
else
  let original_chat_id := original_of chat_id in
  attempt (call_ message_delete);;
  s ← get_state;
  match room_initiators s !! original_chat_id with
  | None => call_ (send chat_id NoActiveDeal false)
  | Some _ =>
      modify (fun s => set_release_approvals
                (<[original_chat_id := (waiting, waiting)]> (release_approvals s)) s);;
      try_except
        (msg ← call (send (send_chat_of original_chat_id)
                       (ReleaseStatus waiting waiting) true);
         modify (fun s => set_release_messages
                   (<[original_chat_id := msg]> (release_messages s)) s))
        (fun _ => mret tt)
  end.

(** The entry of [deal_rooms.json] a chat belongs to: the first whose id
  is the chat id or its positive form. *)
Fixpoint find_room (rooms : pydict Z room_info) (chat_id : Z) : option (Z * room_info) :=
match rooms with
| [] => None
| (room_id, info) :: r =>
    if (room_id =? chat_id)%Z || (-1000000000000 - room_id =? chat_id)%Z
    then Some (room_id, info)
    else find_room r chat_id
end.

(** [for user_id in users_to_clear: del d[user_id]] *)
Definition remove_keys {V} (ks : list Z) (d : pydict Z V) : pydict Z V :=
fold_left (fun d k => PyDict.remove k d) ks d.

(** [{a.lower(), b.lower()}] *)
Definition pair_set (a b : string) : list string :=
if String.eqb (PyStr.lower a) (PyStr.lower b) then [PyStr.lower a]
else [PyStr.lower a; PyStr.lower b].

Definition send_role_selection_message (send_chat_id original_chat_id : Z) : M unit :=
attempt
  (s ← get_state;
   if decide (original_chat_id ∈ role_selection_sent s) then mret tt
   else
     modify (fun s => set_role_selection_sent ({[original_chat_id]} ∪ role_selection_sent s) s);;
     match room_joined_users s !! original_chat_id with
     | Some (first_joined :: second_joined :: _) =>
         let room_info :=
           match deal_rooms_file s with
           | Some rooms => PyDict.get original_chat_id rooms
           | None => None
           end in
         let initiator :=
           default first_joined (room_info ≫= room_initiator_username) in
         let counterparty :=
           default second_joined (room_info ≫= room_counterparty_username) in
         modify (fun s => set_user_roles
                   (<[original_chat_id := default [] (user_roles s !! original_chat_id)]>
                      (user_roles s)) s);;
         msg ← call (send send_chat_id (RoleSelection None None) true);
         modify (fun s => set_role_messages
                   (<[original_chat_id :=
                        {| role_msg_id := msg; role_send_chat_id := send_chat_id;
                           role_initiator := initiator;
                           role_counterparty := counterparty |}]> (role_messages s)) s)
     | _ => mret tt
     end).

Definition send_disclaimer_message (send_chat_id original_chat_id : Z) : M unit :=
attempt
  (call_ (send send_chat_id Disclaimer false);;
   send_role_selection_message send_chat_id original_chat_id).

(** The block of [restart_command] that clears the state of the room. *)
Definition clear_room_state (chat_id original_chat_id : Z) (s : state) : state :=
let s := set_disclaimer_sent (disclaimer_sent s ∖ {[original_chat_id]}) s in
let s := set_role_selection_sent (role_selection_sent s ∖ {[original_chat_id]}) s in
let s := set_processed_rooms (processed_rooms s ∖ {[chat_id]} ∖ {[original_chat_id]}) s in
let s := set_rooms_waiting_for_requests
           (rooms_waiting_for_requests s ∖ {[chat_id]} ∖ {[original_chat_id]}) s in
(* Clear transaction tracking *)
let s := set_room_awaiting_hash (room_awaiting_hash s ∖ {[original_chat_id]}) s in
let s := set_room_transaction_state (delete original_chat_id (room_transaction_state s)) s in
let s := set_seller_addresses (delete original_chat_id (seller_addresses s)) s in
let s := set_release_approvals (delete original_chat_id (release_approvals s)) s in
let s := set_room_messages (delete chat_id (room_messages s)) s in
let s := set_deposit_address_messages (delete original_chat_id (deposit_address_messages s)) s in
let s := set_seller_wallet_messages (delete original_chat_id (seller_wallet_messages s)) s in
(* Clear user-specific data for this room (iterate through all users) *)
let users_to_clear := PyDict.keys (user_amounts s) in
let s := set_user_amounts (remove_keys users_to_clear (user_amounts s)) s in
let s := set_user_rates (remove_keys users_to_clear (user_rates s)) s in
let s := set_user_payment_methods (remove_keys users_to_clear (user_payment_methods s)) s in
(* Clear coin and blockchain selection for this room *)
let s := set_user_coins (delete original_chat_id (user_coins s)) s in
let s := set_user_blockchain (delete original_chat_id (user_blockchain s)) s in
(* Clear role tracking *)
let s := set_user_roles (delete original_chat_id (user_roles s)) s in
let s := set_role_messages (delete original_chat_id (role_messages s)) s in
(* Restore room_joined_users with initiator and counterparty *)
let room_info :=
  match deal_rooms_file s with
  | Some rooms => PyDict.get original_chat_id rooms
  | None => None
  end in
match room_info ≫= room_initiator_username, room_info ≫= room_counterparty_username with
| Some i, Some c =>
    if negb (String.eqb i "") && negb (String.eqb c "") then
      set_room_joined_users (<[original_chat_id := pair_set i c]> (room_joined_users s)) s
    else s
| _, _ => s
end.

(** [/restart] *)
Definition restart_command (is_group : bool) (chat_id : Z) : M unit :=
if negb is_group then call_ (reply_text GroupOnly)
else
  s ← get_state;
  match deal_rooms_file s with
  | None => call_ (reply_text DealRoomsOnly)
  | Some rooms =>
      match find_room rooms chat_id with
      | None => call_ (reply_text DealRoomsOnly)
      | Some (room_id, _) =>
          let original_chat_id :=
            if (room_id =? 0)%Z then original_of chat_id else room_id in
          attempt (call_ message_delete);;
          try_except
            (modify (clear_room_state chat_id original_chat_id);;
             send_disclaimer_message (send_chat_of original_chat_id) original_chat_id;;
             call_ (send chat_id RoomRestarted false))
            (fun _ => attempt (call_ (send chat_id RestartError false)))
      end
  end.

(** ** The request queue *)

(** [update_request_status] of the Provisioning Agent: every entry of
  the pair gets the status, and the result when one is given; the file
  is then written, also when it did not exist. *)
Definition update_entry
  (initiator counterparty status : string) (res : option deal_result) (req : deal_request)
  : deal_request :=
if String.eqb (initiator_username req) initiator
   && String.eqb (counterparty_username req) counterparty
then {| initiator_id := initiator_id req;
        initiator_username := initiator_username req;
        initiator_chat_id := initiator_chat_id req;
        counterparty_username := counterparty_username req;
        request_status := status;
        result := match res with Some r => Some r | None => result req end;
        sent := sent req |}
else req.

Definition update_request_status
  (initiator counterparty status : string) (res : option deal_result) (s : state) : state :=
set_deal_queue_file
  (Some (map (update_entry initiator counterparty status res)
           (default [] (deal_queue_file s)))) s.

(** [req['sent'] = True] *)
Definition mark_sent (req : deal_request) : deal_request :=
{| initiator_id := initiator_id req;
   initiator_username := initiator_username req;
   initiator_chat_id := initiator_chat_id req;
   counterparty_username := counterparty_username req;
   request_status := request_status req;
   result := result req;
   sent := true |}.

(** [invite_link if invite_link and invite_link not in ['None', 'null', '']
  else bot_invite_link] *)
Definition link_to_send (r : deal_result) : string :=
let invite_link := default "" (result_invite_link r) in
if negb (String.eqb invite_link "")
   && negb (bool_decide (invite_link ∈ ["None"; "null"; ""]))
then invite_link
else default "" (result_bot_invite_link r).

(** The room a completed, not yet sent request of the initiator was
  given, when its result names one. *)
Definition deliverable (initiator : string) (req : deal_request) : option (Z * deal_result) :=
if sent req then None
else if String.eqb (initiator_username req) initiator
        && String.eqb (request_status req) "completed"
then
  match result req with
  | Some r =>
      match result_chat_id r with
      | Some chat_id => if (chat_id =? 0)%Z then None else Some (chat_id, r)
      | None => None
      end
  | None => None
  end
else None.

(** The notification of one request and the note of its message id. *)
Definition notify (initiator : string) (req : deal_request) (chat_id : Z) (r : deal_result)
  : M unit :=
attempt
  (sent_msg ← call (send (initiator_chat_id req)
                      (DealRoomCreated (link_to_send r) initiator
                         (counterparty_username req)) false);
   modify (fun s =>
     let old := default {| initiator_msg_id := None; counterparty_msg_id := None;
                           deal_created_msg_id := None; deal_created_chat_id := None |}
                  (room_messages s !! chat_id) in
     set_room_messages
       (<[chat_id := {| initiator_msg_id := initiator_msg_id old;
                        counterparty_msg_id := counterparty_msg_id old;
                        deal_created_msg_id := Some sent_msg;
                        deal_created_chat_id := Some (initiator_chat_id req) |}]>
          (room_messages s)) s)).

(** The loop of [check_and_send_deal_results] over the requests; it
  returns the requests as they are after the loop and whether one was
  marked. *)
Fixpoint deliver_results (initiator : string) (requests : list deal_request)
  : M (list deal_request * bool) :=
match requests with
| [] => mret ([], false)
| req :: rest =>
    match deliverable initiator req with
    | Some (chat_id, r) =>
        (if (initiator_chat_id req <? 0)%Z then notify initiator req chat_id r
         else mret tt);;
        after ← deliver_results initiator rest;
        mret (mark_sent req :: fst after, true)
    | None =>
        after ← deliver_results initiator rest;
        mret (req :: fst after, snd after)
    end
end.

Definition check_and_send_deal_results (initiator : string) : M unit :=
attempt
  (s ← get_state;
   match deal_queue_file s with
   | None => mret tt
   | Some requests =>
       after ← (deliver_results initiator requests : M (list deal_request * bool));
       if snd (after : list deal_request * bool) then modify (set_deal_queue_file (Some (fst after))) else mret tt
   end).

(** ** The state at start-up *)

(** The values the module-level variables are initialised with, and no
  file. *)
Definition startup : state :=
{| room_transaction_state := ∅; room_awaiting_hash := ∅; user_amounts := [];
   user_rates := []; user_payment_methods := []; user_blockchain := ∅; user_coins := ∅;
   buyer_addresses := ∅; seller_addresses := ∅; room_initiators := ∅; approvals := ∅;
   release_approvals := ∅; release_messages := ∅; user_roles := ∅; role_messages := ∅;
   step1_messages_sent := ∅; room_confirmed_deposits := ∅; deposit_address_messages := ∅;
   deal_summary_messages := ∅; seller_wallet_messages := ∅; step4_messages := ∅;
   usdt_bsc_address_index := 0; usdc_bsc_address_index := 0; disclaimer_sent := ∅;
   role_selection_sent := ∅; processed_rooms := ∅; rooms_waiting_for_requests := ∅;
   room_messages := ∅; room_joined_users := ∅; deal_queue_file := None;
   deal_rooms_file := None |}.

(** ** Chat identifiers *)

(** [normalize_chat_id] *)
Definition normalize_chat_id (chat_id : Z) : Z :=
if (chat_id <? 0)%Z then Z.abs chat_id - 1000000000000 else chat_id.

(** [get_send_chat_id] *)
Definition get_send_chat_id (original_chat_id : Z) : Z :=
if (0 <? original_chat_id)%Z then -1000000000000 - original_chat_id else original_chat_id.

(** * What the theorems observe *)

(** ** Samples for the verifier *)

Definition sample_hash : string :=
  "0x9f2c4b6d8e0a1c3e5f7a9b1d3f5a7c9e1b3d5f7a9c1e3b5d7f9a1c3e5b7d9f1a".

Definition sample_escrow : string := "0xDA4c2a5B876b0c7521e1c752690D8705080000fE".

(** The explorer's answer for a hash it does not know: [result] is
    [null]. *)
Definition unknown_transaction (h : string) : Verifier.http_reply :=
  Verifier.Response "jsonrpc 2.0, id 1, result null"
    (Some (JObj [("jsonrpc", JStr "2.0"); ("id", JNum 1); ("result", JNull)])).

(** An answer with a transaction sent elsewhere. *)
Definition other_recipient (h : string) : Verifier.http_reply :=
  Verifier.Response "result from 0x11.., to 0x22.., value 0x5f5e100"
    (Some (JObj [("result",
       JObj [("from", JStr "0x1111111111111111111111111111111111111111");
             ("to", JStr "0x2222222222222222222222222222222222222222");
             ("value", JStr "0x5f5e100"); ("blockNumber", JStr "0x10")])])).

(** ** Reasoning about handlers *)

(** Two properties that compose along a handler without following its
    paths: every call it records satisfies [P]; it leaves a view [f] of
    the variables alone. *)
Definition emits {A} (P : event -> Prop) (m : M A) : Prop :=
  forall w, Forall P (trace w) -> Forall P (trace (snd (m w))).

Definition preserves {A X} (f : state -> X) (m : M A) : Prop :=
  forall w, f (globals (snd (m w))) = f (globals w).

(** ** The release gate *)

Definition is_completion (e : event) : bool :=
  match e with
  | Bot (send _ (DealComplete _) _) _ => true
  | _ => false
  end.

Definition completion_fired (t : list event) : bool := existsb is_completion t.

Definition other (r : role) : role :=
  match r with BUYER => SELLER | SELLER => BUYER end.

Definition no_completion (e : event) : Prop := is_completion e = false.

(** A room whose seller has approved the release; the buyer approves. *)
Definition release_half_approved : state :=
  set_release_approvals {[ 7 := (waiting, approved) ]}
    (set_room_initiators {[ 7 := {| buyer := Some "alice"; seller := Some "Bob" |} ]} startup).


(** ** Sample rooms *)

(** Room 7 of alice (buyer) and Bob (seller); its chat id on the
    platform is [-1000000000007]. *)
Definition alice_and_bob : parties := {| buyer := Some "alice"; seller := Some "Bob" |}.

Definition room7 : state := set_room_initiators {[ 7 := alice_and_bob ]} startup.

(** How many deal-complete messages a trace holds. *)
Definition completions (t : list event) : nat := List.length (List.filter is_completion t).

(** The states of one release round in room 7, every call delivered:
    [/release], then the buyer approves, then the seller. *)
Definition round_opened : state := state_after (release_command true (-1000000000007)) room7 [].

Definition buyer_approved : state :=
  state_after (button_callback "alice" (approve_release 7)) round_opened [].

Definition seller_approved : state :=
  state_after (button_callback "bob" (approve_release 7)) buyer_approved [].

(** The role prompt of room 7, sent to alice and Bob. *)
Definition role_prompt7 : role_message :=
  {| role_msg_id := 41; role_send_chat_id := -1000000000007;
     role_initiator := "alice"; role_counterparty := "Bob" |}.

Definition choosing_roles : state := set_role_messages {[ 7 := role_prompt7 ]} startup.

(** The usernames a role prompt was sent to, in lower case. *)
Definition registered (rm : role_message) : list string :=
  [PyStr.lower (role_initiator rm); PyStr.lower (role_counterparty rm)].

(** The address of the first deposit prompt of a trace, and the escrow
    address of its first verification. *)
Fixpoint prompted_address (t : list event) : option string :=
  match t with
  | [] => None
  | Bot (send _ (DepositPrompt _ _ a) _) _ :: _ => Some a
  | _ :: r => prompted_address r
  end.

Fixpoint verified_against (t : list event) : option string :=
  match t with
  | [] => None
  | Verify _ a :: _ => Some a
  | _ :: r => verified_against r
  end.

(** Room 7 with the terms of a USDC deal entered by alice (user 11) and
    both addresses given; the summary is on display. *)
Definition usdc_deal : state :=
  set_user_amounts [(11, FFin 1000)]
    (set_user_rates [(11, FFin (895 # 10))]
       (set_user_payment_methods [(11, "UPI")]
          (set_user_blockchain {[ 7 := BSC ]}
             (set_user_coins {[ 7 := USDC ]}
                (set_buyer_addresses {[ 7 := "0x1111111111111111111111111111111111111111" ]}
                   (set_seller_addresses {[ 7 := "0x2222222222222222222222222222222222222222" ]}
                      (set_approvals {[ 7 := (false, false) ]}
                         (set_deal_summary_messages {[ 7 := 50 ]}
                            (set_room_transaction_state {[ 7 := deal_summary ]} room7))))))))).

(** Both approve the deal, the seller taps [Payment Sent]. *)
Definition deal_approved_by_buyer : state :=
  state_after (button_callback "alice" (approve_deal 7)) usdc_deal [].

Definition deal_approved : state :=
  state_after (button_callback "bob" (approve_deal 7)) deal_approved_by_buyer [].

Definition hash_awaited : state :=
  state_after (button_callback "bob" (payment_sent 7)) deal_approved [].

Definition bob : user := {| user_id := 22; username := Some "bob" |}.
Definition alice : user := {| user_id := 11; username := Some "alice" |}.

(** Two rooms in [deal_rooms.json]; room 7 has its terms entered by user
    11, room 8 is the one restarted. *)
Definition two_rooms : state :=
  set_deal_rooms_file
    (Some [(7, {| room_name := Some "MM ROOM 7";
                  room_initiator_username := Some "alice";
                  room_counterparty_username := Some "Bob" |});
           (8, {| room_name := Some "MM ROOM 8";
                  room_initiator_username := Some "carol";
                  room_counterparty_username := Some "dave" |})])
    (set_room_transaction_state {[ 7 := step4; 8 := step2 ]}
       (set_user_amounts [(11, FFin 1000); (33, FFin 50)]
          (set_user_rates [(11, FFin 90)]
             (set_user_payment_methods [(11, "UPI")] startup)))).

(** Forty-two characters that start with [0x] and are not forty
    hexadecimal digits after it. *)
Definition signed_address : string := "0x+123456789abcdef0123456789abcdef01234567".

(** Room 7 waiting for the address of the buyer. *)
Definition buyer_address_awaited : state :=
  set_room_transaction_state {[ 7 := step6_buyer_address ]} room7.

(** The format of an address: [0x] and forty hexadecimal digits. *)
Definition strict_address (text : string) : bool :=
  PyStr.startswith "0x" text && (String.length text =? 42)%nat &&
  PyStr.all_chars PyStr.is_hex (PyStr.drop 2 text).

(** ** The request queue *)

(** The requests in [deal_requests.json]. *)
Definition queue (s : state) : list deal_request := default [] (deal_queue_file s).

Definition is_deliverable (initiator : string) (req : deal_request) : bool :=
  match deliverable initiator req with Some _ => true | None => false end.

(** The notification a request of a group gets. *)
Definition notification (initiator : string) (req : deal_request) : option action :=
  match deliverable initiator req with
  | Some (_, r) =>
      if (initiator_chat_id req <? 0)%Z then
        Some (send (initiator_chat_id req)
                (DealRoomCreated (link_to_send r) initiator (counterparty_username req)) false)
      else None
  | None => None
  end.

(** The calls of a trace, without their outcomes. *)
Definition calls (t : list event) : list action :=
  omap (fun e => match e with Bot a _ => Some a | Verify _ _ => None end) t.

(** The same request but for its status and result. *)
Definition same_request (a b : deal_request) : Prop :=
  initiator_id a = initiator_id b /\
  initiator_username a = initiator_username b /\
  initiator_chat_id a = initiator_chat_id b /\
  counterparty_username a = counterparty_username b /\
  sent a = sent b.

Definition room9 : deal_result :=
  {| result_chat_id := Some 9; result_room_name := Some "MM ROOM 9";
     result_invite_link := Some "https://t.me/+join9"; result_bot_invite_link := None |}.

(** A queue with a pending request of erin for frank, made in group
    [-500]. *)
Definition erin_asks : state :=
  set_deal_queue_file
    (Some [{| initiator_id := 55; initiator_username := "erin"; initiator_chat_id := -500;
              counterparty_username := "frank"; request_status := "pending";
              result := None; sent := false |}]) startup.

Definition erin_served : state := update_request_status "erin" "frank" "completed" (Some room9) erin_asks.

(** A request after a poll of its initiator. *)
Definition delivered_form (initiator : string) (req : deal_request) : deal_request :=
  if is_deliverable initiator req then mark_sent req else req.


(** ** Observing a run *)

Definition with_globals (g : state) (w : world) : world :=
  {| globals := g; trace := trace w; net := net w |}.

Definition is_verify (e : event) : bool :=
  match e with Verify _ _ => true | Bot _ _ => false end.

Definition delivered (a : action) (t : list event) : Prop :=
  exists mid, Bot a (Delivered mid) ∈ t.

Definition attempted (a : action) (t : list event) : Prop :=
  exists o, Bot a o ∈ t.


(** Room 7 awaits a hash and room 8, of the same registry, is
    restarted. *)
Definition other_room_restarted : state :=
  state_after (restart_command true (-1000000000008))
    (set_deal_rooms_file
       (Some [(8, {| room_name := Some "MM ROOM 8";
                     room_initiator_username := Some "carol";
                     room_counterparty_username := Some "dave" |})]) hash_awaited) [].

(** ** The text steps *)

(** [x >= n] for an integer constant [n]; false on NaN. *)
Definition at_least (x : pyfloat) (n : Z) : bool :=
  match x with
  | FNaN => false
  | FInf negative => negb negative
  | FFin q => Qle_bool (inject_Z n) q
  end.





Section Inputs.
Variable py_float : string -> option pyfloat.

(** The inputs a step turns down for what they are: a text that is not
    a number, an amount below 1, a rate below 85, a payment method that
    is not listed, an address without the [0x] prefix, not 42 characters
    long or whose rest [int(_, 16)] does not read. *)
Definition turned_down (st : step) (text : string) : bool :=
  match st with
  | step1 =>
      match py_float text with Some a => PyFloat.lt_int a 1 | None => true end
  | step2 =>
      match py_float text with Some r => PyFloat.lt_int r 85 | None => true end
  | step3 => negb (bool_decide (PyStr.upper text ∈ valid_payment_methods))
  | step6_buyer_address | step7_seller_address => negb (address_accepted text)
  | _ => false
  end.

(** The inputs of the right form: a number that is at least 1, or at
    least 85, a listed payment method in any case, [0x] and forty
    hexadecimal digits. *)
Definition well_formed_input (st : step) (text : string) : bool :=
  match st with
  | step1 =>
      match py_float text with Some a => at_least a 1 | None => false end
  | step2 =>
      match py_float text with Some r => at_least r 85 | None => false end
  | step3 => bool_decide (PyStr.upper text ∈ valid_payment_methods)
  | step6_buyer_address | step7_seller_address => strict_address text
  | _ => false
  end.

End Inputs.

(** Room 7 waiting for the amount. *)
Definition amount_awaited : state := set_room_transaction_state {[ 7 := step1 ]} room7.

(** ** Roles *)

(** The roles stored for a room. *)
Definition roles_of (s : state) (chat_id : Z) : pydict string role :=
  default [] (user_roles s !! chat_id).

(** The two usernames of a role prompt do not hold the same role. *)
Definition roles_distinct (rm : role_message) (roles : pydict string role) : Prop :=
  forall r,
    ~ (PyDict.get (PyStr.lower (role_initiator rm)) roles = Some r /\
       PyDict.get (PyStr.lower (role_counterparty rm)) roles = Some r).

(** Presses one after the other, each with the outcomes of its calls. *)
Fixpoint after_presses (ps : list (string * callback_data * list outcome)) (s : state) : state :=
  match ps with
  | [] => s
  | (u, d, o) :: r => after_presses r (state_after (button_callback u d) s o)
  end.


(** The test that turns a choice down: the other registered user holds
    the role. *)
Definition role_taken (rm : role_message) (roles : pydict string role)
    (role_type : role) (u : string) : bool :=
  bool_decide (PyDict.get (PyStr.lower (role_counterparty rm)) roles = Some role_type)
  && String.eqb (PyStr.lower u) (PyStr.lower (role_initiator rm))
  || bool_decide (PyDict.get (PyStr.lower (role_initiator rm)) roles = Some role_type)
     && String.eqb (PyStr.lower u) (PyStr.lower (role_counterparty rm)).

(** ** More samples for the verifier *)

(** An answer with a transfer of [0x5f5e100] units to the escrow
    address, which the explorer prints in lower case. *)
Definition paid_to_escrow (h : string) : Verifier.http_reply :=
  Verifier.Response "result from 0x11.., to 0xda4c.., value 0x5f5e100"
    (Some (JObj [("result",
       JObj [("from", JStr "0x1111111111111111111111111111111111111111");
             ("to", JStr "0xda4c2a5b876b0c7521e1c752690d8705080000fe");
             ("value", JStr "0x5f5e100"); ("blockNumber", JStr "0x10")])])).

(** ** More on the buttons *)

(** An invariant of the variables that a handler keeps. *)
Definition keeps {A} (I : state -> Prop) (m : M A) : Prop :=
  forall w, I (globals w) -> I (globals (snd (m w))).



(** The calls that only answer a press. *)
Definition is_answer (e : event) : bool :=
  match e with Bot (answer _ _) _ => true | _ => false end.

(** The addresses a deposit prompt may show. *)
Definition rotating_addresses : list string :=
  (USDT_BSC_ADDRESSES ++ USDC_BSC_ADDRESSES)%list.

Definition is_deposit_prompt (e : event) : bool :=
  match e with Bot (send _ (DepositPrompt _ _ _) _) _ => true | _ => false end.

Definition quiet_prompt (e : event) : Prop := negb (is_deposit_prompt e) = true.

Definition prompts_rotating_address (e : event) : bool :=
  match e with
  | Bot (send _ (DepositPrompt _ _ a) _) _ => bool_decide (a ∈ rotating_addresses)
  | _ => true
  end.

(** Both indices of the rotation point into their lists. *)
Definition indices_in_range (s : state) : Prop :=
  (usdt_bsc_address_index s < List.length USDT_BSC_ADDRESSES)%nat /\
  (usdc_bsc_address_index s < List.length USDC_BSC_ADDRESSES)%nat.

(** Room 7 with both addresses given and the deal approved by no one,
    the index of the USDT rotation at its second address. *)
Definition usdt_deal : state :=
  set_usdt_bsc_address_index 1
    (set_user_coins {[ 7 := USDT ]} usdc_deal).

(** ** Any sequence of updates *)

(** What the Interactive Agent receives: a press on a button of the
    escrow protocol, a text, one of the two commands, a poll of the
    queue. *)
Inductive update :=
| pressed (username : string) (data : callback_data)
| texted (u : user) (text : string) (chat_id : Z)
| release_typed (is_group : bool) (chat_id : Z)
| restart_typed (is_group : bool) (chat_id : Z)
| polled (initiator : string).

Section Updates.
Variable py_float : string -> option pyfloat.
Variable api_key : string.
Variable ledger : string -> Verifier.http_reply.

Definition handler (x : update) : M unit :=
  match x with
  | pressed username data => button_callback username data
  | texted u text chat_id => handle_text py_float api_key ledger u text chat_id
  | release_typed is_group chat_id => release_command is_group chat_id
  | restart_typed is_group chat_id => restart_command is_group chat_id
  | polled initiator => check_and_send_deal_results initiator
  end.

(** Updates one after the other, each with the outcomes of its calls. *)
Fixpoint after_updates (xs : list (update * list outcome)) (s : state) : state :=
  match xs with
  | [] => s
  | (x, o) :: r => after_updates r (state_after (handler x) s o)
  end.

End Updates.

(** ** The hash step *)

(** The texts on which the functions of [PyStr] are those of Python:
    the strings of ASCII characters. *)
Definition is_ascii (s : string) : bool :=
  PyStr.all_chars (fun c => (nat_of_ascii c <? 128)%nat) s.



(** ** Hashes and links *)

(** The characters of a hash as a user types it: hexadecimal digits and
    the [x] of the prefix. *)
Definition hash_char (c : ascii) : bool := PyStr.is_hex c || Ascii.eqb c "x".

Definition not_space (c : ascii) : bool := negb (PyStr.is_space c).

Definition not_slash (c : ascii) : bool := negb (Ascii.eqb c "/").

(** The characters of the query of a link: no whitespace, no slash. *)
Definition query_char (c : ascii) : bool := not_space c && not_slash c.

(** What may follow the hash in a link: nothing, or a question mark and
    a query. *)
Definition is_query (rest : string) : bool :=
  match rest with
  | EmptyString => true
  | String c q => Ascii.eqb c "?" && PyStr.all_chars query_char q
  end.

(** ** Senders and their names *)



(** ** Two rooms and their amounts *)

Definition carol : user := {| user_id := 33; username := Some "carol" |}.
Definition dave : user := {| user_id := 44; username := Some "dave" |}.

Definition carol_and_dave : parties := {| buyer := Some "carol"; seller := Some "dave" |}.

(** Rooms 7 and 8 wait for their amounts. *)
Definition both_amounts_awaited : state :=
  set_room_initiators {[ 7 := alice_and_bob; 8 := carol_and_dave ]}
    (set_room_transaction_state {[ 7 := step1; 8 := step1 ]} startup).

(** alice enters 1000 in room 7, then carol enters 50 in room 8. *)
Definition amounts_entered : state :=
  state_after (handle_text PyFloat.literal "KEY" unknown_transaction carol "50"
                 (-1000000000008))
    (state_after (handle_text PyFloat.literal "KEY" unknown_transaction alice "1000"
                    (-1000000000007)) both_amounts_awaited []) [].

(** Room 8 has gone on to a USDT deal on BSC and awaits the hash of the
    deposit. *)
Definition room8_awaits_hash : state :=
  set_user_blockchain {[ 8 := BSC ]}
    (set_user_coins {[ 8 := USDT ]}
       (set_room_awaiting_hash {[ 8 ]}
          (set_room_transaction_state
             (<[ 8 := awaiting_hash ]> (room_transaction_state amounts_entered))
             amounts_entered))).

(** Room 7 waiting for the rate. *)
Definition rate_awaited : state := set_room_transaction_state {[ 7 := step2 ]} room7.

(** * Theorems *)

(** ** The transaction verifier *)

Section VerifierFacts.
Import Verifier.

Lemma invalid_is_rejection r :
  valid (invalid r) = false /\ is_Some (error (invalid r)).
Proof. split; [reflexivity | eexists; reflexivity]. Qed.

Lemma check_recipient_mismatch escrow from to wei block :
  to <> escrow ->
  check_recipient escrow from to wei block = invalid NotToEscrow.
Proof.
  intros Hne. unfold check_recipient.
  destruct (String.eqb to escrow) eqn:E; [|reflexivity].
  apply String.eqb_eq in E. contradiction.
Qed.

Lemma check_recipient_match escrow from wei block :
  check_recipient escrow from escrow wei block =
  {| valid := true; amount_wei := Some wei; from_address := Some from;
     to_address := Some escrow; block_number := Some block; error := None |}.
Proof. unfold check_recipient. rewrite String.eqb_refl. reflexivity. Qed.

Lemma well_formed_checks tx :
  well_formed tx = true ->
  (String.length (normalize tx) <? 32)%nat = false /\
  exists v, PyStr.int16 (PyStr.remove_0x (normalize tx)) = Some v.
Proof.
  unfold well_formed. intros H. apply andb_true_iff in H as [H1 H2].
  split; [now apply negb_true_iff in H1|].
  destruct (PyStr.int16 _); [eauto | discriminate].
Qed.

(** A malformed hash is turned down whatever the explorer would say: the
    explorer is not consulted. *)
Lemma malformed_hash_rejected key ledger tx escrow :
  well_formed tx = false ->
  valid (verify_transaction_bscscan key ledger tx escrow) = false.
Proof.
  unfold well_formed, verify_transaction_bscscan. intros H.
  destruct (String.length (normalize tx) <? 32)%nat; [reflexivity|].
  destruct (PyStr.int16 (PyStr.remove_0x (normalize tx))); [discriminate | reflexivity].
Qed.

(** C1, as amended.  For a well-formed hash the verifier answers
    [valid = False] with a reason when the request raises, when the body
    is empty, is not JSON or is not a JSON object, and when the response
    carries a transaction whose recipient, in lower case, is not the
    escrow address in lower case.  When the response is an object that
    carries no transaction and a key is configured, the verifier falls
    back on its test defaults and answers [valid = True] with the escrow
    address as recipient. *)
Theorem verifier_rejects_failed_lookups key ledger tx escrow :
  well_formed tx = true ->
  let v := verify_transaction_bscscan key ledger tx escrow in
  (rejected_reply escrow (ledger (normalize tx)) ->
     valid v = false /\ is_Some (error v)) /\
  (key <> "" -> no_transaction (ledger (normalize tx)) ->
     valid v = true /\ to_address v = Some (PyStr.lower escrow)).
Proof.
  intros Hwf v. subst v. unfold verify_transaction_bscscan.
  destruct (well_formed_checks tx Hwf) as [Hlen [n Hhex]].
  rewrite Hlen, Hhex. split.
  - intros Hrej.
    destruct (String.eqb key ""); [apply invalid_is_rejection|].
    destruct (ledger (normalize tx)) as [|text decoded]; [apply invalid_is_rejection|].
    destruct (String.eqb text "") eqn:Et; [apply invalid_is_rejection|].
    apply String.eqb_neq in Et. simpl in Hrej.
    destruct Hrej as [? | Hrej]; [contradiction|].
    destruct decoded as [[| | | | |fields]|]; try apply invalid_is_rejection.
    destruct (found_tx fields) as [txd|]; [|contradiction].
    destruct (lower_or_empty (Json.get "from" txd)) as [from|];
      [|apply invalid_is_rejection].
    destruct Hrej as [? | Hto]; [discriminate|].
    destruct (lower_or_empty (Json.get "to" txd)) as [to|];
      [|apply invalid_is_rejection].
    rewrite check_recipient_mismatch; [apply invalid_is_rejection|].
    intros ->. now apply Hto.
  - intros Hkey Hnone.
    destruct (String.eqb key "") eqn:Ek; [apply String.eqb_eq in Ek; contradiction|].
    destruct (ledger (normalize tx)) as [|text [[| | | | |fields]|]]; try contradiction.
    destruct Hnone as [Ht Hf].
    destruct (String.eqb text "") eqn:Et; [apply String.eqb_eq in Et; contradiction|].
    rewrite Hf, check_recipient_match. split; reflexivity.
Qed.

End VerifierFacts.

Lemma verifier_rejects_failed_lookups_witness :
Verifier.valid
  (Verifier.verify_transaction_bscscan "KEY" other_recipient sample_hash sample_escrow)
= false.
Proof.
refine (proj1 (proj1 (verifier_rejects_failed_lookups
                        "KEY" other_recipient sample_hash sample_escrow _) _)).
- vm_compute. reflexivity.
- vm_compute. right. right. discriminate.
Defined.

(** C1 as stated fails: a well-formed hash the explorer does not know is
  answered with [valid = True]. *)
Lemma verifier_accepts_unknown_transaction :
~ (forall key ledger tx escrow,
     Verifier.well_formed tx = true ->
     Verifier.spec_failed_lookup escrow (ledger (Verifier.normalize tx)) ->
     Verifier.valid (Verifier.verify_transaction_bscscan key ledger tx escrow) = false).
Proof.
intros H.
specialize (H "KEY" unknown_transaction sample_hash sample_escrow).
vm_compute in H. specialize (H eq_refl I). discriminate.
Qed.

(** ** Reasoning about handlers *)

Section Emits.
Context (P : event -> Prop).

Lemma emits_ret {A} (a : A) : emits P (mret a).
Proof. intros w H. exact H. Qed.

Lemma emits_raise {A} (e : exn) : emits P (raise e : M A).
Proof. intros w H. exact H. Qed.

Lemma emits_get_state : emits P get_state.
Proof. intros w H. exact H. Qed.

Lemma emits_modify f : emits P (modify f).
Proof. intros w H. exact H. Qed.

Lemma emits_bind {A B} (m : M A) (f : A -> M B) :
  emits P m -> (forall a, emits P (f a)) -> emits P (m ≫= f).
Proof.
  intros Hm Hf w H. specialize (Hm w H).
  unfold mbind, M_bind. destruct (m w) as [[a|e] w']; simpl in *.
  - now apply Hf.
  - exact Hm.
Qed.

Lemma emits_try_except {A} (m : M A) (h : exn -> M A) :
  emits P m -> (forall e, emits P (h e)) -> emits P (try_except m h).
Proof.
  intros Hm Hh w H. specialize (Hm w H).
  unfold try_except. destruct (m w) as [[a|e] w']; simpl in *.
  - exact Hm.
  - now apply Hh.
Qed.

Lemma emits_attempt (m : M unit) : emits P m -> emits P (attempt m).
Proof. intros Hm. apply emits_try_except; [exact Hm | intros; apply emits_ret]. Qed.

Lemma emits_record e : P e -> emits P (record e).
Proof. intros He w H. simpl. apply Forall_app. split; [exact H | now constructor]. Qed.

Lemma emits_call a : (forall o, P (Bot a o)) -> emits P (call a).
Proof.
  intros Ha w H. simpl. apply Forall_app. split; [exact H|].
  constructor; [apply Ha | constructor].
Qed.

Lemma emits_call_ a : (forall o, P (Bot a o)) -> emits P (call_ a).
Proof.
  intros Ha. apply emits_bind; [now apply emits_call | intros; apply emits_ret].
Qed.

End Emits.

Section Preserves.
Context {X : Type} (f : state -> X).

Lemma preserves_ret {A} (a : A) : preserves f (mret a).
Proof. intros w. reflexivity. Qed.

Lemma preserves_raise {A} (e : exn) : preserves f (raise e : M A).
Proof. intros w. reflexivity. Qed.

Lemma preserves_get_state : preserves f get_state.
Proof. intros w. reflexivity. Qed.

Lemma preserves_record e : preserves f (record e).
Proof. intros w. reflexivity. Qed.

Lemma preserves_modify g : (forall s, f (g s) = f s) -> preserves f (modify g).
Proof. intros Hg w. apply Hg. Qed.

Lemma preserves_bind {A B} (m : M A) (k : A -> M B) :
  preserves f m -> (forall a, preserves f (k a)) -> preserves f (m ≫= k).
Proof.
  intros Hm Hk w. specialize (Hm w).
  unfold mbind, M_bind. destruct (m w) as [[a|e] w']; simpl in *.
  - now rewrite Hk.
  - exact Hm.
Qed.

Lemma preserves_try_except {A} (m : M A) (h : exn -> M A) :
  preserves f m -> (forall e, preserves f (h e)) -> preserves f (try_except m h).
Proof.
  intros Hm Hh w. specialize (Hm w).
  unfold try_except. destruct (m w) as [[a|e] w']; simpl in *.
  - exact Hm.
  - now rewrite Hh.
Qed.

Lemma preserves_attempt (m : M unit) : preserves f m -> preserves f (attempt m).
Proof. intros Hm. apply preserves_try_except; [exact Hm | intros; apply preserves_ret]. Qed.

Lemma preserves_call a : preserves f (call a).
Proof. intros w. reflexivity. Qed.

Lemma preserves_call_ a : preserves f (call_ a).
Proof.
  apply preserves_bind; [apply preserves_call | intros; apply preserves_ret].
Qed.

End Preserves.

(** One step of either kind of proof: the rule of the construct at the
  head of the handler, a case split on what it branches on. *)
Ltac handler_step :=
match goal with
| |- emits _ (mret _) => apply emits_ret
| |- emits _ (raise _) => apply emits_raise
| |- emits _ get_state => apply emits_get_state
| |- emits _ (modify _) => apply emits_modify
| |- emits _ (record _) => apply emits_record
| |- emits _ (call_ _) => apply emits_call_; intro
| |- emits _ (call _) => apply emits_call; intro
| |- emits _ (attempt _) => apply emits_attempt
| |- emits _ (try_except _ _) => apply emits_try_except; [|intro]
| |- emits _ (mbind _ _) => apply emits_bind; [|intro]
| |- preserves _ (mret _) => apply preserves_ret
| |- preserves _ (raise _) => apply preserves_raise
| |- preserves _ get_state => apply preserves_get_state
| |- preserves _ (modify _) => apply preserves_modify; intro
| |- preserves _ (record _) => apply preserves_record
| |- preserves _ (call_ _) => apply preserves_call_
| |- preserves _ (call _) => apply preserves_call
| |- preserves _ (attempt _) => apply preserves_attempt
| |- preserves _ (try_except _ _) => apply preserves_try_except; [|intro]
| |- preserves _ (mbind _ _) => apply preserves_bind; [|intro]
| |- emits _ (match ?x with _ => _ end) => destruct x
| |- preserves _ (match ?x with _ => _ end) => destruct x
| |- emits _ (if ?b then _ else _) => destruct b
| |- preserves _ (if ?b then _ else _) => destruct b
end.

Ltac handler_steps := repeat handler_step; try reflexivity; try done.

(** ** Running a handler step by step *)

Arguments next_outcome : simpl never.
Arguments logged : simpl never.
Arguments with_globals : simpl never.
Arguments M_bind : simpl never.
Arguments M_ret : simpl never.
Arguments try_except : simpl never.
Arguments attempt : simpl never.
Arguments call : simpl never.
Arguments call_ : simpl never.
Arguments modify : simpl never.
Arguments get_state : simpl never.
Arguments record : simpl never.
Arguments raise : simpl never.
Arguments answer_of : simpl never.
Arguments deposit_addresses_map : simpl never.

Lemma globals_logged a w : globals (logged a w) = globals w.
Proof. reflexivity. Qed.

Lemma trace_logged a w : trace (logged a w) = (trace w ++ [Bot a (next_outcome w)])%list.
Proof. reflexivity. Qed.

Lemma globals_with_globals g w : globals (with_globals g w) = g.
Proof. reflexivity. Qed.

Lemma trace_with_globals g w : trace (with_globals g w) = trace w.
Proof. reflexivity. Qed.

Lemma next_outcome_with_globals g w : next_outcome (with_globals g w) = next_outcome w.
Proof. reflexivity. Qed.

Ltac tidy := rewrite ?globals_logged, ?globals_with_globals; simpl.

Lemma run_get_state {A} (k : state -> M A) w : (get_state ≫= k) w = k (globals w) w.
Proof. reflexivity. Qed.

Lemma run_modify {A} g (k : unit -> M A) w :
  (modify g ≫= k) w = k tt (with_globals (g (globals w)) w).
Proof. reflexivity. Qed.

Lemma run_ret {A B} (a : A) (k : A -> M B) w : (mret a ≫= k) w = k a w.
Proof. reflexivity. Qed.

Lemma run_attempt_call {A} a (k : unit -> M A) w :
  (attempt (call_ a) ≫= k) w = k tt (logged a w).
Proof.
  unfold attempt, try_except, call_, call, mbind, M_bind, mret, M_ret.
  destruct (next_outcome w); reflexivity.
Qed.

Lemma run_call_ {A} a (k : unit -> M A) w :
  (call_ a ≫= k) w =
  match answer_of (next_outcome w) with
  | Done _ => k tt (logged a w)
  | Raised e => (Raised e, logged a w)
  end.
Proof.
  unfold call_, call, mbind, M_bind, mret, M_ret.
  destruct (next_outcome w); reflexivity.
Qed.

Lemma call__alone a w :
  call_ a w =
  (match answer_of (next_outcome w) with Done _ => Done tt | Raised e => Raised e end,
   logged a w).
Proof.
  unfold call_, call, mbind, M_bind, mret, M_ret.
  destruct (next_outcome w); reflexivity.
Qed.

Lemma run_assoc {A B C} (m : M A) (f : A -> M B) (g : B -> M C) w :
  ((m ≫= f) ≫= g) w = (m ≫= fun a => f a ≫= g) w.
Proof. unfold mbind, M_bind. destruct (m w) as [[a|e] w']; reflexivity. Qed.

Lemma try_bind {A B} (m : M A) (k : A -> M B) h w :
  try_except (m ≫= k) h w =
  match m w with
  | (Done a, w') => try_except (k a) h w'
  | (Raised e, w') => h e w'
  end.
Proof. unfold try_except, mbind, M_bind. destruct (m w) as [[a|e] w']; reflexivity. Qed.

Lemma try_attempt_call {A} a (k : unit -> M A) h w :
  try_except (attempt (call_ a) ≫= k) h w = try_except (k tt) h (logged a w).
Proof.
  rewrite try_bind. unfold attempt, try_except at 1. rewrite call__alone.
  destruct (answer_of (next_outcome w)); reflexivity.
Qed.

Lemma try_get_state {A} (k : state -> M A) h w :
try_except (get_state ≫= k) h w = try_except (k (globals w)) h w.
Proof. reflexivity. Qed.

Lemma try_modify {A} g (k : M A) h w :
try_except (modify g;; k) h w =
try_except k h {| globals := g (globals w); trace := trace w; net := net w |}.
Proof. reflexivity. Qed.

Lemma try_assoc {A B C} (m : M A) (f : A -> M B) (g : B -> M C) h w :
  try_except ((m ≫= f) ≫= g) h w = try_except (m ≫= fun a => f a ≫= g) h w.
Proof. unfold try_except. now rewrite run_assoc. Qed.




Lemma attempt_call_alone a w : attempt (call_ a) w = (Done tt, logged a w).
Proof.
  unfold attempt, try_except. rewrite call__alone.
  destruct (answer_of (next_outcome w)); reflexivity.
Qed.

(** In a group, [handle_text] is the handler of the step of the room. *)
Lemma handle_text_in_group py_float key ledger u text chat_id w :
  chat_id <= 0 ->
  handle_text py_float key ledger u text chat_id w =
  match room_transaction_state (globals w) !! original_of chat_id with
  | Some step1 => handle_amount py_float u text (original_of chat_id) w
  | Some step2 => handle_rate py_float u text (original_of chat_id) w
  | Some step3 => handle_payment_method u text (original_of chat_id) w
  | Some step6_buyer_address => handle_buyer_address u text (original_of chat_id) w
  | Some step7_seller_address => handle_seller_address u text (original_of chat_id) w
  | Some awaiting_hash => handle_hash key ledger u text (original_of chat_id) w
  | _ => (Done tt, w)
  end.
Proof.
  intros Hchat. unfold handle_text.
  assert (Hpos : (0 <? chat_id)%Z = false) by (apply Z.ltb_ge; exact Hchat).
  rewrite Hpos, run_get_state.
  destruct (room_transaction_state (globals w) !! original_of chat_id) as [[]|]; reflexivity.
Qed.

Lemma no_verify_logged a w :
  existsb is_verify (trace (logged a w)) = existsb is_verify (trace w).
Proof. rewrite trace_logged, existsb_app. simpl. now rewrite !orb_false_r. Qed.

Lemma attempted_logged a w : attempted a (trace (logged a w)).
Proof.
  exists (next_outcome w). rewrite trace_logged. apply elem_of_app. right.
  apply list_elem_of_singleton. reflexivity.
Qed.

Lemma attempted_later a b w : attempted a (trace w) -> attempted a (trace (logged b w)).
Proof.
  intros [o Ho]. exists o. rewrite trace_logged. apply elem_of_app. now left.
Qed.

Lemma delivered_logged a b w :
  delivered a (trace (logged b w)) ->
  delivered a (trace w) \/ (a = b /\ exists mid, next_outcome w = Delivered mid).
Proof.
  intros [mid H]. rewrite trace_logged in H. apply elem_of_app in H as [H|H].
  - left. now exists mid.
  - right. apply list_elem_of_singleton in H. injection H as -> H. eauto.
Qed.

Lemma no_verify_snoc t a o :
  existsb is_verify (t ++ [Bot a o]) = existsb is_verify t.
Proof. rewrite existsb_app. simpl. now rewrite !orb_false_r. Qed.

Lemma attempted_snoc a t e : attempted a t -> attempted a (t ++ [e]).
Proof. intros [o Ho]. exists o. apply elem_of_app. now left. Qed.

Lemma delivered_snoc a b o t :
  delivered a (t ++ [Bot b o]) ->
  delivered a t \/ (a = b /\ exists mid, o = Delivered mid).
Proof.
  intros [mid H]. apply elem_of_app in H as [H|H].
  - left. now exists mid.
  - right. apply list_elem_of_singleton in H. injection H as -> H. eauto.
Qed.

Lemma raised_not_delivered w e :
  answer_of (next_outcome w) = Raised e -> ~ exists mid, next_outcome w = Delivered mid.
Proof. intros H [mid Hmid]. rewrite Hmid in H. discriminate. Qed.

(** ** The release gate *)

Lemma no_completion_not_fired t : Forall no_completion t -> completion_fired t = false.
Proof.
induction 1 as [|e t He _ IH]; [reflexivity|].
unfold completion_fired in *. simpl. now rewrite He, IH.
Qed.

Lemma edit_release_prompt_quiet s chat m b : emits no_completion (edit_release_prompt s chat m b).
Proof. unfold edit_release_prompt. handler_steps. Qed.

Lemma on_decline_release_quiet u chat : emits no_completion (on_decline_release u chat).
Proof. unfold on_decline_release. handler_steps. apply edit_release_prompt_quiet. Qed.

Lemma send_deal_complete_keeps {X} (f : state -> X) sc c a :
preserves f (send_deal_complete_message sc c a).
Proof. unfold send_deal_complete_message. handler_steps. Qed.

Lemma edit_release_prompt_keeps {X} (f : state -> X) s chat m b :
preserves f (edit_release_prompt s chat m b).
Proof. unfold edit_release_prompt. handler_steps. Qed.

Lemma both_approved_eq p : both_approved p = true -> p = (approved, approved).
Proof.
destruct p as [a b]. unfold both_approved. simpl. intros H.
apply andb_true_iff in H as [Ha Hb].
apply bool_decide_eq_true in Ha, Hb. now subst.
Qed.

Lemma approve_release_fired s u chat outcomes :
completion_fired (trace_of (on_approve_release u chat) s outcomes) = true ->
exists r,
  role_in_room (Some "") s chat u = Some r /\
  set_party r approved (default (waiting, waiting) (release_approvals s !! chat))
    = (approved, approved) /\
  release_approvals (state_after (on_approve_release u chat) s outcomes) !! chat
    = Some (approved, approved).
Proof.
unfold trace_of, state_after, run, on_approve_release.
rewrite try_get_state. simpl globals.
destruct (role_in_room (Some "") s chat u) as [r|] eqn:Hrole.
- rewrite try_modify. simpl globals; simpl trace; simpl net.
  set (statuses := set_party r approved
                     (default (waiting, waiting) (release_approvals s !! chat))).
  destruct (both_approved statuses) eqn:Hboth.
  + intros _. exists r. split; [reflexivity|]. split; [now apply both_approved_eq|].
    match goal with
    | |- release_approvals (globals (snd (?m ?w))) !! _ = _ =>
        assert (Hp : preserves release_approvals m)
    end.
    { handler_steps;
        [apply send_deal_complete_keeps | apply edit_release_prompt_keeps]. }
    rewrite Hp. simpl. rewrite lookup_insert_eq. f_equal. now apply both_approved_eq.
  + match goal with
    | |- completion_fired (trace (snd (?m ?w))) = true -> _ =>
        assert (Hq : emits no_completion m)
    end.
    { handler_steps. apply edit_release_prompt_quiet. }
    intros Hfired. rewrite no_completion_not_fired in Hfired; [discriminate|].
    apply Hq. constructor.
- match goal with
  | |- completion_fired (trace (snd (?m ?w))) = true -> _ =>
      assert (Hq : emits no_completion m)
  end.
  { handler_steps. }
  intros Hfired. rewrite no_completion_not_fired in Hfired; [discriminate|].
  apply Hq. constructor.
Qed.

Lemma on_approve_deal_quiet u chat : emits no_completion (on_approve_deal u chat).
Proof. unfold on_approve_deal, next_deposit_address. handler_steps. Qed.

Lemma send_step1_quiet sc chat : emits no_completion (send_step1_amount_message sc chat).
Proof. unfold send_step1_amount_message, set_step. handler_steps. Qed.

Lemma on_role_quiet r u chat : emits no_completion (on_role r u chat).
Proof. unfold on_role. handler_steps; apply send_step1_quiet. Qed.

Lemma on_payment_sent_quiet u chat : emits no_completion (on_payment_sent u chat).
Proof. unfold on_payment_sent, set_step. handler_steps. Qed.

Lemma quiet_not_fired {A} (m : M A) s outcomes :
emits no_completion m -> completion_fired (trace_of m s outcomes) = false.
Proof. intros H. apply no_completion_not_fired, H. constructor. Qed.

Lemma other_party_approved r (p : status * status) :
set_party r approved p = (approved, approved) -> party (other r) p = approved.
Proof. destruct r, p as [a b]; simpl; congruence. Qed.

(** C3.  A press on a button sends the deal-complete message only when
  it is an approval of the release by a party of the room whose
  counterpart had already approved, and it leaves both statuses
  approved; so an approval or a refusal by one party, the other one
  waiting or having refused, sends none. *)
Theorem release_completion_requires_both_approvals s username data outcomes :
completion_fired (trace_of (button_callback username data) s outcomes) = true ->
exists chat r,
  data = approve_release chat /\
  role_in_room (Some "") s chat username = Some r /\
  party (other r) (default (waiting, waiting) (release_approvals s !! chat)) = approved /\
  release_approvals (state_after (button_callback username data) s outcomes) !! chat
    = Some (approved, approved).
Proof.
destruct data as [chat|chat|chat|chat|chat|chat]; simpl button_callback; intros Hfired.
- destruct (approve_release_fired _ _ _ _ Hfired) as (r & Hrole & Hset & Hafter).
  exists chat, r. repeat split; try assumption. now apply other_party_approved.
- rewrite quiet_not_fired in Hfired by apply on_decline_release_quiet. discriminate.
- rewrite quiet_not_fired in Hfired by apply on_approve_deal_quiet. discriminate.
- rewrite quiet_not_fired in Hfired by apply on_role_quiet. discriminate.
- rewrite quiet_not_fired in Hfired by apply on_role_quiet. discriminate.
- rewrite quiet_not_fired in Hfired by apply on_payment_sent_quiet. discriminate.
Qed.

Lemma release_completion_requires_both_approvals_witness :
exists chat r,
  approve_release 7 = approve_release chat /\
  role_in_room (Some "") release_half_approved chat "Alice" = Some r /\
  party (other r)
    (default (waiting, waiting) (release_approvals release_half_approved !! chat))
    = approved /\
  release_approvals
    (state_after (button_callback "Alice" (approve_release 7)) release_half_approved [])
    !! chat = Some (approved, approved).
Proof.
apply (release_completion_requires_both_approvals
         release_half_approved "Alice" (approve_release 7) []).
vm_compute. reflexivity.
Defined.

Lemma deliver_results_quiet initiator q : emits no_completion (deliver_results initiator q).
Proof.
  induction q as [|req q IH]; simpl; unfold notify; handler_steps.
Qed.

(** X5.  Nothing but a button sends the deal-complete message: not a
    text, not [/release], not [/restart], not a poll of the queue. *)
Lemma texts_and_commands_complete_nothing py_float key ledger u text chat_id is_group initiator :
  emits no_completion (handle_text py_float key ledger u text chat_id) /\
  emits no_completion (release_command is_group chat_id) /\
  emits no_completion (restart_command is_group chat_id) /\
  emits no_completion (check_and_send_deal_results initiator).
Proof.
  repeat split.
  - unfold handle_text, handle_amount, handle_rate, handle_payment_method,
      handle_buyer_address, handle_seller_address, handle_hash, may_submit,
      send_step2_rate_message, send_step3_payment_message, send_step4_blockchain_message,
      send_deal_summary_message, confirm_deposit, send_deposit_found_message, set_step.
    handler_steps. all: destruct (Verifier.error _); reflexivity.
  - unfold release_command. handler_steps.
  - unfold restart_command, send_disclaimer_message, send_role_selection_message.
    handler_steps.
  - unfold check_and_send_deal_results. handler_steps. apply deliver_results_quiet.
Qed.

(** C4.  The release gate fires again on a repeated approval: in room 7,
    after [/release] and the approval of the buyer, the approval of the
    seller sends the deal-complete message and removes the buttons of
    the prompt, both statuses are then approved, and a further approval
    by the seller sends the deal-complete message a second time. *)
Theorem release_completion_fires_again :
  release_approvals seller_approved !! 7 = Some (approved, approved) /\
  trace_of (button_callback "bob" (approve_release 7)) buyer_approved [] =
    [Bot (send (-1000000000007) (DealComplete "0xUnknown") true) (Delivered 0);
     Bot (edit_message_caption (-1000000000007) 0 ReleaseFinal false) (Delivered 0);
     Bot (answer ReleaseApproved false) (Delivered 0)] /\
  completions (trace_of (button_callback "bob" (approve_release 7)) seller_approved []) = 1%nat /\
  completions
    (trace_of (button_callback "bob" (approve_release 7)) buyer_approved [] ++
     trace_of (button_callback "bob" (approve_release 7)) seller_approved []) = 2%nat.
Proof. vm_compute. repeat split; reflexivity. Qed.

(** The release gate has no memory of having fired: whenever both
    statuses are approved, an approval by a party sends the deal-complete
    message, whatever the outcomes of the calls. *)
Lemma approval_after_completion_fires s u chat r outcomes :
  release_approvals s !! chat = Some (approved, approved) ->
  role_in_room (Some "") s chat u = Some r ->
  completion_fired (trace_of (on_approve_release u chat) s outcomes) = true.
Proof.
  intros Hboth Hrole. unfold trace_of, run, on_approve_release.
  rewrite try_get_state. cbn [globals]. rewrite Hrole, Hboth, try_modify.
  assert (Hset : set_party r approved (default (waiting, waiting) (Some (approved, approved)))
                 = (approved, approved)) by (now destruct r).
  rewrite Hset. change (both_approved (approved, approved)) with true. cbv iota.
  unfold send_deal_complete_message. rewrite try_assoc, try_attempt_call. cbv beta.
  match goal with |- completion_fired (trace (snd (try_except ?m ?h ?w))) = true =>
    assert (Hgrow : exists t, trace (snd (try_except m h w)) = (trace w ++ t)%list)
  end.
  { unfold edit_release_prompt. cbn [globals].
    destruct (release_messages s !! chat) as [msg_id|].
    - rewrite try_attempt_call. cbv beta. unfold try_except. rewrite call__alone.
      destruct (answer_of (next_outcome _)).
      + eexists. rewrite !trace_logged, <- !app_assoc. reflexivity.
      + rewrite call__alone. eexists. rewrite !trace_logged, <- !app_assoc. reflexivity.
    - rewrite try_bind. unfold mret, M_ret. cbv beta iota. unfold try_except.
      rewrite call__alone.
      destruct (answer_of (next_outcome _)).
      + eexists. rewrite !trace_logged, <- !app_assoc. reflexivity.
      + rewrite call__alone. eexists. rewrite !trace_logged, <- !app_assoc. reflexivity. }
  destruct Hgrow as [t ->]. rewrite trace_logged.
  unfold completion_fired. rewrite !existsb_app. reflexivity.
Qed.

(** The approval of the deal terms has the guard the release lacks: a
    second approval by the same party is answered and changes nothing. *)
Lemma deal_approval_is_guarded :
  trace_of (button_callback "alice" (approve_deal 7)) deal_approved_by_buyer [] =
    [Bot (answer AlreadyApproved true) (Delivered 0)] /\
  state_after (button_callback "alice" (approve_deal 7)) deal_approved_by_buyer [] =
    deal_approved_by_buyer.
Proof. vm_compute. split; reflexivity. Qed.

(** ** Roles *)

(** C5.  A username the role prompt was not sent to gets a role: in room
    7, whose prompt names alice and Bob, a press by mallory is stored in
    the roles of the room. *)
Theorem role_given_to_unregistered_user :
  user_roles (state_after (button_callback "mallory" (role_buyer 7)) choosing_roles []) !! 7
    = Some [("mallory", BUYER)] /\
  "mallory" ∉ registered role_prompt7.
Proof.
  split; [vm_compute; reflexivity|].
  unfold registered. vm_compute. intros H.
  repeat (apply elem_of_cons in H as [H|H]; [discriminate|]).
  now apply elem_of_nil in H.
Qed.

Lemma get_set_eq {V} (k : string) (v : V) d : PyDict.get k (PyDict.set k v d) = Some v.
Proof.
  induction d as [|[k' v'] d IH]; simpl.
  - now rewrite decide_True.
  - destruct (decide (k = k')) as [->|Hne]; simpl.
    + now rewrite decide_True.
    + now rewrite decide_False.
Qed.

Lemma get_set_ne {V} (k k' : string) (v : V) d :
  k <> k' -> PyDict.get k' (PyDict.set k v d) = PyDict.get k' d.
Proof.
  intros Hne. induction d as [|[k0 v0] d IH]; simpl.
  - rewrite decide_False by congruence. reflexivity.
  - destruct (decide (k = k0)) as [->|Hne0]; simpl.
    + rewrite !decide_False by congruence. reflexivity.
    + destruct (decide (k' = k0)); [reflexivity | exact IH].
Qed.

(** What a press on a role button leaves in [user_roles]. *)
Lemma on_role_roles role_type u chat s outcomes :
  user_roles (state_after (on_role role_type u chat) s outcomes) =
  match role_messages s !! chat with
  | Some rm =>
      <[chat := if role_taken rm (roles_of s chat) role_type u then roles_of s chat
                else PyDict.set (PyStr.lower u) role_type (roles_of s chat)]> (user_roles s)
  | None => user_roles s
  end.
Proof.
  unfold state_after, run, on_role.
  rewrite try_get_state. cbn [globals].
  destruct (role_messages s !! chat) as [rm|].
  - rewrite try_modify. cbn [globals].
    fold (roles_of s chat). fold (role_taken rm (roles_of s chat) role_type u).
    destruct (role_taken rm (roles_of s chat) role_type u).
    + match goal with |- user_roles (globals (snd (?m ?w))) = _ =>
        assert (Hkeep : preserves user_roles m) by handler_steps
      end.
      rewrite Hkeep. reflexivity.
    + rewrite try_modify.
      match goal with |- user_roles (globals (snd (?m ?w))) = _ =>
        assert (Hkeep : preserves user_roles m)
      end.
      { unfold send_step1_amount_message, set_step. handler_steps. }
      rewrite Hkeep. simpl. apply insert_insert_eq.
  - match goal with |- user_roles (globals (snd (?m ?w))) = _ =>
      assert (Hkeep : preserves user_roles m) by handler_steps
    end.
    rewrite Hkeep. reflexivity.
Qed.

Lemma on_role_keeps_prompts role_type u chat :
  preserves role_messages (on_role role_type u chat).
Proof. unfold on_role, send_step1_amount_message, set_step. handler_steps. Qed.

Lemma other_buttons_keep {X} (f : state -> X) u d :
  (forall v s, f (set_release_approvals v s) = f s) ->
  (forall v s, f (set_approvals v s) = f s) ->
  (forall v s, f (set_usdt_bsc_address_index v s) = f s) ->
  (forall v s, f (set_usdc_bsc_address_index v s) = f s) ->
  (forall v s, f (set_deposit_address_messages v s) = f s) ->
  (forall v s, f (set_room_awaiting_hash v s) = f s) ->
  (forall v s, f (set_room_transaction_state v s) = f s) ->
  match d with role_buyer _ | role_seller _ => False | _ => True end ->
  preserves f (button_callback u d).
Proof.
  intros H1 H2 H3 H4 H5 H6 H7 Hd.
  destruct d; try contradiction; simpl button_callback.
  - unfold on_approve_release, send_deal_complete_message, edit_release_prompt. handler_steps.
  - unfold on_decline_release, edit_release_prompt. handler_steps.
  - unfold on_approve_deal, next_deposit_address. handler_steps.
  - unfold on_payment_sent, set_step. handler_steps.
Qed.

Lemma distinct_after_choice rm roles role_type u :
  PyStr.lower (role_initiator rm) <> PyStr.lower (role_counterparty rm) ->
  roles_distinct rm roles ->
  roles_distinct rm
    (if role_taken rm roles role_type u then roles
     else PyDict.set (PyStr.lower u) role_type roles).
Proof.
  intros Hne Hd. destruct (role_taken rm roles role_type u) eqn:Htaken; [exact Hd|].
  unfold role_taken in Htaken. apply orb_false_iff in Htaken as [H1 H2].
  intros r [Hi Hc].
  destruct (String.eqb (PyStr.lower u) (PyStr.lower (role_initiator rm))) eqn:Ei.
  - apply String.eqb_eq in Ei. rewrite Ei in Hi, Hc.
    rewrite get_set_eq in Hi. injection Hi as <-.
    rewrite get_set_ne in Hc by exact Hne.
    rewrite andb_true_r in H1. apply bool_decide_eq_false in H1. contradiction.
  - destruct (String.eqb (PyStr.lower u) (PyStr.lower (role_counterparty rm))) eqn:Ec.
    + apply String.eqb_eq in Ec. rewrite Ec in Hi, Hc.
      rewrite get_set_eq in Hc. injection Hc as <-.
      rewrite get_set_ne in Hi by congruence.
      rewrite andb_true_r in H2. apply bool_decide_eq_false in H2. contradiction.
    + apply String.eqb_neq in Ei, Ec.
      rewrite get_set_ne in Hi by exact Ei. rewrite get_set_ne in Hc by exact Ec.
      apply (Hd r). now split.
Qed.

(** One press keeps the prompt of the room and the distinctness of the
    roles of its two users. *)
Lemma press_keeps_roles_distinct u d o s chat rm :
  role_messages s !! chat = Some rm ->
  PyStr.lower (role_initiator rm) <> PyStr.lower (role_counterparty rm) ->
  roles_distinct rm (roles_of s chat) ->
  let s' := state_after (button_callback u d) s o in
  role_messages s' !! chat = Some rm /\ roles_distinct rm (roles_of s' chat).
Proof.
  intros Hrm Hne Hd s'. subst s'.
  assert (Hrole : forall rt c,
            let s' := state_after (on_role rt u c) s o in
            role_messages s' !! chat = Some rm /\ roles_distinct rm (roles_of s' chat)).
  { intros rt c s'. subst s'. split.
    - unfold state_after, run. now rewrite on_role_keeps_prompts.
    - unfold roles_of at 1. rewrite on_role_roles.
      destruct (decide (c = chat)) as [->|Hc].
      + rewrite Hrm, lookup_insert_eq. now apply distinct_after_choice.
      + destruct (role_messages s !! c); [rewrite lookup_insert_ne by exact Hc|]; exact Hd. }
  destruct d as [c|c|c|c|c|c]; try apply Hrole;
    (split; [unfold state_after, run; rewrite other_buttons_keep; try reflexivity; try exact I; exact Hrm
            | unfold roles_of, state_after, run; rewrite other_buttons_keep; try reflexivity; try exact I; exact Hd]).
Qed.

(** X4.  The two users a role prompt was sent to, when they are two,
    never hold the same role, whatever buttons are pressed afterwards,
    by whomever and with whatever outcomes of the calls. *)
Lemma registered_users_never_share_a_role ps :
  forall s chat rm,
    role_messages s !! chat = Some rm ->
    PyStr.lower (role_initiator rm) <> PyStr.lower (role_counterparty rm) ->
    roles_distinct rm (roles_of s chat) ->
    roles_distinct rm (roles_of (after_presses ps s) chat).
Proof.
  induction ps as [|[[u d] o] ps IH]; intros s chat rm Hrm Hne Hd; [exact Hd|].
  simpl. destruct (press_keeps_roles_distinct u d o s chat rm Hrm Hne Hd) as [Hrm' Hd'].
  now apply IH.
Qed.

(** ** The deposit address *)

(** C6.  The deposit prompt and the verification use different
    addresses: in a USDC deal the prompt shows the first address of
    [USDC_BSC_ADDRESSES], and a hash then submitted is verified against
    the address of [deposit_addresses_map]. *)
Theorem prompt_and_verification_addresses_differ :
  prompted_address (trace_of (button_callback "bob" (approve_deal 7)) deal_approved_by_buyer [])
    = Some "0xAe6313dE2fDD754734074D8a6F4835c10827115b" /\
  room_transaction_state hash_awaited !! 7 = Some awaiting_hash /\
  verified_against
    (trace_of (handle_text PyFloat.literal "KEY" other_recipient bob sample_hash
                 (-1000000000007)) hash_awaited [])
    = Some "0xDA4c2a5B876b0c7521e1c752690D8705080000fE".
Proof. vm_compute. repeat split; reflexivity. Qed.

(** No address the prompt of a USDC deal can show is the address its
    hash is verified against. *)
Lemma usdc_prompt_is_never_the_verified_address :
  Forall (fun a => deposit_addresses_map (Some BSC, Some USDC) <> Some a) USDC_BSC_ADDRESSES.
Proof. repeat constructor; discriminate. Qed.

(** ** The text steps *)

Section HexFacts.
Import PyStr.

Lemma hex_not_space c : is_hex c = true -> is_c_space c = false.
Proof. destruct c as [[] [] [] [] [] [] [] []]; vm_compute; congruence. Qed.

Lemma hex_not_underscore c : is_hex c = true -> Ascii.eqb c "_" = false.
Proof. destruct c as [[] [] [] [] [] [] [] []]; vm_compute; congruence. Qed.

Lemma hex_has_value c : is_hex c = true -> exists d, hex_value c = Some d.
Proof. unfold is_hex. destruct (hex_value c); [eauto | discriminate]. Qed.

Lemma lstrip_hex s : all_chars is_hex s = true -> lstrip_with is_c_space s = s.
Proof.
  destruct s as [|c r]; [reflexivity|]. simpl. intros H.
  apply andb_true_iff in H as [Hc _]. now rewrite hex_not_space.
Qed.

Lemma rstrip_hex s : all_chars is_hex s = true -> rstrip_with is_c_space s = s.
Proof.
  induction s as [|c r IH]; [reflexivity|]. simpl. intros H.
  apply andb_true_iff in H as [Hc Hr]. rewrite IH by exact Hr.
  destruct r; [now rewrite hex_not_space | reflexivity].
Qed.

Lemma hex_digits_all_hex s :
  forall acc seen,
    all_chars is_hex s = true -> (seen = true \/ s <> "") ->
    exists v, hex_digits acc false seen s = Some v.
Proof.
  induction s as [|c r IH]; intros acc seen Hall Hseen.
  - destruct Hseen as [-> | H]; [simpl; eauto | contradiction].
  - simpl in Hall. apply andb_true_iff in Hall as [Hc Hr].
    simpl. rewrite (hex_not_underscore c Hc).
    destruct (hex_has_value c Hc) as [d ->]. apply IH; [exact Hr | now left].
Qed.

(** [int(s, 16)] reads every non-empty string of hexadecimal digits. *)
Lemma int16_all_hex s :
  all_chars is_hex s = true -> s <> "" -> exists v, int16 s = Some v.
Proof.
  intros Hall Hne. unfold int16, strip_with.
  rewrite (lstrip_hex s Hall), (rstrip_hex s Hall).
  destruct (hex_digits_all_hex s 0 false Hall (or_intror Hne)) as [v Hv].
  destruct s as [|c r]; [contradiction|].
  simpl in Hall. apply andb_true_iff in Hall as [Hc Hr].
  destruct c as [[] [] [] [] [] [] [] []]; try (vm_compute in Hc; discriminate Hc);
    try (rewrite Hv; eauto).
  (* the first digit is 0 *)
  destruct r as [|c' r']; [rewrite Hv; eauto|].
  simpl in Hr. apply andb_true_iff in Hr as [Hc' Hr'].
  destruct c' as [[] [] [] [] [] [] [] []]; try (vm_compute in Hc'; discriminate Hc');
    rewrite Hv; eauto.
Qed.

Lemma strict_address_accepted text :
  strict_address text = true -> address_accepted text = true.
Proof.
  unfold strict_address, address_accepted. intros H.
  apply andb_true_iff in H as [H Hhex]. rewrite H.
  apply andb_true_iff in H as [_ Hlen]. apply Nat.eqb_eq in Hlen.
  destruct (int16_all_hex (drop 2 text) Hhex) as [v Hv].
  - destruct text as [|a [|b [|c r]]]; simpl in Hlen; discriminate.
  - rewrite Hv. reflexivity.
Qed.

End HexFacts.

(** C7.  An address that is not [0x] and forty hexadecimal digits is
    accepted: [int(text[2:], 16)] reads a sign; the room moves on to the
    address of the seller. *)
Theorem signed_address_accepted :
  forall key ledger,
  strict_address signed_address = false /\
  address_accepted signed_address = true /\
  let after :=
    state_after (handle_text PyFloat.literal key ledger alice signed_address (-1000000000007))
      buyer_address_awaited [] in
  buyer_addresses after !! 7 = Some signed_address /\
  room_transaction_state after !! 7 = Some step7_seller_address.
Proof. intros key ledger. vm_compute. repeat split; reflexivity. Qed.

Lemma at_least_not_below x n : at_least x n = true -> PyFloat.lt_int x n = false.
Proof.
  destruct x as [|negative|q]; simpl; try discriminate.
  - now destruct negative.
  - intros ->. reflexivity.
Qed.

Lemma well_formed_not_turned_down py_float st text :
  well_formed_input py_float st text = true -> turned_down py_float st text = false.
Proof.
  destruct st; simpl; try discriminate.
  - destruct (py_float text); [apply at_least_not_below | discriminate].
  - destruct (py_float text); [apply at_least_not_below | discriminate].
  - intros ->. reflexivity.
  - intros H. now rewrite strict_address_accepted.
  - intros H. now rewrite strict_address_accepted.
Qed.





Lemma send_deal_summary_keeps_step sc c :
  preserves room_transaction_state (send_deal_summary_message sc c).
Proof. unfold send_deal_summary_message. handler_steps. Qed.



Section TextSteps.
Variable py_float : string -> option pyfloat.
Variables (key : string) (ledger : string -> Verifier.http_reply).





End TextSteps.


(** The amount 1000 is at least 1, yet the room stays at the amount
    step when the sending of the rate prompt fails. *)
Lemma valid_amount_not_advanced :
  well_formed_input PyFloat.literal step1 "1000" = true /\
  room_transaction_state
    (state_after (handle_text PyFloat.literal "KEY" unknown_transaction alice "1000"
                    (-1000000000007)) amount_awaited [Failed]) !! 7 = Some step1.
Proof. vm_compute. split; reflexivity. Qed.

(** The scenarios of the amount, the rate and the payment method. *)
Lemma scenario_amounts :
  let send text := handle_text PyFloat.literal "KEY" unknown_transaction alice text
                     (-1000000000007) in
  room_transaction_state (state_after (send "1000") amount_awaited []) !! 7 = Some step2 /\
  trace_of (send "0") amount_awaited [] = [Bot (reply_text AmountTooLow) (Delivered 0)] /\
  state_after (send "0") amount_awaited [] = amount_awaited.
Proof. vm_compute. repeat split; reflexivity. Qed.

Lemma scenario_rates :
  let send text := handle_text PyFloat.literal "KEY" unknown_transaction alice text
                     (-1000000000007) in
  let rate_awaited := set_room_transaction_state {[ 7 := step2 ]} room7 in
  trace_of (send "80") rate_awaited [] = [Bot (reply_text RateTooLow) (Delivered 0)] /\
  state_after (send "80") rate_awaited [] = rate_awaited /\
  room_transaction_state (state_after (send "89.5") rate_awaited []) !! 7 = Some step3.
Proof. vm_compute. repeat split; reflexivity. Qed.

Lemma scenario_payment_methods :
  let send text := handle_text PyFloat.literal "KEY" unknown_transaction alice text
                     (-1000000000007) in
  let method_awaited := set_room_transaction_state {[ 7 := step3 ]} room7 in
  user_payment_methods (state_after (send "cdm") method_awaited []) = [(11, "CDM")] /\
  room_transaction_state (state_after (send "cdm") method_awaited []) !! 7 = Some step4 /\
  trace_of (send "PAYPAL") method_awaited [] =
    [Bot (reply_text InvalidPaymentMethod) (Delivered 0)].
Proof. vm_compute. repeat split; reflexivity. Qed.

(** ** The master hash *)

Lemma confirm_deposit_runs chat_id amount seller_addr to_addr escrow tx w :
  let found := send (send_chat_of chat_id) (DepositFound amount seller_addr to_addr tx) false in
  let w1 :=
    with_globals
      (set_room_confirmed_deposits (<[chat_id := amount]> (room_confirmed_deposits (globals w)))
         (globals w)) (logged found w) in
  let w2 :=
    match deposit_address_messages (globals w) !! chat_id with
    | Some msg_id =>
        logged (edit_message_caption (send_chat_of chat_id) msg_id
                  (DepositTextClean (default USDT (user_coins (globals w) !! chat_id))
                     (default BSC (user_blockchain (globals w) !! chat_id)) escrow) false) w1
    | None => w1
    end in
  let w3 := logged (send (send_chat_of chat_id) PaymentReceived false) w2 in
  confirm_deposit chat_id amount seller_addr to_addr escrow tx w =
  match answer_of (next_outcome w2) with
  | Done _ =>
      (Done tt,
       with_globals
         (set_room_transaction_state (delete chat_id (room_transaction_state (globals w1)))
            (set_room_awaiting_hash (room_awaiting_hash (globals w1) ∖ {[chat_id]})
               (globals w1))) w3)
  | Raised e => (Raised e, w3)
  end.
Proof.
  intros found w1 w2 w3. unfold confirm_deposit, send_deposit_found_message.
  rewrite run_attempt_call, run_modify, run_get_state. tidy.
  fold found. fold w1. subst w2 w3.
  destruct (deposit_address_messages (globals w) !! chat_id) as [msg_id|].
  - rewrite run_attempt_call, run_call_.
    destruct (answer_of (next_outcome _)); reflexivity.
  - rewrite run_ret, run_call_.
    destruct (answer_of (next_outcome w1)); reflexivity.
Qed.

(** X15.  In a room at the awaiting-hash step whose blockchain and coin
    have an escrow address, when [user_amounts] is not empty and its
    first amount, whoever entered it, is not zero: an ASCII text whose
    hash is the master hash, whatever its case, is not verified.  No
    verification is made, the deposit-found message is sent with that
    first amount, which becomes the confirmed deposit of the room, and,
    when the payment-received message is delivered, the room no longer
    awaits a hash. *)
Theorem master_hash_confirms_deposit
    py_float key ledger u text chat_id s outcomes escrow amount :
  chat_id <= 0 ->
  is_ascii text = true ->
  let room := original_of chat_id in
  room_transaction_state s !! room = Some awaiting_hash ->
  PyStr.lower (extract_hash text) = PyStr.lower master_hash ->
  deposit_addresses_map (user_blockchain s !! room, user_coins s !! room) = Some escrow ->
  PyDict.first_value (user_amounts s) = Some amount ->
  PyFloat.truthy amount = true ->
  let t := trace_of (handle_text py_float key ledger u text chat_id) s outcomes in
  let s' := state_after (handle_text py_float key ledger u text chat_id) s outcomes in
  (existsb is_verify t = false /\
   attempted (send (send_chat_of room)
                (DepositFound amount
                   (default ("0x" ++ PyStr.repeat_char "0" 40)%string
                      (seller_addresses s !! room))
                   escrow (extract_hash text)) false) t /\
   room_confirmed_deposits s' !! room = Some amount /\
   (delivered (send (send_chat_of room) PaymentReceived false) t ->
    (room ∉ room_awaiting_hash s') /\ room_transaction_state s' !! room = None)).
Proof.
  intros Hchat _ room Hstep Hmaster Hescrow Hamount Htruthy t s'.
  subst t s'. unfold trace_of, state_after, run.
  rewrite handle_text_in_group by exact Hchat. simpl globals. fold room. rewrite Hstep.
  unfold handle_hash. rewrite try_attempt_call, try_get_state. tidy.
  rewrite Hescrow, Hamount, Htruthy. simpl negb. cbv iota.
  apply String.eqb_eq in Hmaster. rewrite Hmaster.
  unfold try_except. rewrite confirm_deposit_runs. tidy.
  set (w0 := logged message_delete {| globals := s; trace := []; net := outcomes |}).
  match goal with |- context [answer_of (next_outcome ?w)] => set (w2 := w) end.
  assert (Hnv : existsb is_verify (trace w2) = false).
  { subst w2. destruct (deposit_address_messages s !! room);
      rewrite ?no_verify_logged, ?trace_with_globals, ?no_verify_logged; reflexivity. }
  assert (Hfound : attempted (send (send_chat_of room)
               (DepositFound amount
                  (default ("0x" ++ PyStr.repeat_char "0" 40)%string
                     (seller_addresses s !! room))
                  escrow (extract_hash text)) false) (trace w2)).
  { subst w2. destruct (deposit_address_messages s !! room).
    - apply attempted_later. rewrite trace_with_globals. apply attempted_logged.
    - rewrite trace_with_globals. apply attempted_logged. }
  assert (Hnone : ~ delivered (send (send_chat_of room) PaymentReceived false) (trace w2)).
  { subst w2. intros Hd.
    destruct (deposit_address_messages s !! room).
    - apply delivered_logged in Hd as [Hd|[? _]]; [|discriminate].
      rewrite trace_with_globals in Hd.
      apply delivered_logged in Hd as [Hd|[? _]]; [|discriminate].
      apply delivered_logged in Hd as [[? Hd]|[? _]]; [|discriminate].
      now apply elem_of_nil in Hd.
    - rewrite trace_with_globals in Hd.
      apply delivered_logged in Hd as [Hd|[? _]]; [|discriminate].
      apply delivered_logged in Hd as [[? Hd]|[? _]]; [|discriminate].
      now apply elem_of_nil in Hd. }
  assert (Hdep : room_confirmed_deposits (globals w2) !! room = Some amount).
  { subst w2. destruct (deposit_address_messages s !! room); tidy; apply lookup_insert_eq. }
  destruct (answer_of (next_outcome w2)) as [mid|e] eqn:Hanswer.
  - tidy. rewrite no_verify_snoc.
    split; [exact Hnv|]. split; [now apply attempted_snoc|].
    split; [apply lookup_insert_eq|]. intros _. split.
    + intros Hin. apply elem_of_difference in Hin as [_ Hin].
      apply Hin, elem_of_singleton. reflexivity.
    + apply lookup_delete_eq.
  - rewrite call__alone. tidy. rewrite !no_verify_snoc.
    split; [exact Hnv|]. split; [now apply attempted_snoc, attempted_snoc|].
    split; [exact Hdep|]. intros Hd. exfalso.
    apply delivered_snoc in Hd as [Hd|[? _]]; [|discriminate].
    apply delivered_snoc in Hd as [Hd|[_ Hd]]; [now apply Hnone|].
    now apply (raised_not_delivered w2 e).
Qed.

Lemma master_hash_confirms_deposit_witness :
  room_confirmed_deposits
    (state_after (handle_text PyFloat.literal "KEY" unknown_transaction bob master_hash
                    (-1000000000007)) hash_awaited []) !! 7 = Some (FFin 1000).
Proof.
  refine (proj1 (proj2 (proj2
    (master_hash_confirms_deposit PyFloat.literal "KEY" unknown_transaction bob master_hash
       (-1000000000007) hash_awaited [] "0xDA4c2a5B876b0c7521e1c752690D8705080000fE"
       (FFin 1000) _ _ _ _ _ _ _)))).
  - lia.
  - vm_compute. reflexivity.
  - vm_compute. reflexivity.
  - vm_compute. reflexivity.
  - vm_compute. reflexivity.
  - vm_compute. reflexivity.
  - vm_compute. reflexivity.
Defined.

(** Room 7 awaits a hash when room 8 is restarted, which empties
    [user_amounts]; the master hash is then answered with the
    amount-not-found message and the room goes on waiting. *)
Lemma master_hash_without_amount :
  room_transaction_state other_room_restarted !! 7 = Some awaiting_hash /\
  trace_of (handle_text PyFloat.literal "KEY" unknown_transaction bob master_hash
              (-1000000000007)) other_room_restarted [] =
    [Bot message_delete (Delivered 0);
     Bot (send (-1000000000007) AmountNotFound false) (Delivered 0)] /\
  state_after (handle_text PyFloat.literal "KEY" unknown_transaction bob master_hash
                 (-1000000000007)) other_room_restarted [] = other_room_restarted.
Proof. vm_compute. repeat split; reflexivity. Qed.

(** ** The request queue *)

Lemma notify_runs initiator req chat_id r w :
  exists o g,
    notify initiator req chat_id r w =
      (Done tt,
       {| globals := g;
          trace := trace w ++
            [Bot (send (initiator_chat_id req)
                    (DealRoomCreated (link_to_send r) initiator (counterparty_username req))
                    false) o];
          net := tail (net w) |}) /\
    deal_queue_file g = deal_queue_file (globals w).
Proof.
  unfold notify, attempt, try_except, mbind, M_bind, call, logged, modify, mret, M_ret.
  exists (next_outcome w).
  destruct (next_outcome w); simpl; eexists; split; reflexivity.
Qed.


Lemma calls_cons a o t : calls (Bot a o :: t) = a :: calls t.
Proof. reflexivity. Qed.

Lemma omap_cons_some {A B} (f : A -> option B) x y l :
  f x = Some y -> omap f (x :: l) = y :: omap f l.
Proof. intros H. simpl. now rewrite H. Qed.

Lemma omap_cons_none {A B} (f : A -> option B) x l :
  f x = None -> omap f (x :: l) = omap f l.
Proof. intros H. simpl. now rewrite H. Qed.

(** What the loop over the requests does, whatever the bot answers. *)
Lemma deliver_results_runs initiator q :
  forall w, exists w',
    deliver_results initiator q w =
      (Done (map (fun req => if is_deliverable initiator req then mark_sent req else req) q,
             existsb (is_deliverable initiator) q), w') /\
    deal_queue_file (globals w') = deal_queue_file (globals w) /\
    exists t, trace w' = (trace w ++ t)%list /\ calls t = omap (notification initiator) q.
Proof.
  induction q as [|req q IH]; intros w.
  - exists w. simpl. split; [reflexivity|]. split; [reflexivity|].
    exists []. now rewrite app_nil_r.
  - simpl deliver_results. simpl map. simpl existsb. unfold is_deliverable at 1 3.
    destruct (deliverable initiator req) as [[chat_id r]|] eqn:Hd.
    + destruct (initiator_chat_id req <? 0)%Z eqn:Hneg.
      * destruct (notify_runs initiator req chat_id r w) as (o & g & Hn & Hg).
        unfold mbind, M_bind at 1. unfold mbind, M_bind at 1. rewrite Hn.
        match goal with |- context [deliver_results initiator q ?w1] =>
          destruct (IH w1) as (w' & Hrun & Hfile & t & Ht & Hc) end.
        unfold mbind, M_bind. rewrite Hrun. simpl. exists w'.
        split; [reflexivity|]. split; [now rewrite Hfile|].
        eexists (_ :: t). split.
        -- rewrite Ht. simpl. rewrite <- app_assoc. reflexivity.
        -- rewrite calls_cons, Hc. symmetry. apply omap_cons_some.
           unfold notification. now rewrite Hd, Hneg.
      * destruct (IH w) as (w' & Hrun & Hfile & t & Ht & Hc).
        unfold mbind, M_bind, mret, M_ret. simpl.
        unfold mbind, M_bind in Hrun. rewrite Hrun. simpl. exists w'.
        split; [reflexivity|]. split; [assumption|]. exists t. split; [assumption|].
        rewrite Hc. symmetry. apply omap_cons_none.
        unfold notification. now rewrite Hd, Hneg.
    + destruct (IH w) as (w' & Hrun & Hfile & t & Ht & Hc).
      unfold mbind, M_bind, mret, M_ret. rewrite Hrun. simpl. exists w'.
      split; [reflexivity|]. split; [assumption|]. exists t. split; [assumption|].
      rewrite Hc. symmetry. apply omap_cons_none.
      unfold notification. now rewrite Hd.
Qed.

Lemma sent_not_deliverable initiator req : sent req = true -> deliverable initiator req = None.
Proof. intros H. unfold deliverable. now rewrite H. Qed.

Lemma delivered_form_idle initiator req :
  is_deliverable initiator (delivered_form initiator req) = false.
Proof.
  unfold delivered_form. destruct (is_deliverable initiator req) eqn:E; [|exact E].
  unfold is_deliverable. now rewrite sent_not_deliverable.
Qed.

Lemma idle_map initiator q :
  existsb (is_deliverable initiator) q = false -> map (delivered_form initiator) q = q.
Proof.
  induction q as [|req q IH]; [reflexivity|]. simpl. intros H.
  apply orb_false_iff in H as [H1 H2]. unfold delivered_form at 1.
  now rewrite H1, IH.
Qed.

(** A loop over requests none of which is to be delivered calls nothing
    and changes nothing. *)
Lemma deliver_results_idle initiator q w :
  Forall (fun req => is_deliverable initiator req = false) q ->
  deliver_results initiator q w = (Done (q, false), w).
Proof.
  induction 1 as [|req q Hreq _ IH]; [reflexivity|].
  simpl. unfold is_deliverable in Hreq.
  destruct (deliverable initiator req); [discriminate|].
  unfold mbind, M_bind, mret, M_ret. now rewrite IH.
Qed.

Lemma poll_runs initiator s outcomes :
  exists w',
    run (check_and_send_deal_results initiator) s outcomes = (Done tt, w') /\
    deal_queue_file (globals w') = map (delivered_form initiator) <$> deal_queue_file s /\
    calls (trace w') = omap (notification initiator) (queue s).
Proof.
  unfold run, check_and_send_deal_results, attempt, try_except, queue.
  unfold mbind at 1, M_bind at 1, get_state. simpl.
  destruct (deal_queue_file s) as [q|] eqn:Hfile.
  - unfold mbind, M_bind.
    match goal with |- context [deliver_results initiator q ?w0] =>
      destruct (deliver_results_runs initiator q w0) as (w1 & Hrun & Hf & t & Ht & Hc) end.
    rewrite Hrun. simpl snd. simpl fst.
    destruct (existsb (is_deliverable initiator) q) eqn:Hany.
    + eexists. split; [reflexivity|]. simpl. split; [reflexivity|].
      rewrite Ht. exact Hc.
    + eexists. split; [reflexivity|]. simpl in *. split.
      * rewrite Hf, Hfile. simpl. f_equal. symmetry. now apply idle_map.
      * rewrite Ht. exact Hc.
  - eexists. split; [reflexivity|]. simpl. rewrite Hfile. split; reflexivity.
Qed.

Lemma poll_idle initiator s outcomes :
  Forall (fun req => is_deliverable initiator req = false) (queue s) ->
  run (check_and_send_deal_results initiator) s outcomes =
    (Done tt, {| globals := s; trace := []; net := outcomes |}).
Proof.
  intros Hidle.
  unfold run, check_and_send_deal_results, attempt, try_except, queue in *.
  unfold mbind at 1, M_bind at 1, get_state. simpl.
  destruct (deal_queue_file s) as [q|]; [|reflexivity].
  unfold mbind, M_bind. now rewrite deliver_results_idle.
Qed.

Lemma update_entry_same i c st res req : same_request req (update_entry i c st res req).
Proof.
  unfold update_entry, same_request.
  destruct (_ && _); simpl; repeat split; reflexivity.
Qed.

(** C9.  [update_request_status] gives the status and the result to the
    entries of the pair (initiator, counterparty) and leaves the others
    as they are.  A poll of the Interactive Agent notifies the completed
    requests of the initiator that are not yet sent and marks them; a
    second poll then calls nothing and changes nothing, and an entry
    that is marked is neither notified nor changed by any poll. *)
Theorem queue_results_matched_and_delivered_once :
  (forall i c st res s k req,
     queue s !! k = Some req ->
     exists req',
       queue (update_request_status i c st res s) !! k = Some req' /\
       same_request req req' /\
       if String.eqb (initiator_username req) i && String.eqb (counterparty_username req) c
       then request_status req' = st /\
            result req' = match res with Some r => Some r | None => result req end
       else req' = req) /\
  (forall i s outcomes,
     let poll := check_and_send_deal_results i in
     let s1 := state_after poll s outcomes in
     calls (trace_of poll s outcomes) = omap (notification i) (queue s) /\
     (forall k req,
        queue s !! k = Some req ->
        queue s1 !! k = Some (if is_deliverable i req then mark_sent req else req)) /\
     (forall outcomes',
        trace_of poll s1 outcomes' = [] /\ state_after poll s1 outcomes' = s1) /\
     (forall k req,
        queue s !! k = Some req -> sent req = true ->
        notification i req = None /\ queue s1 !! k = Some req)).
Proof.
  split.
  - intros i c st res s k req Hk.
    exists (update_entry i c st res req). split; [|split].
    + unfold update_request_status, queue in *. simpl.
      rewrite list_lookup_fmap, Hk. reflexivity.
    + apply update_entry_same.
    + unfold update_entry. destruct (_ && _); simpl; [split|]; reflexivity.
  - intros i s outcomes poll s1. subst poll s1. unfold trace_of, state_after.
    destruct (poll_runs i s outcomes) as (w' & Hrun & Hfile & Hcalls).
    rewrite Hrun. simpl snd.
    assert (Hq : queue (globals w') = map (delivered_form i) (queue s)).
    { unfold queue. rewrite Hfile. now destruct (deal_queue_file s). }
    split; [exact Hcalls|]. split; [|split].
    + intros k req Hk. rewrite Hq, list_lookup_fmap, Hk. reflexivity.
    + intros outcomes'. rewrite poll_idle; [split; reflexivity|].
      rewrite Hq. apply Forall_fmap, Forall_forall. intros req _.
      apply delivered_form_idle.
    + intros k req Hk Hsent.
      pose proof (sent_not_deliverable i req Hsent) as Hd. split.
      * unfold notification. now rewrite Hd.
      * rewrite Hq, list_lookup_fmap, Hk. simpl. unfold delivered_form, is_deliverable.
        now rewrite Hd.
Qed.

Lemma queue_results_matched_and_delivered_once_witness :
  trace_of (check_and_send_deal_results "erin")
    (state_after (check_and_send_deal_results "erin") erin_served []) [] = [].
Proof.
  exact (proj1 (proj1 (proj2 (proj2 (proj2 queue_results_matched_and_delivered_once
                                       "erin" erin_served []))) [])).
Defined.

(** The first poll after the room of erin and frank was made. *)
Lemma erin_is_notified_once :
  trace_of (check_and_send_deal_results "erin") erin_served [] =
    [Bot (send (-500) (DealRoomCreated "https://t.me/+join9" "erin" "frank") false)
       (Delivered 0)] /\
  sent <$> queue (state_after (check_and_send_deal_results "erin") erin_served []) = [true].
Proof. vm_compute. split; reflexivity. Qed.

(** ** The restart *)

(** C10.  Restarting room 8 empties the amounts, rates and payment
    methods entered in room 7. *)
Theorem restart_clears_other_rooms :
  let after := state_after (restart_command true (-1000000000008)) two_rooms [] in
  room_transaction_state after !! 7 = Some step4 /\
  PyDict.get 11 (user_amounts two_rooms) = Some (FFin 1000) /\
  user_amounts after = [] /\
  user_rates after = [] /\
  user_payment_methods after = [].
Proof. vm_compute. repeat split; reflexivity. Qed.

Lemma remove_all_keys {V} (d : pydict Z V) : remove_keys (PyDict.keys d) d = [].
Proof.
  unfold remove_keys, PyDict.keys. induction d as [|[k v] d IH]; [reflexivity|].
  simpl. destruct (decide (k = k)); [exact IH | contradiction].
Qed.

Lemma send_disclaimer_keeps_terms {X} (f : state -> X) sc c :
  (forall v s, f (set_role_selection_sent v s) = f s) ->
  (forall v s, f (set_user_roles v s) = f s) ->
  (forall v s, f (set_role_messages v s) = f s) ->
  preserves f (send_disclaimer_message sc c).
Proof.
  intros H1 H2 H3. unfold send_disclaimer_message, send_role_selection_message.
  handler_steps.
Qed.


(** The clearing block of [/restart] leaves no amount behind. *)
Lemma clear_room_state_amounts chat_id original_chat_id s :
  user_amounts (clear_room_state chat_id original_chat_id s) = [].
Proof.
  cbv beta iota zeta delta
    [clear_room_state
     set_disclaimer_sent set_role_selection_sent set_processed_rooms
     set_rooms_waiting_for_requests set_room_awaiting_hash
     set_room_transaction_state set_seller_addresses set_release_approvals
     set_room_messages set_deposit_address_messages set_seller_wallet_messages
     set_user_amounts set_user_rates set_user_payment_methods set_user_coins
     set_user_blockchain set_user_roles set_role_messages set_room_joined_users
     room_transaction_state room_awaiting_hash user_amounts user_rates
     user_payment_methods user_blockchain user_coins buyer_addresses
     seller_addresses room_initiators approvals release_approvals
     release_messages user_roles role_messages step1_messages_sent
     room_confirmed_deposits deposit_address_messages deal_summary_messages
     seller_wallet_messages step4_messages usdt_bsc_address_index
     usdc_bsc_address_index disclaimer_sent role_selection_sent processed_rooms
     rooms_waiting_for_requests room_messages room_joined_users deal_queue_file
     deal_rooms_file].
  repeat match goal with
  | |- context [match ?x with _ => _ end] =>
      lazymatch type of x with state => fail | _ => destruct x end
  end;
    cbv beta iota; apply remove_all_keys.
Qed.

(** ** Chat identifiers *)

(** X1.  The two conversions of chat identifiers undo each other: a
    positive room id is found again from the id that messages are sent
    to, and the id of a supergroup (below [-1000000000000]) is found
    again from its room id. *)
Theorem chat_ids_round_trip original_chat_id chat_id :
  0 < original_chat_id ->
  chat_id < -1000000000000 ->
  normalize_chat_id (get_send_chat_id original_chat_id) = original_chat_id /\
  get_send_chat_id (normalize_chat_id chat_id) = chat_id.
Proof.
  intros Hpos Hsuper. unfold normalize_chat_id, get_send_chat_id. split.
  - assert (H1 : (0 <? original_chat_id)%Z = true) by (apply Z.ltb_lt; lia).
    rewrite H1.
    assert (H2 : (-1000000000000 - original_chat_id <? 0)%Z = true) by (apply Z.ltb_lt; lia).
    rewrite H2. lia.
  - assert (H1 : (chat_id <? 0)%Z = true) by (apply Z.ltb_lt; lia).
    rewrite H1.
    assert (H2 : (0 <? Z.abs chat_id - 1000000000000)%Z = true) by (apply Z.ltb_lt; lia).
    rewrite H2. lia.
Qed.

Lemma chat_ids_round_trip_witness :
  normalize_chat_id (get_send_chat_id 7) = 7 /\
  get_send_chat_id (normalize_chat_id (-1000000000007)) = -1000000000007.
Proof. apply (chat_ids_round_trip 7 (-1000000000007)); lia. Defined.

(** ** The verdicts of the verifier *)

Section VerdictFacts.
Import Verifier.

Lemma check_recipient_valid escrow from to wei block :
  valid (check_recipient escrow from to wei block) = true ->
  check_recipient escrow from to wei block =
    {| valid := true; amount_wei := Some wei; from_address := Some from;
       to_address := Some escrow; block_number := Some block; error := None |}.
Proof.
  unfold check_recipient. destruct (String.eqb to escrow) eqn:E; [|discriminate].
  apply String.eqb_eq in E. now subst.
Qed.

Lemma lower_or_empty_string to : lower_or_empty (Some (JStr to)) = Some (PyStr.lower to).
Proof.
  unfold lower_or_empty. simpl. destruct (String.eqb to "") eqn:E; [|reflexivity].
  apply String.eqb_eq in E. now subst.
Qed.

(** X2.  A verdict with [valid = True] is never given to a malformed
    hash or without an explorer key, and it always names the escrow
    address, in lower case, as the recipient, carries an amount and
    carries no error. *)
Theorem valid_verdict_names_escrow key ledger tx escrow :
  valid (verify_transaction_bscscan key ledger tx escrow) = true ->
  well_formed tx = true /\ key <> "" /\
  to_address (verify_transaction_bscscan key ledger tx escrow) = Some (PyStr.lower escrow) /\
  is_Some (amount_wei (verify_transaction_bscscan key ledger tx escrow)) /\
  error (verify_transaction_bscscan key ledger tx escrow) = None.
Proof.
  unfold verify_transaction_bscscan, well_formed.
  destruct (String.length (normalize tx) <? 32)%nat; [discriminate|].
  destruct (PyStr.int16 (PyStr.remove_0x (normalize tx))); [|discriminate].
  destruct (String.eqb key "") eqn:Ek; [discriminate|]. apply String.eqb_neq in Ek.
  destruct (ledger (normalize tx)) as [|text decoded]; [discriminate|].
  destruct (String.eqb text ""); [discriminate|].
  destruct decoded as [[| | | | |fields]|]; try discriminate.
  destruct (found_tx fields) as [txd|].
  - destruct (lower_or_empty (Json.get "from" txd)) as [from|]; [|discriminate].
    destruct (lower_or_empty (Json.get "to" txd)) as [to|]; [|discriminate].
    intros Hv. rewrite (check_recipient_valid _ _ _ _ _ Hv). simpl.
    repeat split; try assumption. eexists; reflexivity.
  - intros Hv. rewrite (check_recipient_valid _ _ _ _ _ Hv). simpl.
    repeat split; try assumption. eexists; reflexivity.
Qed.

(** X3.  A transaction the explorer returns is accepted when its
    recipient is the escrow address in any letter case; the verdict
    carries the amount read from its [value] field and its sender. *)
Theorem transfer_to_escrow_is_accepted key ledger tx escrow text fields txd from to :
  well_formed tx = true ->
  key <> "" ->
  ledger (normalize tx) = Response text (Some (JObj fields)) ->
  text <> "" ->
  found_tx fields = Some txd ->
  lower_or_empty (Json.get "from" txd) = Some from ->
  Json.get "to" txd = Some (JStr to) ->
  PyStr.lower to = PyStr.lower escrow ->
  verify_transaction_bscscan key ledger tx escrow =
    {| valid := true;
       amount_wei := Some (value_wei (Json.get "value" txd));
       from_address := Some from;
       to_address := Some (PyStr.lower escrow);
       block_number := Some (default (JStr "N/A") (Json.get "blockNumber" txd));
       error := None |}.
Proof.
  intros Hwf Hkey Hreply Htext Hfound Hfrom Hto Hsame.
  unfold verify_transaction_bscscan.
  destruct (well_formed_checks tx Hwf) as [Hlen [n Hhex]]. rewrite Hlen, Hhex.
  apply String.eqb_neq in Hkey, Htext. rewrite Hkey, Hreply, Htext, Hfound, Hfrom, Hto.
  rewrite lower_or_empty_string, Hsame. apply check_recipient_match.
Qed.

End VerdictFacts.

Lemma valid_verdict_names_escrow_witness :
  Verifier.to_address
    (Verifier.verify_transaction_bscscan "KEY" paid_to_escrow sample_hash sample_escrow)
  = Some (PyStr.lower sample_escrow).
Proof.
  refine (proj1 (proj2 (proj2
    (valid_verdict_names_escrow "KEY" paid_to_escrow sample_hash sample_escrow _)))).
  vm_compute. reflexivity.
Defined.

Lemma transfer_to_escrow_is_accepted_witness :
  Verifier.amount_wei
    (Verifier.verify_transaction_bscscan "KEY" paid_to_escrow sample_hash sample_escrow)
  = Some 100000000.
Proof.
  rewrite (transfer_to_escrow_is_accepted "KEY" paid_to_escrow sample_hash sample_escrow
             _ _ _ "0x1111111111111111111111111111111111111111"
             "0xda4c2a5b876b0c7521e1c752690d8705080000fe"
             eq_refl ltac:(discriminate) eq_refl ltac:(discriminate) eq_refl eq_refl eq_refl
             eq_refl).
  reflexivity.
Defined.

(** ** More on the release *)

Lemma release_command_opens s chat_id outcomes :
  is_Some (room_initiators s !! original_of chat_id) ->
  release_approvals (state_after (release_command true chat_id) s outcomes)
    !! original_of chat_id = Some (waiting, waiting).
Proof.
  intros [p Hp]. unfold state_after, run, release_command. cbn [negb].
  rewrite run_attempt_call, run_get_state. rewrite globals_logged. cbn [globals].
  rewrite Hp, run_modify.
  match goal with |- release_approvals (globals (snd (?m ?w))) !! _ = _ =>
    assert (Hkeep : preserves release_approvals m) by handler_steps
  end.
  rewrite Hkeep. tidy. apply lookup_insert_eq.
Qed.

(** X6.  [/release] opens a round in which nobody has approved: both
    statuses are [waiting] after it, and the first approval that
    follows, by whomever, sends no deal-complete message. *)
Theorem release_round_needs_two_approvals s chat_id u o1 o2 :
  is_Some (room_initiators s !! original_of chat_id) ->
  let opened := state_after (release_command true chat_id) s o1 in
  release_approvals opened !! original_of chat_id = Some (waiting, waiting) /\
  completion_fired
    (trace_of (button_callback u (approve_release (original_of chat_id))) opened o2) = false.
Proof.
  intros Hroom opened. subst opened.
  pose proof (release_command_opens s chat_id o1 Hroom) as Hopen.
  split; [exact Hopen|]. simpl button_callback.
  destruct (completion_fired _) eqn:Hfired; [|reflexivity].
  destruct (approve_release_fired _ _ _ _ Hfired) as (r & _ & Hset & _).
  rewrite Hopen in Hset. destruct r; discriminate.
Qed.

Lemma release_round_needs_two_approvals_witness :
  completion_fired
    (trace_of (button_callback "alice" (approve_release (original_of (-1000000000007))))
       (state_after (release_command true (-1000000000007)) seller_approved []) []) = false.
Proof.
  refine (proj2 (release_round_needs_two_approvals seller_approved (-1000000000007)
                   "alice" [] [] _)).
  vm_compute. eexists; reflexivity.
Defined.

(** ** More on the buttons *)

Lemma only_answers_one n b w :
  forallb is_answer (trace w) = true ->
  forallb is_answer (trace (snd (try_except (call_ (answer n b))
                                   (fun _ => call_ (answer ErrorNotice true)) w))) = true /\
  globals (snd (try_except (call_ (answer n b))
                  (fun _ => call_ (answer ErrorNotice true)) w)) = globals w.
Proof.
  intros Ht. unfold try_except. rewrite call__alone.
  destruct (answer_of (next_outcome w)).
  - simpl snd. rewrite trace_logged, forallb_app, Ht. split; reflexivity.
  - rewrite call__alone. simpl snd. rewrite !trace_logged, !forallb_app, Ht.
    split; reflexivity.
Qed.



(** X8.  A party who has approved the terms and approves again is only
    answered: no variable changes and nothing is sent to the room. *)
Theorem repeated_deal_approval_changes_nothing s u chat r p outcomes :
  role_in_room None s chat u = Some r ->
  approvals s !! chat = Some p ->
  party r p = true ->
  state_after (button_callback u (approve_deal chat)) s outcomes = s /\
  forallb is_answer (trace_of (button_callback u (approve_deal chat)) s outcomes) = true.
Proof.
  intros Hrole Hmarks Hdone. simpl button_callback.
  unfold state_after, trace_of, run, on_approve_deal.
  rewrite try_get_state. cbn [globals]. rewrite Hrole, Hmarks, Hdone.
  match goal with |- context [try_except ?m ?h ?w] =>
    destruct (only_answers_one AlreadyApproved true w eq_refl) as [Ht Hg]
  end.
  split; [exact Hg | exact Ht].
Qed.

Lemma repeated_deal_approval_changes_nothing_witness :
  state_after (button_callback "alice" (approve_deal 7)) deal_approved_by_buyer [] =
  deal_approved_by_buyer.
Proof.
  refine (proj1 (repeated_deal_approval_changes_nothing deal_approved_by_buyer "alice" 7
                   BUYER (true, false) [] _ _ _)); vm_compute; reflexivity.
Defined.

(** ** The deposit prompt *)

Lemma no_prompt_none t :
  forallb (fun e => negb (is_deposit_prompt e)) t = true -> prompted_address t = None.
Proof.
  induction t as [|e t IH]; [reflexivity|]. simpl. intros H.
  apply andb_true_iff in H as [He Ht].
  destruct e as [[| chat [] b | | | | |] o|]; try discriminate; now apply IH.
Qed.

Lemma rotating_prompt t a :
  Forall (fun e => prompts_rotating_address e = true) t ->
  prompted_address t = Some a -> a ∈ rotating_addresses.
Proof.
  induction 1 as [|e t He _ IH]; [discriminate|]. simpl.
  destruct e as [[| chat [] b | | | | |] o|]; try exact IH.
  intros [= ->]. simpl in He. now apply bool_decide_eq_true in He.
Qed.

Lemma quiet_world_none {A} (m : M A) w :
  emits quiet_prompt m ->
  trace w = [] ->
  prompted_address (trace (snd (m w))) = None.
Proof.
  intros H Hw. apply no_prompt_none, forallb_forall. intros e He.
  assert (Hall : Forall quiet_prompt (trace (snd (m w)))) by (apply H; rewrite Hw; constructor).
  rewrite List.Forall_forall in Hall. now apply Hall.
Qed.

Lemma quiet_prompt_none {A} (m : M A) s outcomes :
  emits quiet_prompt m -> prompted_address (trace_of m s outcomes) = None.
Proof. intros H. unfold trace_of, run. now apply quiet_world_none. Qed.

Lemma emits_bind_result {A B} (P : event -> Prop) (Q : A -> Prop) (m : M A) (f : A -> M B) :
  emits P m ->
  (forall w a w', m w = (Done a, w') -> Q a) ->
  (forall a, Q a -> emits P (f a)) ->
  emits P (m ≫= f).
Proof.
  intros Hm HQ Hf w H. specialize (Hm w H).
  unfold mbind, M_bind. destruct (m w) as [[a|e] w'] eqn:Hrun; simpl in *.
  - apply Hf; [now apply (HQ w a w') | exact Hm].
  - exact Hm.
Qed.

Lemma next_deposit_address_rotating b c w a w' :
  next_deposit_address b c w = (Done a, w') -> a ∈ rotating_addresses.
Proof.
  unfold next_deposit_address. rewrite run_get_state. destruct b, c.
  - destruct (USDT_BSC_ADDRESSES !! usdt_bsc_address_index (globals w)) as [x|] eqn:Hx;
      [|discriminate].
    rewrite run_modify. unfold mret, M_ret. intros [= <- _].
    apply elem_of_app. left. now apply list_elem_of_lookup_2 in Hx.
  - destruct (USDC_BSC_ADDRESSES !! usdc_bsc_address_index (globals w)) as [x|] eqn:Hx;
      [|discriminate].
    rewrite run_modify. unfold mret, M_ret. intros [= <- _].
    apply elem_of_app. right. now apply list_elem_of_lookup_2 in Hx.
Qed.

Lemma next_deposit_address_silent P b c : emits P (next_deposit_address b c).
Proof. unfold next_deposit_address. handler_steps. Qed.

Lemma on_approve_deal_prompts u chat :
  emits (fun e => prompts_rotating_address e = true) (on_approve_deal u chat).
Proof.
  unfold on_approve_deal.
  repeat first
    [ apply (emits_bind_result _ (fun a : string => a ∈ rotating_addresses));
        [ apply next_deposit_address_silent
        | intros ? ? ? Hrun; exact (next_deposit_address_rotating _ _ _ _ _ Hrun)
        | intros ? Hknown ]
    | handler_step ]; try reflexivity.
  cbn [prompts_rotating_address]. now apply bool_decide_eq_true.
Qed.

Lemma other_buttons_show_no_address u d :
  match d with approve_deal _ => False | _ => True end ->
  emits quiet_prompt (button_callback u d).
Proof.
  destruct d; try contradiction; intros _; simpl button_callback.
  - unfold on_approve_release, send_deal_complete_message, edit_release_prompt. handler_steps.
  - unfold on_decline_release, edit_release_prompt. handler_steps.
  - unfold on_role, send_step1_amount_message, set_step. handler_steps.
  - unfold on_role, send_step1_amount_message, set_step. handler_steps.
  - unfold on_payment_sent, set_step. handler_steps.
Qed.

Lemma both_marks r (p : bool * bool) :
  party r p = false ->
  fst (set_party r true p) && snd (set_party r true p) = true ->
  party (other r) p = true /\ set_party r true p = (true, true).
Proof. destruct r, p as [[] []]; simpl; intros; try discriminate; split; reflexivity. Qed.

(** X9.  The escrow address is shown only when both parties have
    approved the terms: a press sends a deposit prompt only if it is an
    approval of the deal by a party who had not approved yet while the
    other had; both marks are then set, and the address shown is one of
    the rotating addresses. *)
Theorem deposit_prompt_requires_both_approvals s u d outcomes a :
  prompted_address (trace_of (button_callback u d) s outcomes) = Some a ->
  exists chat r,
    d = approve_deal chat /\
    role_in_room None s chat u = Some r /\
    party r (default (false, false) (approvals s !! chat)) = false /\
    party (other r) (default (false, false) (approvals s !! chat)) = true /\
    approvals (state_after (button_callback u d) s outcomes) !! chat = Some (true, true) /\
    a ∈ rotating_addresses.
Proof.
  intros Hprompt.
  destruct d as [c|c|chat|c|c|c];
    try (rewrite quiet_prompt_none in Hprompt
           by (apply other_buttons_show_no_address; exact I); discriminate).
  exists chat.
  assert (Hknown : a ∈ rotating_addresses).
  { apply (rotating_prompt (trace_of (button_callback u (approve_deal chat)) s outcomes));
      [|exact Hprompt].
    apply on_approve_deal_prompts. constructor. }
  revert Hprompt. simpl button_callback.
  unfold trace_of, state_after, run, on_approve_deal.
  rewrite try_get_state. cbn [globals].
  destruct (role_in_room None s chat u) as [r|] eqn:Hrole.
  - assert (Hparty : match approvals s !! chat with Some p => party r p | None => false end
                     = party r (default (false, false) (approvals s !! chat))).
    { destruct (approvals s !! chat); [reflexivity | now destruct r]. }
    rewrite Hparty.
    destruct (party r (default (false, false) (approvals s !! chat))) eqn:Hmine.
    + intros Hprompt.
      rewrite quiet_world_none in Hprompt; [discriminate | handler_steps | reflexivity].
    + rewrite try_modify. cbn [globals trace net].
      set (marks := set_party r true (default (false, false) (approvals s !! chat))).
      destruct (fst marks && snd marks) eqn:Hboth.
      * intros _. exists r. destruct (both_marks r _ Hmine Hboth) as [Hother Hmarks].
        split; [reflexivity|]. split; [reflexivity|]. split; [exact Hmine|].
        split; [exact Hother|]. split; [|exact Hknown].
        match goal with |- approvals (globals (snd (?m ?w))) !! _ = _ =>
          assert (Hkeep : preserves approvals m)
            by (unfold next_deposit_address; handler_steps)
        end.
        rewrite Hkeep. cbn [globals]. simpl. rewrite lookup_insert_eq. f_equal. exact Hmarks.
      * intros Hprompt.
        rewrite quiet_world_none in Hprompt; [discriminate | handler_steps | reflexivity].
  - intros Hprompt.
    rewrite quiet_world_none in Hprompt; [discriminate | handler_steps | reflexivity].
Qed.

Lemma deposit_prompt_requires_both_approvals_witness :
  exists chat r,
    approve_deal 7 = approve_deal chat /\
    role_in_room None deal_approved_by_buyer chat "bob" = Some r /\
    party r (default (false, false) (approvals deal_approved_by_buyer !! chat)) = false /\
    party (other r) (default (false, false) (approvals deal_approved_by_buyer !! chat)) = true /\
    approvals (state_after (button_callback "bob" (approve_deal 7)) deal_approved_by_buyer [])
      !! chat = Some (true, true) /\
    "0xAe6313dE2fDD754734074D8a6F4835c10827115b" ∈ rotating_addresses.
Proof.
  apply (deposit_prompt_requires_both_approvals deal_approved_by_buyer "bob" (approve_deal 7) []).
  vm_compute. reflexivity.
Defined.

Lemma registered_users_never_share_a_role_witness :
  roles_distinct role_prompt7
    (roles_of (after_presses [("alice", role_buyer 7, []); ("bob", role_buyer 7, [])]
                 choosing_roles) 7).
Proof.
  apply (registered_users_never_share_a_role _ choosing_roles 7 role_prompt7).
  - vm_compute. reflexivity.
  - vm_compute. discriminate.
  - intros r [H _]. vm_compute in H. discriminate.
Defined.

(** ** Invariants *)

Section Keeps.
Context (I : state -> Prop).

Lemma keeps_ret {A} (a : A) : keeps I (mret a).
Proof. intros w H. exact H. Qed.

Lemma keeps_raise {A} (e : exn) : keeps I (raise e : M A).
Proof. intros w H. exact H. Qed.

Lemma keeps_get_state : keeps I get_state.
Proof. intros w H. exact H. Qed.

Lemma keeps_record e : keeps I (record e).
Proof. intros w H. exact H. Qed.

Lemma keeps_modify g : (forall s, I s -> I (g s)) -> keeps I (modify g).
Proof. intros Hg w H. now apply Hg. Qed.

Lemma keeps_bind {A B} (m : M A) (k : A -> M B) :
  keeps I m -> (forall a, keeps I (k a)) -> keeps I (m ≫= k).
Proof.
  intros Hm Hk w H. specialize (Hm w H).
  unfold mbind, M_bind. destruct (m w) as [[a|e] w']; simpl in *.
  - now apply Hk.
  - exact Hm.
Qed.

Lemma keeps_try_except {A} (m : M A) (h : exn -> M A) :
  keeps I m -> (forall e, keeps I (h e)) -> keeps I (try_except m h).
Proof.
  intros Hm Hh w H. specialize (Hm w H).
  unfold try_except. destruct (m w) as [[a|e] w']; simpl in *.
  - exact Hm.
  - now apply Hh.
Qed.

Lemma keeps_attempt (m : M unit) : keeps I m -> keeps I (attempt m).
Proof. intros Hm. apply keeps_try_except; [exact Hm | intros; apply keeps_ret]. Qed.

Lemma keeps_call a : keeps I (call a).
Proof. intros w H. exact H. Qed.

Lemma keeps_call_ a : keeps I (call_ a).
Proof. apply keeps_bind; [apply keeps_call | intros; apply keeps_ret]. Qed.

End Keeps.

Ltac keeps_step :=
  match goal with
  | |- keeps _ (mret _) => apply keeps_ret
  | |- keeps _ (raise _) => apply keeps_raise
  | |- keeps _ get_state => apply keeps_get_state
  | |- keeps _ (modify _) => apply keeps_modify; intros ? ?
  | |- keeps _ (record _) => apply keeps_record
  | |- keeps _ (call_ _) => apply keeps_call_
  | |- keeps _ (call _) => apply keeps_call
  | |- keeps _ (attempt _) => apply keeps_attempt
  | |- keeps _ (try_except _ _) => apply keeps_try_except; [|intro]
  | |- keeps _ (mbind _ _) => apply keeps_bind; [|intro]
  | |- keeps _ (match ?x with _ => _ end) => destruct x
  | |- keeps _ (if ?b then _ else _) => destruct b
  end.

Ltac keeps_steps := repeat keeps_step; try assumption.

(** Reading a variable off the state [/restart] leaves. *)
Ltac restart_field :=
  cbv beta iota zeta delta
    [clear_room_state
     set_disclaimer_sent set_role_selection_sent set_processed_rooms
     set_rooms_waiting_for_requests set_room_awaiting_hash
     set_room_transaction_state set_seller_addresses set_release_approvals
     set_room_messages set_deposit_address_messages set_seller_wallet_messages
     set_user_amounts set_user_rates set_user_payment_methods set_user_coins
     set_user_blockchain set_user_roles set_role_messages set_room_joined_users
     room_transaction_state room_awaiting_hash user_amounts user_rates
     user_payment_methods user_blockchain user_coins buyer_addresses
     seller_addresses room_initiators approvals release_approvals
     release_messages user_roles role_messages step1_messages_sent
     room_confirmed_deposits deposit_address_messages deal_summary_messages
     seller_wallet_messages step4_messages usdt_bsc_address_index
     usdc_bsc_address_index disclaimer_sent role_selection_sent processed_rooms
     rooms_waiting_for_requests room_messages room_joined_users deal_queue_file
     deal_rooms_file];
  repeat match goal with
  | |- context [match ?x with _ => _ end] =>
      lazymatch type of x with state => fail | _ => destruct x end
  end;
  cbv beta iota.

Lemma deliver_results_keeps I initiator q :
  (forall v s, I s -> I (set_room_messages v s)) ->
  keeps I (deliver_results initiator q).
Proof.
  intros Hm. induction q as [|req q IH]; simpl; unfold notify; keeps_steps; now apply Hm.
Qed.

(** ** The rotation of the deposit addresses *)

Lemma restart_keeps_indices c o s : indices_in_range s -> indices_in_range (clear_room_state c o s).
Proof.
  unfold indices_in_range. intros H.
  assert (H1 : usdt_bsc_address_index (clear_room_state c o s) = usdt_bsc_address_index s)
    by (restart_field; reflexivity).
  assert (H2 : usdc_bsc_address_index (clear_room_state c o s) = usdc_bsc_address_index s)
    by (restart_field; reflexivity).
  now rewrite H1, H2.
Qed.

Lemma rotation_in_range (n len : nat) : (0 < len)%nat -> ((n + 1) mod len < len)%nat.
Proof. intros H. apply Nat.mod_upper_bound. lia. Qed.

Lemma handler_keeps_indices py_float key ledger x :
  keeps indices_in_range (handler py_float key ledger x).
Proof.
  destruct x as [u d|u text chat|g chat|g chat|i]; simpl handler.
  - destruct d; simpl button_callback.
    + unfold on_approve_release, send_deal_complete_message, edit_release_prompt.
      keeps_steps.
    + unfold on_decline_release, edit_release_prompt. keeps_steps.
    + unfold on_approve_deal, next_deposit_address. keeps_steps.
      all: match goal with H : indices_in_range _ |- _ => destruct H as [H1 H2] end.
      all: split; first [assumption | apply rotation_in_range; simpl; lia].
    + unfold on_role, send_step1_amount_message, set_step. keeps_steps.
    + unfold on_role, send_step1_amount_message, set_step. keeps_steps.
    + unfold on_payment_sent, set_step. keeps_steps.
  - unfold handle_text, handle_amount, handle_rate, handle_payment_method,
      handle_buyer_address, handle_seller_address, handle_hash, may_submit,
      send_step2_rate_message, send_step3_payment_message, send_step4_blockchain_message,
      send_deal_summary_message, confirm_deposit, send_deposit_found_message, set_step.
    keeps_steps.
  - unfold release_command. keeps_steps.
  - unfold restart_command, send_disclaimer_message, send_role_selection_message.
    keeps_steps. now apply restart_keeps_indices.
  - unfold check_and_send_deal_results. keeps_steps.
    apply deliver_results_keeps. intros v s0 H. exact H.
Qed.

(** X10.  The rotation of the deposit addresses never runs out of its
    lists: when both indices point into their lists, they still do
    after any presses, texts, commands and polls, whatever the outcomes
    of the calls, and the next address is then read without an
    exception. *)
Theorem address_rotation_stays_in_range py_float key ledger xs s :
  indices_in_range s ->
  indices_in_range (after_updates py_float key ledger xs s) /\
  forall b c outcomes,
    exists a,
      fst (run (next_deposit_address b c) (after_updates py_float key ledger xs s) outcomes)
      = Done a /\ a ∈ rotating_addresses.
Proof.
  revert s. induction xs as [|[x o] xs IH]; intros s Hs.
  - simpl. split; [exact Hs|]. intros b c outcomes.
    destruct Hs as [H1 H2]. unfold run, next_deposit_address.
    rewrite run_get_state. cbn [globals]. destruct b, c.
    + destruct (lookup_lt_is_Some_2 USDT_BSC_ADDRESSES _ H1) as [a Ha].
      rewrite Ha, run_modify. exists a. split; [reflexivity|].
      apply elem_of_app. left. now apply list_elem_of_lookup_2 in Ha.
    + destruct (lookup_lt_is_Some_2 USDC_BSC_ADDRESSES _ H2) as [a Ha].
      rewrite Ha, run_modify. exists a. split; [reflexivity|].
      apply elem_of_app. right. now apply list_elem_of_lookup_2 in Ha.
  - simpl. apply IH. unfold state_after, run. now apply handler_keeps_indices.
Qed.

Lemma address_rotation_stays_in_range_witness :
  indices_in_range
    (after_updates PyFloat.literal "KEY" unknown_transaction
       [(pressed "alice" (approve_deal 7), []); (pressed "bob" (approve_deal 7), [])]
       usdt_deal).
Proof.
  refine (proj1 (address_rotation_stays_in_range PyFloat.literal "KEY" unknown_transaction
                   _ usdt_deal _)).
  split; vm_compute; lia.
Defined.

(** ** The confirmed deposit *)

Lemma restart_keeps_deposits c o s :
  room_confirmed_deposits (clear_room_state c o s) = room_confirmed_deposits s.
Proof. restart_field; reflexivity. Qed.

Lemma deliver_results_preserves {X} (f : state -> X) initiator q :
  (forall v s, f (set_room_messages v s) = f s) ->
  preserves f (deliver_results initiator q).
Proof.
  intros Hm. induction q as [|req q IH]; simpl; unfold notify; handler_steps.
Qed.

Lemma text_steps_keep_deposits py_float u text room :
  preserves room_confirmed_deposits (handle_amount py_float u text room) /\
  preserves room_confirmed_deposits (handle_rate py_float u text room) /\
  preserves room_confirmed_deposits (handle_payment_method u text room) /\
  preserves room_confirmed_deposits (handle_buyer_address u text room) /\
  preserves room_confirmed_deposits (handle_seller_address u text room).
Proof.
  unfold handle_amount, handle_rate, handle_payment_method,
    handle_buyer_address, handle_seller_address, may_submit,
    send_step2_rate_message, send_step3_payment_message, send_step4_blockchain_message,
    send_deal_summary_message, set_step.
  repeat split; handler_steps.
Qed.

Lemma hash_keeps_other_deposits key ledger u text chat room :
  chat <> room ->
  preserves (fun s => room_confirmed_deposits s !! room) (handle_hash key ledger u text chat).
Proof.
  intros Hne. unfold handle_hash, confirm_deposit, send_deposit_found_message.
  handler_steps; simpl; now rewrite lookup_insert_ne.
Qed.

(** X11.  The confirmed deposit of a room, which [/balance] reports,
    changes only when a text is handled in that room while it awaits a
    hash: no button, no command, no poll and no text elsewhere or at
    another step changes it. *)
Theorem confirmed_deposit_changes_only_by_hash py_float key ledger x s outcomes room :
  room_confirmed_deposits (state_after (handler py_float key ledger x) s outcomes) !! room
    <> room_confirmed_deposits s !! room ->
  exists u text chat_id,
    x = texted u text chat_id /\ chat_id <= 0 /\ original_of chat_id = room /\
    room_transaction_state s !! room = Some awaiting_hash.
Proof.
  intros Hchange.
  assert (Hsame : forall m : M unit,
            preserves room_confirmed_deposits m ->
            room_confirmed_deposits (state_after m s outcomes) !! room
              = room_confirmed_deposits s !! room).
  { intros m Hm. unfold state_after, run. now rewrite Hm. }
  destruct x as [u d|u text chat|g chat|g chat|i]; simpl handler in Hchange.
  - exfalso. apply Hchange, Hsame. destruct d; simpl button_callback.
    + unfold on_approve_release, send_deal_complete_message, edit_release_prompt.
      handler_steps.
    + unfold on_decline_release, edit_release_prompt. handler_steps.
    + unfold on_approve_deal, next_deposit_address. handler_steps.
    + unfold on_role, send_step1_amount_message, set_step. handler_steps.
    + unfold on_role, send_step1_amount_message, set_step. handler_steps.
    + unfold on_payment_sent, set_step. handler_steps.
  - destruct (Z_le_gt_dec chat 0) as [Hgroup|Hprivate].
    + unfold state_after, run in Hchange.
      rewrite handle_text_in_group in Hchange by exact Hgroup. cbn [globals] in Hchange.
      destruct (text_steps_keep_deposits py_float u text (original_of chat))
        as (Ha & Hr & Hp & Hb & Hs).
      destruct (room_transaction_state s !! original_of chat) as [st|] eqn:Hstep;
        [|now contradiction Hchange].
      destruct st;
        try (now contradiction Hchange);
        try (exfalso; apply Hchange; f_equal;
             first [apply Ha | apply Hr | apply Hp | apply Hb | apply Hs]).
      destruct (decide (original_of chat = room)) as [<-|Hne].
      * exists u, text, chat. repeat split; assumption.
      * exfalso. apply Hchange.
        apply (hash_keeps_other_deposits key ledger u text (original_of chat) room Hne).
    + exfalso. apply Hchange. unfold state_after, run, handle_text.
      assert (Hpos : (0 <? chat)%Z = true) by (apply Z.ltb_lt; lia).
      now rewrite Hpos.
  - exfalso. apply Hchange, Hsame. unfold release_command. handler_steps.
  - exfalso. apply Hchange, Hsame.
    unfold restart_command, send_disclaimer_message, send_role_selection_message.
    handler_steps. apply restart_keeps_deposits.
  - exfalso. apply Hchange, Hsame. unfold check_and_send_deal_results. handler_steps.
    now apply deliver_results_preserves.
Qed.

Lemma confirmed_deposit_changes_only_by_hash_witness :
  exists u text chat_id,
    texted bob master_hash (-1000000000007) = texted u text chat_id /\
    chat_id <= 0 /\ original_of chat_id = 7 /\
    room_transaction_state hash_awaited !! 7 = Some awaiting_hash.
Proof.
  apply (confirmed_deposit_changes_only_by_hash PyFloat.literal "KEY" unknown_transaction
           (texted bob master_hash (-1000000000007)) hash_awaited [] 7).
  vm_compute. discriminate.
Defined.

(** ** The hash step *)

Lemma try_record {A} e (k : M A) h w :
  try_except (record e;; k) h w =
  try_except k h {| globals := globals w; trace := trace w ++ [e]; net := net w |}.
Proof. reflexivity. Qed.

Lemma verified_against_app t1 t2 a :
  verified_against t1 = Some a -> verified_against (t1 ++ t2) = Some a.
Proof.
  induction t1 as [|e t1 IH]; [discriminate|]. simpl.
  destruct e; [exact IH | trivial].
Qed.

Section HashStep.
Variable py_float : string -> option pyfloat.
Variables (key : string) (ledger : string -> Verifier.http_reply).

(** X12.  A hash the verifier accepts confirms the deposit with the
    amount entered in the room, not with the amount of the transaction:
    the hash is verified against the escrow address of the room's
    blockchain and coin, the deposit-found message is sent with the
    first stored amount, that amount becomes the confirmed deposit, and,
    when the payment-received message is delivered, the room no longer
    awaits a hash. *)
Theorem verified_hash_confirms_stored_amount u text chat_id s outcomes escrow amount :
  chat_id <= 0 ->
  let room := original_of chat_id in
  let verdict :=
    Verifier.verify_transaction_bscscan key ledger (extract_hash text) escrow in
  room_transaction_state s !! room = Some awaiting_hash ->
  deposit_addresses_map (user_blockchain s !! room, user_coins s !! room) = Some escrow ->
  PyDict.first_value (user_amounts s) = Some amount ->
  PyFloat.truthy amount = true ->
  PyStr.lower (extract_hash text) <> PyStr.lower master_hash ->
  Verifier.valid verdict = true ->
  let t := trace_of (handle_text py_float key ledger u text chat_id) s outcomes in
  let s' := state_after (handle_text py_float key ledger u text chat_id) s outcomes in
  verified_against t = Some escrow /\
  attempted (send (send_chat_of room)
               (DepositFound amount
                  (default (default "" (Verifier.from_address verdict))
                     (seller_addresses s !! room))
                  (default "" (Verifier.to_address verdict)) (extract_hash text)) false) t /\
  room_confirmed_deposits s' !! room = Some amount /\
  (delivered (send (send_chat_of room) PaymentReceived false) t ->
   (room ∉ room_awaiting_hash s') /\ room_transaction_state s' !! room = None).
Proof.
  intros Hchat room verdict Hstep Hescrow Hamount Htruthy Hother Hvalid t s'.
  subst t s'. unfold trace_of, state_after, run.
  rewrite handle_text_in_group by exact Hchat. simpl globals. fold room. rewrite Hstep.
  unfold handle_hash. rewrite try_attempt_call, try_get_state. tidy.
  rewrite Hescrow, Hamount, Htruthy. simpl negb. cbv iota.
  apply String.eqb_neq in Hother. rewrite Hother, try_record. fold verdict.
  rewrite Hvalid. unfold try_except. rewrite confirm_deposit_runs. tidy.
  match goal with |- context [answer_of (next_outcome ?w)] => set (w2 := w) end.
  set (found := send (send_chat_of room)
                  (DepositFound amount
                     (default (default "" (Verifier.from_address verdict))
                        (seller_addresses s !! room))
                     (default "" (Verifier.to_address verdict)) (extract_hash text)) false).
  assert (Hverified : forall t', verified_against (trace w2 ++ t') = Some escrow).
  { intros t'. apply verified_against_app. subst w2.
    destruct (deposit_address_messages s !! room);
      rewrite ?trace_logged, ?trace_with_globals, ?trace_logged; reflexivity. }
  assert (Hfound : attempted found (trace w2)).
  { subst w2. destruct (deposit_address_messages s !! room).
    - apply attempted_later. rewrite trace_with_globals. apply attempted_logged.
    - rewrite trace_with_globals. apply attempted_logged. }
  assert (Hnone : ~ delivered (send (send_chat_of room) PaymentReceived false) (trace w2)).
  { subst w2. intros Hd.
    destruct (deposit_address_messages s !! room).
    - apply delivered_logged in Hd as [Hd|[? _]]; [|discriminate].
      rewrite trace_with_globals in Hd.
      apply delivered_logged in Hd as [Hd|[? _]]; [|discriminate].
      destruct Hd as [mid Hd]. simpl in Hd.
      repeat (apply elem_of_cons in Hd as [Hd|Hd]; [discriminate|]).
      now apply elem_of_nil in Hd.
    - rewrite trace_with_globals in Hd.
      apply delivered_logged in Hd as [Hd|[? _]]; [|discriminate].
      destruct Hd as [mid Hd]. simpl in Hd.
      repeat (apply elem_of_cons in Hd as [Hd|Hd]; [discriminate|]).
      now apply elem_of_nil in Hd. }
  assert (Hdep : room_confirmed_deposits (globals w2) !! room = Some amount).
  { subst w2. destruct (deposit_address_messages s !! room); tidy; apply lookup_insert_eq. }
  destruct (answer_of (next_outcome w2)) as [mid|e] eqn:Hanswer.
  - tidy. split; [apply Hverified|]. split; [now apply attempted_snoc|].
    split; [apply lookup_insert_eq|]. intros _. split.
    + intros Hin. apply elem_of_difference in Hin as [_ Hin].
      apply Hin, elem_of_singleton. reflexivity.
    + apply lookup_delete_eq.
  - rewrite call__alone. tidy. rewrite <- app_assoc.
    split; [apply Hverified|]. split; [rewrite app_assoc; now apply attempted_snoc, attempted_snoc|].
    split; [exact Hdep|]. intros Hd. exfalso. rewrite app_assoc in Hd.
    apply delivered_snoc in Hd as [Hd|[? _]]; [|discriminate].
    apply delivered_snoc in Hd as [Hd|[_ Hd]]; [now apply Hnone|].
    now apply (raised_not_delivered w2 e).
Qed.


End HashStep.

Lemma verified_hash_confirms_stored_amount_witness :
  room_confirmed_deposits
    (state_after (handle_text PyFloat.literal "KEY" paid_to_escrow bob sample_hash
                    (-1000000000007)) hash_awaited []) !! 7 = Some (FFin 1000).
Proof.
  refine (proj1 (proj2 (proj2
    (verified_hash_confirms_stored_amount PyFloat.literal "KEY" paid_to_escrow bob
       sample_hash (-1000000000007) hash_awaited [] sample_escrow (FFin 1000)
       _ _ _ _ _ _ _)))).
  - lia.
  - vm_compute. reflexivity.
  - vm_compute. reflexivity.
  - vm_compute. reflexivity.
  - vm_compute. reflexivity.
  - vm_compute. discriminate.
  - vm_compute. reflexivity.
Defined.


(** ** Hashes and links *)

Section LinkFacts.
Import PyStr.

Lemma hash_char_not_space c : hash_char c = true -> not_space c = true.
Proof. destruct c as [[] [] [] [] [] [] [] []]; vm_compute; congruence. Qed.

Lemma hash_char_not_slash c : hash_char c = true -> not_slash c = true.
Proof. destruct c as [[] [] [] [] [] [] [] []]; vm_compute; congruence. Qed.

Lemma hash_char_not_question c : hash_char c = true -> Ascii.eqb c "?" = false.
Proof. destruct c as [[] [] [] [] [] [] [] []]; vm_compute; congruence. Qed.

Lemma hash_char_not_s c : hash_char c = true -> c <> "s"%char.
Proof. destruct c as [[] [] [] [] [] [] [] []]; vm_compute; congruence. Qed.

Lemma hash_char_not_t c : hash_char c = true -> c <> "t"%char.
Proof. destruct c as [[] [] [] [] [] [] [] []]; vm_compute; congruence. Qed.

Lemma append_cons c p b : String c p ++ b = String c (p ++ b).
Proof. reflexivity. Qed.

Lemma append_nil b : "" ++ b = b.
Proof. reflexivity. Qed.

Lemma all_chars_app p a b : all_chars p (a ++ b) = all_chars p a && all_chars p b.
Proof.
  induction a as [|c a IH]; [reflexivity|].
  rewrite append_cons. cbn [all_chars]. now rewrite IH, andb_assoc.
Qed.

Lemma all_chars_impl (p q : ascii -> bool) s :
  (forall c, p c = true -> q c = true) -> all_chars p s = true -> all_chars q s = true.
Proof.
  intros Hpq. induction s as [|c s IH]; simpl; [reflexivity|]. intros H.
  apply andb_true_iff in H as [Hc Hs]. now rewrite (Hpq c Hc), IH.
Qed.

Lemma lstrip_plain s : all_chars not_space s = true -> lstrip_with is_space s = s.
Proof.
  destruct s as [|c r]; [reflexivity|]. simpl. intros H.
  apply andb_true_iff in H as [Hc _]. apply negb_true_iff in Hc. now rewrite Hc.
Qed.

Lemma rstrip_plain s : all_chars not_space s = true -> rstrip_with is_space s = s.
Proof.
  induction s as [|c r IH]; [reflexivity|]. simpl. intros H.
  apply andb_true_iff in H as [Hc Hr]. rewrite IH by exact Hr.
  apply negb_true_iff in Hc. destruct r; [now rewrite Hc | reflexivity].
Qed.

Lemma strip_plain s : all_chars not_space s = true -> strip s = s.
Proof.
  intros H. unfold strip, strip_with. now rewrite (lstrip_plain s H), (rstrip_plain s H).
Qed.

Lemma no_slash_no_tx s : all_chars not_slash s = true -> after_last_tx s = None.
Proof.
  induction s as [|c r IH]; [reflexivity|]. intros H.
  simpl in H. apply andb_true_iff in H as [Hc Hr].
  cbn [after_last_tx]. rewrite IH by exact Hr.
  destruct r as [|c2 [|c3 r3]]; cbn [String.prefix].
  - now destruct (ascii_dec "t" c).
  - destruct (ascii_dec "t" c); [|reflexivity]. now destruct (ascii_dec "x" c2).
  - destruct (ascii_dec "t" c); [|reflexivity].
    destruct (ascii_dec "x" c2); [|reflexivity].
    destruct (ascii_dec "/" c3) as [<-|]; [|reflexivity].
    simpl in Hr. apply andb_true_iff in Hr as [_ Hr]. discriminate Hr.
Qed.

Lemma after_last_tx_cons c r t :
  after_last_tx r = Some t -> after_last_tx (String c r) = Some t.
Proof. intros H. cbn [after_last_tx]. now rewrite H. Qed.

Lemma after_last_tx_here tail :
  all_chars not_slash tail = true -> after_last_tx ("tx/" ++ tail) = Some tail.
Proof.
  intros H. pose proof (no_slash_no_tx tail H) as Hnone.
  rewrite !append_cons, append_nil.
  cbn [after_last_tx]. rewrite Hnone. cbn [String.prefix].
  repeat match goal with |- context [ascii_dec ?a ?b] => destruct (ascii_dec a b) end;
    try congruence; cbn [drop]; now destruct tail.
Qed.

Lemma prefix_app p b : String.prefix p (p ++ b) = true.
Proof.
  induction p as [|c p IH]; [now destruct b|].
  rewrite append_cons. cbn [String.prefix].
  destruct (ascii_dec c c); [exact IH | contradiction].
Qed.

Lemma contains_here p s : String.prefix p s = true -> contains p s = true.
Proof. intros H. destruct s; cbn [contains]; rewrite H; reflexivity. Qed.

Lemma contains_later p c r : contains p r = true -> contains p (String c r) = true.
Proof. intros H. cbn [contains]. rewrite H. apply orb_true_r. Qed.

Lemma before_question_hash h rest :
  all_chars hash_char h = true -> is_query rest = true -> before_question (h ++ rest) = h.
Proof.
  intros Hh Hrest. induction h as [|c h IH].
  - rewrite append_nil. destruct rest as [|c q]; [reflexivity|]. simpl in Hrest.
    apply andb_true_iff in Hrest as [Hc _]. cbn [before_question]. now rewrite Hc.
  - simpl in Hh. apply andb_true_iff in Hh as [Hc Hh].
    rewrite append_cons. cbn [before_question].
    rewrite (hash_char_not_question c Hc), IH by exact Hh. reflexivity.
Qed.

Lemma query_plain rest :
  is_query rest = true ->
  all_chars not_space rest = true /\ all_chars not_slash rest = true.
Proof.
  destruct rest as [|c q]; [split; reflexivity|]. simpl. intros H.
  apply andb_true_iff in H as [Hc Hq]. apply Ascii.eqb_eq in Hc. subst c.
  split; simpl.
  - apply (all_chars_impl query_char); [|exact Hq].
    intros c Hc. now apply andb_true_iff in Hc as [? _].
  - apply (all_chars_impl query_char); [|exact Hq].
    intros c Hc. now apply andb_true_iff in Hc as [_ ?].
Qed.

Lemma hash_not_in_link p h :
  (exists a b p', p = String a (String b p') /\ hash_char b = false) ->
  all_chars hash_char h = true -> contains p h = false.
Proof.
  intros (a & b & p' & -> & Hb) Hh. induction h as [|c h IH]; [reflexivity|].
  simpl in Hh. apply andb_true_iff in Hh as [Hc Hh].
  cbn [contains]. rewrite IH by exact Hh. rewrite orb_false_r.
  cbn [String.prefix]. destruct (ascii_dec a c); [|reflexivity].
  destruct h as [|c2 h2]; [reflexivity|]. cbn [String.prefix].
  destruct (ascii_dec b c2) as [<-|]; [|reflexivity].
  simpl in Hh. apply andb_true_iff in Hh as [Hc2 _]. congruence.
Qed.

Lemma extract_from_link link h rest :
  all_chars hash_char h = true ->
  is_query rest = true ->
  all_chars not_space link = true ->
  contains "bscscan.com/tx/" (link ++ h ++ rest)
  || contains "etherscan.io/tx/" (link ++ h ++ rest) = true ->
  after_last_tx (link ++ h ++ rest) = Some (h ++ rest) ->
  extract_hash (link ++ h ++ rest) = h.
Proof.
  intros Hh Hrest Hlink Hcontains Hsplit.
  destruct (query_plain rest Hrest) as [Hr1 Hr2].
  assert (Hplain : all_chars not_space (link ++ h ++ rest) = true).
  { rewrite !all_chars_app, Hlink, Hr1.
    now rewrite (all_chars_impl hash_char not_space h hash_char_not_space Hh). }
  unfold extract_hash. rewrite (strip_plain _ Hplain), Hcontains.
  unfold split_tx_last. rewrite Hsplit, (before_question_hash h rest Hh Hrest).
  apply strip_plain. exact (all_chars_impl hash_char not_space h hash_char_not_space Hh).
Qed.

(** X14.  The hash is read from what the seller sends: a bare hash is
    taken as it is, and from a link to the explorer of either chain the
    hash is what follows [tx/], up to a question mark. *)
Theorem hash_read_from_text_or_link h rest :
  all_chars hash_char h = true ->
  is_query rest = true ->
  extract_hash h = h /\
  extract_hash ("https://bscscan.com/tx/" ++ h ++ rest) = h /\
  extract_hash ("https://etherscan.io/tx/" ++ h ++ rest) = h.
Proof.
  intros Hh Hrest.
  destruct (query_plain rest Hrest) as [Hr1 Hr2].
  assert (Htail : all_chars not_slash (h ++ rest) = true).
  { rewrite all_chars_app, Hr2.
    now rewrite (all_chars_impl hash_char not_slash h hash_char_not_slash Hh). }
  split; [|split].
  - unfold extract_hash.
    rewrite (strip_plain h (all_chars_impl hash_char not_space h hash_char_not_space Hh)).
    rewrite (hash_not_in_link "bscscan.com/tx/" h), (hash_not_in_link "etherscan.io/tx/" h);
      try exact Hh; [reflexivity| |]; do 3 eexists; split; reflexivity.
  - apply (extract_from_link "https://bscscan.com/tx/" h rest Hh Hrest eq_refl).
    + apply orb_true_iff. left.
      change ("https://bscscan.com/tx/" ++ h ++ rest)
        with ("https://" ++ ("bscscan.com/tx/" ++ h ++ rest)).
      rewrite !append_cons, append_nil. do 8 apply contains_later. apply contains_here, prefix_app.
    + change ("https://bscscan.com/tx/" ++ h ++ rest)
        with ("https://bscscan.com/" ++ ("tx/" ++ h ++ rest)).
      rewrite !append_cons, append_nil. do 20 apply after_last_tx_cons. now apply after_last_tx_here.
  - apply (extract_from_link "https://etherscan.io/tx/" h rest Hh Hrest eq_refl).
    + apply orb_true_iff. right.
      change ("https://etherscan.io/tx/" ++ h ++ rest)
        with ("https://" ++ ("etherscan.io/tx/" ++ h ++ rest)).
      rewrite !append_cons, append_nil. do 8 apply contains_later. apply contains_here, prefix_app.
    + change ("https://etherscan.io/tx/" ++ h ++ rest)
        with ("https://etherscan.io/" ++ ("tx/" ++ h ++ rest)).
      rewrite !append_cons, append_nil. do 21 apply after_last_tx_cons. now apply after_last_tx_here.
Qed.

End LinkFacts.

Lemma hash_read_from_text_or_link_witness :
  extract_hash ("https://bscscan.com/tx/" ++ sample_hash ++ "?ref=share") = sample_hash.
Proof.
  refine (proj1 (proj2 (hash_read_from_text_or_link sample_hash "?ref=share" _ _)));
    vm_compute; reflexivity.
Defined.

(** ** Amounts that are not numbers, amounts of another room *)

(** C8.  The amount step and the rate step take [nan]: it is not at
    least 1, nor at least 85, yet [amount < 1] and [rate < 85] are false
    of it, so no rejection is sent, [nan] is stored as the amount, resp.
    the rate, of the user and the room moves to the next step. *)
Theorem nan_amount_advances :
  forall key ledger,
  let enter text := handle_text PyFloat.literal key ledger alice text (-1000000000007) in
  PyFloat.literal "nan" = Some FNaN /\
  at_least FNaN 1 = false /\
  at_least FNaN 85 = false /\
  trace_of (enter "nan") amount_awaited [] =
    [Bot (send (-1000000000007) Step2Prompt false) (Delivered 0)] /\
  user_amounts (state_after (enter "nan") amount_awaited []) = [(11, FNaN)] /\
  room_transaction_state (state_after (enter "nan") amount_awaited []) !! 7 = Some step2 /\
  user_rates (state_after (enter "nan") rate_awaited []) = [(11, FNaN)] /\
  room_transaction_state (state_after (enter "nan") rate_awaited []) !! 7 = Some step3.
Proof. intros key ledger. vm_compute. repeat split; reflexivity. Qed.

(** C2.  The master hash sent in room 8 confirms the amount entered in
    room 7: carol entered 50 in room 8 after alice had entered 1000 in
    room 7, and the amount taken for room 8 is the first of
    [user_amounts], whoever entered it.  No verification is made, the
    deposit-found message of room 8 carries 1000 and 1000 becomes the
    confirmed deposit of room 8. *)
Theorem master_hash_confirms_amount_of_another_room :
  let h := handle_text PyFloat.literal "KEY" unknown_transaction dave master_hash
             (-1000000000008) in
  user_amounts room8_awaits_hash = [(11, FFin 1000); (33, FFin 50)] /\
  room_transaction_state room8_awaits_hash !! 8 = Some awaiting_hash /\
  existsb is_verify (trace_of h room8_awaits_hash []) = false /\
  calls (trace_of h room8_awaits_hash []) =
    [message_delete;
     send (-1000000000008)
       (DepositFound (FFin 1000) ("0x" ++ PyStr.repeat_char "0" 40)
          "0xDA4c2a5B876b0c7521e1c752690D8705080000fE" master_hash) false;
     send (-1000000000008) PaymentReceived false] /\
  room_confirmed_deposits (state_after h room8_awaits_hash []) !! 8 = Some (FFin 1000) /\
  room_transaction_state (state_after h room8_awaits_hash []) !! 8 = None.
Proof. vm_compute. repeat split; reflexivity. Qed.

